(** * Multi-embedding face identification: embedding store, quality gate, matcher

    A shallow embedding of
      - app/models/face_embedding.py   (the FaceEmbedding table and its queries),
      - app/services/face_service.py   (the multi-embedding methods of FaceService),
      - app/services/face_detection.py (FaceDetector.__init__, find_face_distance),
      - app/utils/image_utils.py       (ImageProcessor.detect_face_quality),
    then of the further methods of the same classes (the legacy matcher,
    the administrative methods, compare_faces, recognize_face,
    process_image, crop_face) and of the routes /recognize and
    /register-multi of app/routes/face_api.py, followed by the properties
    of the matching engine and of these methods.

    Conventions.
      - A Python float is an exact rational (Q): the rounding of binary64 is
        not part of this model.
      - The SQLAlchemy session is an explicit state: the committed tables, the
        tables as seen inside the open transaction, and an oracle telling which
        kind of statement raises.  Methods run in a state-and-exception monad.
      - Third-party numeric routines (np.linalg.norm, cv2, np.mean, np.std) are
        section variables; the shape rules of numpy are written out.
      - The one place where rounding could matter, the two thresholds of the
        matcher, is also evaluated in binary64 (module Binary64). *)

From Stdlib Require Import List String ZArith QArith Qabs Bool Lia Lqa.
From Stdlib Require Import Permutation Sorted DecimalString SpecFloat.
Import ListNotations.

Local Open Scope Z_scope.

(** ** Python and numpy helpers *)

Module Py.

(** [a < b] and [a <= b] on floats. *)
Definition ltb (a b : Q) : bool := negb (Qle_bool b a).
Definition leb (a b : Q) : bool := Qle_bool a b.
Definition eqb (a b : Q) : bool := Qeq_bool a b.

(** [str(n)] for an int. *)
Definition str_int (n : Z) : string := NilZero.string_of_int (Z.to_int n).

(** [min(l)] on a non-empty list: the first element is kept until a
    strictly smaller one is met. *)
Fixpoint min_from (cur : Q) (l : list Q) : Q :=
  match l with
  | [] => cur
  | x :: l' => min_from (if ltb x cur then x else cur) l'
  end.

Definition min (l : list Q) : option Q :=
  match l with
  | [] => None
  | x :: l' => Some (min_from x l')
  end.

(** [l.index(x)]: position of the first element equal to [x]. *)
Fixpoint index (l : list Q) (x : Q) : option nat :=
  match l with
  | [] => None
  | y :: l' => if eqb y x then Some O
               else match index l' x with
                    | Some i => Some (S i)
                    | None => None
                    end
  end.

(** Bound of a slice [a[lo:hi]] on a sequence of length [n]: negative
    bounds count from the end, and every bound is clamped to [0, n]. *)
Definition slice_bound (n i : Z) : Z :=
  if i <? 0 then Z.max (i + n) 0 else Z.min i n.

Definition slice {A : Type} (l : list A) (lo hi : Z) : list A :=
  let n := Z.of_nat (List.length l) in
  let lo' := slice_bound n lo in
  let hi' := slice_bound n hi in
  firstn (Z.to_nat (hi' - lo')) (skipn (Z.to_nat lo') l).

(** Truth value of an optional string or int: [None], the empty string
    and [0] are false. *)
Definition truthy_str (s : option string) : bool :=
  match s with
  | Some s' => negb (String.eqb s' EmptyString)
  | None => false
  end.

Definition truthy_int (n : option Z) : bool :=
  match n with
  | Some n' => negb (n' =? 0)
  | None => false
  end.

End Py.


(** ** The tables (app/models) *)

Module Employee.

(** The columns of [employees] that the face service reads.
    [face_encoding] is the legacy single encoding as [get_face_encoding]
    reads it back: [None] for NULL or for a blob that is not an ndarray. *)
Record t := mk {
  id : Z;
  employee_code : string;
  face_encoding : option (list Q);
  is_active : bool
}.

End Employee.

Module FaceEmbedding.

(** A row of [face_embeddings].  [embedding_data] is the pickled blob as
    [get_embedding] reads it back: the vector, or [None] when the blob is
    empty or cannot be unpickled.  [embedding_shape] and [updated_at] are
    written but never read by the service and are left out. *)
Record t := mk {
  id : Z;
  employee_id : Z;
  employee_code : string;
  embedding_data : option (list Q);
  embedding_type : option string;
  variant_type : option string;
  description : option string;
  photo_path : option string;
  quality_score : option Q;
  is_primary : bool;
  is_active : bool;
  created_at : Z
}.

Definition get_embedding (self : t) : option (list Q) :=
  embedding_data self.

Definition with_is_primary (b : bool) (self : t) : t :=
  mk (id self) (employee_id self) (employee_code self) (embedding_data self)
     (embedding_type self) (variant_type self) (description self)
     (photo_path self) (quality_score self) b (is_active self)
     (created_at self).

(** [ORDER BY is_primary DESC, created_at DESC]: [a] may come before [b]. *)
Definition precedes (a b : t) : bool :=
  (is_primary a && negb (is_primary b))
  || (Bool.eqb (is_primary a) (is_primary b) && (created_at b <=? created_at a)).

Fixpoint insert_sorted (a : t) (l : list t) : list t :=
  match l with
  | [] => [a]
  | b :: l' => if precedes a b then a :: b :: l' else b :: insert_sorted a l'
  end.

(** The rows of a result set put in the order of the ORDER BY clause. *)
Fixpoint order_by (l : list t) : list t :=
  match l with
  | [] => []
  | a :: l' => insert_sorted a (order_by l')
  end.

(** [FaceEmbedding.query.filter_by(employee_code=...)], then
    [.filter_by(is_active=True)] when [active_only], then the ordering. *)
Definition get_all_embeddings (table : list t) (employee_code' : string)
    (active_only : bool) : list t :=
  let query := filter (fun r => String.eqb (employee_code r) employee_code') table in
  let query := if active_only then filter is_active query else query in
  order_by query.

End FaceEmbedding.

(** ** The database session *)

Module Db.

Record tables := mk_tables {
  employees : list Employee.t;
  face_embeddings : list FaceEmbedding.t
}.

(** The kinds of statement the service sends. *)
Inductive stmt :=
| SelectEmployee      (* query(Employee).filter(...).first() *)
| SelectEmployees     (* query(Employee).filter(...).all() *)
| SelectEmbedding     (* query(FaceEmbedding).filter_by(id=...).first() *)
| SelectEmbeddings    (* query(FaceEmbedding)...all() *)
| CountEmbeddings     (* ...count() *)
| UpdatePrimary       (* ...update({'is_primary': False}) *)
| Commit.             (* flush and COMMIT *)

(** [committed] is what the database holds, [pending] what the open
    transaction sees, [raises] which statements fail when executed. *)
Record session := mk_session {
  committed : tables;
  pending : tables;
  raises : stmt -> bool
}.

Inductive outcome (A : Type) :=
| Return (a : A)
| Raise (e : string).
Arguments Return {A} a.
Arguments Raise {A} e.

Definition M (A : Type) := session -> outcome A * session.

Definition ret {A} (a : A) : M A := fun s => (Return a, s).

Definition raise {A} (e : string) : M A := fun s => (Raise e, s).

Definition bind {A B} (m : M A) (k : A -> M B) : M B :=
  fun s => match m s with
           | (Return a, s') => k a s'
           | (Raise e, s') => (Raise e, s')
           end.

(** [try: body except Exception as e: handler(str(e))]. *)
Definition try_except {A} (body : M A) (handler : string -> M A) : M A :=
  fun s => match body s with
           | (Return a, s') => (Return a, s')
           | (Raise e, s') => handler e s'
           end.

(** Sending a statement: it raises when the oracle says so. *)
Definition execute (st : stmt) : M unit :=
  fun s => if raises s st then (Raise "database error"%string, s)
           else (Return tt, s).

Definition get_pending : M tables := fun s => (Return (pending s), s).

Definition put_face_embeddings (l : list FaceEmbedding.t) : M unit :=
  fun s => (Return tt,
            mk_session (committed s) (mk_tables (employees (pending s)) l) (raises s)).

(** [session.commit()]: the pending tables become the committed ones. *)
Definition commit : M unit :=
  bind (execute Commit)
       (fun _ s => (Return tt, mk_session (pending s) (pending s) (raises s))).

(** [session.rollback()]: the open transaction is dropped. *)
Definition rollback : M unit :=
  fun s => (Return tt, mk_session (committed s) (committed s) (raises s)).

(** The value a new row gets for its autoincrement primary key. *)
Definition next_id (l : list FaceEmbedding.t) : Z :=
  1 + fold_right Z.max 0 (map FaceEmbedding.id l).

End Db.

Notation "x <- m ;; k" := (Db.bind m (fun x => k))
  (at level 61, m at next level, right associativity).
Notation "m ;;; k" := (Db.bind m (fun _ => k))
  (at level 61, right associativity).

(** ** numpy and face_recognition (third-party routines) *)

Section Numpy.

(** [np.linalg.norm] of a one-dimensional array. *)
Variable norm : list Q -> Q.

(** [a - b] on one-dimensional arrays: the shapes must agree unless one
    of them has length 1, which is then stretched; anything else raises
    ([None]). *)
Definition broadcast_sub (a b : list Q) : option (list Q) :=
  if (List.length a =? List.length b)%nat
  then Some (map (fun p => (fst p - snd p)%Q) (combine a b))
  else match b, a with
       | [y], _ => Some (map (fun x => (x - y)%Q) a)
       | _, [x] => Some (map (fun y => (x - y)%Q) b)
       | _, _ => None
       end.

Fixpoint sub_rows (rows : list (list Q)) (b : list Q)
  : option (list (list Q)) :=
  match rows with
  | [] => Some []
  | r :: rows' =>
      match broadcast_sub r b, sub_rows rows' b with
      | Some d, Some ds => Some (d :: ds)
      | _, _ => None
      end
  end.

(** [face_recognition.face_distance(face_encodings, face_to_compare)]:
    [np.linalg.norm(face_encodings - face_to_compare, axis=1)], where the
    list of encodings first becomes a two-dimensional array, which raises
    when the rows differ in length. *)
Definition face_distance (face_encodings : list (list Q))
    (face_to_compare : list Q) : option (list Q) :=
  match face_encodings with
  | [] => Some []
  | r0 :: _ =>
      if forallb (fun r => (List.length r =? List.length r0)%nat) face_encodings
      then option_map (map norm) (sub_rows face_encodings face_to_compare)
      else None
  end.

End Numpy.

(** ** FaceDetector (app/services/face_detection.py) *)

Module FaceDetector.

Record t := mk {
  model : string;
  tolerance : Q
}.

(** [FaceDetector()] with the defaults of [__init__]. *)
Definition init : t := mk "hog" 0.4%Q.

(** Any exception of the library is caught and gives the empty list. *)
Definition find_face_distance (norm : list Q -> Q) (self : t)
    (face_encoding : list Q) (known_encodings : list (list Q))
  : list Q :=
  match known_encodings with
  | [] => []
  | _ => match face_distance norm known_encodings face_encoding with
         | Some distances => distances
         | None => []
         end
  end.

End FaceDetector.

(** ** FaceService, multi-embedding methods (app/services/face_service.py) *)

(** The dictionaries returned by the store operations: a key that a
    branch does not set is [None]. *)
Module Result.

Record t := mk {
  success : bool;
  message : string;
  employee_code : option string;
  embedding_id : option Z;
  variant_type : option string;
  is_primary : option bool
}.

End Result.

(** The dictionary returned by recognition. *)
Module Recognition.

Record t := mk {
  success : bool;
  message : string;
  employee_code : option string;
  confidence : Q;
  distance : option Q;
  method : option string
}.

End Recognition.

Module FaceService.

Import Db.

Record t := mk {
  face_detector : FaceDetector.t
}.

(** [FaceService(db_session)]: the detector is built with its defaults. *)
Definition init : t := mk FaceDetector.init.

Definition code_is (employee_code : string) (r : FaceEmbedding.t) : bool :=
  String.eqb (FaceEmbedding.employee_code r) employee_code.

Definition has_any_embeddings (employee_code : string) : M bool :=
  try_except
    (execute CountEmbeddings ;;;
     tb <- get_pending ;;
     let count :=
       List.length (filter (fun r => code_is employee_code r && FaceEmbedding.is_active r)
                           (face_embeddings tb)) in
     ret (0 <? Z.of_nat count))
    (fun _ => ret false).

(** [query(FaceEmbedding).filter_by(employee_code=..., is_primary=True)
      .update({'is_primary': False})]. *)
Definition unset_primary (employee_code : string) : M unit :=
  execute UpdatePrimary ;;;
  tb <- get_pending ;;
  put_face_embeddings
    (map (fun r => if code_is employee_code r && FaceEmbedding.is_primary r
                   then FaceEmbedding.with_is_primary false r else r)
         (face_embeddings tb)).

(** [now] is the reading of [datetime.now] that fills [created_at]. *)
Definition add_face_embedding (employee_code : string) (embedding : list Q)
    (variant_type embedding_type : string)
    (description photo_path : option string) (quality_score : option Q)
    (set_as_primary : bool) (now : Z) : M Result.t :=
  try_except
    (execute SelectEmployee ;;;
     tb <- get_pending ;;
     match find (fun e => String.eqb (Employee.employee_code e) employee_code)
                (employees tb) with
     | None =>
         ret (Result.mk false ("Employee " ++ employee_code ++ " not found")
                        (Some employee_code) None None None)
     | Some employee =>
         (if set_as_primary then unset_primary employee_code else ret tt) ;;;
         has_any <- has_any_embeddings employee_code ;;
         tb <- get_pending ;;
         let face_embedding :=
           FaceEmbedding.mk (next_id (face_embeddings tb)) (Employee.id employee)
             employee_code (Some embedding) (Some embedding_type)
             (Some variant_type) description photo_path quality_score
             (set_as_primary || negb has_any) true now in
         put_face_embeddings (face_embeddings tb ++ [face_embedding]) ;;;
         commit ;;;
         ret (Result.mk true "Face embedding added successfully"
                        (Some employee_code) (Some (FaceEmbedding.id face_embedding))
                        (Some variant_type)
                        (Some (FaceEmbedding.is_primary face_embedding)))
     end)
    (fun e =>
       rollback ;;;
       ret (Result.mk false ("Failed to add embedding: " ++ e)
                      (Some employee_code) None None None)).

Definition get_employee_embeddings (employee_code : string) (active_only : bool)
  : M (list FaceEmbedding.t) :=
  try_except
    (execute SelectEmbeddings ;;;
     tb <- get_pending ;;
     ret (FaceEmbedding.get_all_embeddings (face_embeddings tb) employee_code active_only))
    (fun _ => ret []).

(** The loop of [get_all_face_embeddings_multi] over the rows selected. *)
Fixpoint collect (embedding_dim : option Z) (embeddings_list : list FaceEmbedding.t)
    (encodings : list (list Q)) (employee_codes : list string)
  : list (list Q) * list string :=
  match embeddings_list with
  | [] => (encodings, employee_codes)
  | emb :: rest =>
      match FaceEmbedding.get_embedding emb with
      | None => collect embedding_dim rest encodings employee_codes
      | Some embedding =>
          if Py.truthy_int embedding_dim
             && negb (match embedding_dim with
                      | Some d => Z.of_nat (List.length embedding) =? d
                      | None => false
                      end)
          then collect embedding_dim rest encodings employee_codes
          else collect embedding_dim rest (encodings ++ [embedding])
                       (employee_codes ++ [FaceEmbedding.employee_code emb])
      end
  end.

Definition type_is (embedding_type : string) (r : FaceEmbedding.t) : bool :=
  match FaceEmbedding.embedding_type r with
  | Some ty => String.eqb ty embedding_type
  | None => false
  end.

Definition get_all_face_embeddings_multi (embedding_type : option string)
    (embedding_dim : option Z) : M (list (list Q) * list string) :=
  try_except
    (execute SelectEmbeddings ;;;
     tb <- get_pending ;;
     let query := filter FaceEmbedding.is_active (face_embeddings tb) in
     let query :=
       match embedding_type with
       | Some ty => if Py.truthy_str embedding_type then filter (type_is ty) query
                    else query
       | None => query
       end in
     ret (collect embedding_dim query [] []))
    (fun _ => ret ([], [])).

(** The loop of the legacy [get_all_face_encodings]. *)
Fixpoint collect_legacy (employees : list Employee.t)
    (encodings : list (list Q)) (employee_ids : list string)
  : list (list Q) * list string :=
  match employees with
  | [] => (encodings, employee_ids)
  | employee :: rest =>
      match Employee.face_encoding employee with
      | Some encoding =>
          collect_legacy rest (encodings ++ [encoding])
                         (employee_ids ++ [Employee.employee_code employee])
      | None => collect_legacy rest encodings employee_ids
      end
  end.

Definition get_all_face_encodings : M (list (list Q) * list string) :=
  try_except
    (execute SelectEmployees ;;;
     tb <- get_pending ;;
     let employees :=
       filter (fun e => match Employee.face_encoding e with
                        | Some _ => Employee.is_active e
                        | None => false
                        end) (employees tb) in
     ret (collect_legacy employees [] []))
    (fun _ => ret ([], [])).

(** [embedding.is_primary = True] on the row that [first()] returned. *)
Fixpoint assign_primary (embedding_id : Z) (l : list FaceEmbedding.t)
  : list FaceEmbedding.t :=
  match l with
  | [] => []
  | r :: l' => if FaceEmbedding.id r =? embedding_id
               then FaceEmbedding.with_is_primary true r :: l'
               else r :: assign_primary embedding_id l'
  end.

(** [session.delete(embedding)] on the row that [first()] returned. *)
Fixpoint delete_row (embedding_id : Z) (l : list FaceEmbedding.t)
  : list FaceEmbedding.t :=
  match l with
  | [] => []
  | r :: l' => if FaceEmbedding.id r =? embedding_id then l'
               else r :: delete_row embedding_id l'
  end.

Definition set_primary_embedding (embedding_id : Z) : M Result.t :=
  try_except
    (execute SelectEmbedding ;;;
     tb <- get_pending ;;
     match find (fun r => FaceEmbedding.id r =? embedding_id) (face_embeddings tb) with
     | None =>
         ret (Result.mk false ("Embedding " ++ Py.str_int embedding_id ++ " not found")
                        None (Some embedding_id) None None)
     | Some embedding =>
         unset_primary (FaceEmbedding.employee_code embedding) ;;;
         tb <- get_pending ;;
         put_face_embeddings (assign_primary embedding_id (face_embeddings tb)) ;;;
         commit ;;;
         ret (Result.mk true "Primary embedding set successfully"
                        (Some (FaceEmbedding.employee_code embedding))
                        (Some embedding_id) None None)
     end)
    (fun e =>
       rollback ;;;
       ret (Result.mk false ("Failed to set primary: " ++ e)
                      None (Some embedding_id) None None)).

Definition delete_face_embedding (embedding_id : Z) : M Result.t :=
  try_except
    (execute SelectEmbedding ;;;
     tb <- get_pending ;;
     match find (fun r => FaceEmbedding.id r =? embedding_id) (face_embeddings tb) with
     | None =>
         ret (Result.mk false ("Embedding " ++ Py.str_int embedding_id ++ " not found")
                        None (Some embedding_id) None None)
     | Some embedding =>
         let employee_code := FaceEmbedding.employee_code embedding in
         put_face_embeddings (delete_row embedding_id (face_embeddings tb)) ;;;
         commit ;;;
         ret (Result.mk true "Face embedding deleted successfully"
                        (Some employee_code) (Some embedding_id) None None)
     end)
    (fun e =>
       rollback ;;;
       ret (Result.mk false ("Deletion failed: " ++ e)
                      None (Some embedding_id) None None)).

Section Recognize.

(** [np.linalg.norm], and the rendering of [f'{confidence:.1%}']. *)
Variable norm : list Q -> Q.
Variable format_percent : Q -> string.

Definition recognize_employee_multi (self : t) (face_encoding : list Q)
    (use_multi_embedding : bool) : M Recognition.t :=
  try_except
    (known <- (if use_multi_embedding then get_all_face_embeddings_multi None None
               else get_all_face_encodings) ;;
     let known_encodings := fst known in
     let known_employee_codes := snd known in
     match known_encodings with
     | [] =>
         ret (Recognition.mk false "No registered faces found" None 0%Q None None)
     | _ :: _ =>
         let distances :=
           FaceDetector.find_face_distance norm (face_detector self)
                                           face_encoding known_encodings in
         match distances with
         | [] =>
             ret (Recognition.mk false "Could not calculate face distances"
                                 None 0%Q None None)
         | d0 :: ds =>
             let min_distance := Py.min_from d0 ds in
             match Py.index distances min_distance with
             | None => raise "ValueError"
             | Some best_match_index =>
                 match nth_error known_employee_codes best_match_index with
                 | None => raise "IndexError"
                 | Some best_employee_code =>
                     if Py.ltb min_distance (FaceDetector.tolerance (face_detector self))
                     then
                       let confidence := (1 - min_distance)%Q in
                       if Py.leb 0.6%Q confidence
                       then ret (Recognition.mk true "Employee recognized"
                                   (Some best_employee_code) confidence
                                   (Some min_distance)
                                   (Some (if use_multi_embedding
                                          then "multi_embedding"%string
                                          else "legacy"%string)))
                       else ret (Recognition.mk false
                                   ("Face detected but confidence too low ("
                                    ++ format_percent confidence
                                    ++ "). Please register your face.")
                                   None confidence (Some min_distance) None)
                     else ret (Recognition.mk false
                                 "No matching face found. Please register your face."
                                 None 0%Q (Some min_distance) None)
                 end
             end
         end
     end)
    (fun e =>
       ret (Recognition.mk false ("Recognition failed: " ++ e) None 0%Q None None)).

End Recognize.

(** A call of the store by an administrator or by enrollment. *)
Inductive call :=
| Add (employee_code : string) (embedding : list Q)
      (variant_type embedding_type : string)
      (description photo_path : option string) (quality_score : option Q)
      (set_as_primary : bool) (now : Z)
| SetPrimary (embedding_id : Z)
| Delete (embedding_id : Z).

Definition run_call (c : call) : M Result.t :=
  match c with
  | Add code emb variant ty descr photo quality prim now =>
      add_face_embedding code emb variant ty descr photo quality prim now
  | SetPrimary embedding_id => set_primary_embedding embedding_id
  | Delete embedding_id => delete_face_embedding embedding_id
  end.

(** A sequence of calls, each met by the database with its own failures. *)
Fixpoint run_calls (l : list ((stmt -> bool) * call)) (s : session) : session :=
  match l with
  | [] => s
  | (oracle, c) :: l' =>
      run_calls l' (snd (run_call c (mk_session (committed s) (pending s) oracle)))
  end.

End FaceService.

(** ** ImageProcessor.detect_face_quality (app/utils/image_utils.py) *)

Module ImageProcessor.

Record quality := mk_quality {
  quality_score : Z;
  is_blurry : bool;
  is_dark : bool;
  is_small : bool;
  brightness : Q;
  contrast : Q;
  laplacian_variance : option Q;
  face_ratio : option Q
}.

Section Quality.

(** An image is an array of rows of pixels, a pixel holding its three
    channels.  The grayscale statistics come from cv2 and numpy:
    [np.mean] and [np.std] of the gray region, and the variance of its
    Laplacian. *)
Variable pixel : Type.
Variable mean_gray : list (list pixel) -> Q.
Variable std_gray : list (list pixel) -> Q.
Variable laplacian_var : list (list pixel) -> Q.

(** [image.shape[0]], [image.shape[1]] and [image.size]. *)
Definition shape0 (image : list (list pixel)) : Z := Z.of_nat (List.length image).
Definition shape1 (image : list (list pixel)) : Z :=
  match image with
  | [] => 0
  | row :: _ => Z.of_nat (List.length row)
  end.
Definition size (image : list (list pixel)) : Z := shape0 image * shape1 image * 3.

(** [image[top:bottom, left:right]]. *)
Definition crop (image : list (list pixel)) (top bottom left right : Z)
  : list (list pixel) :=
  map (fun row => Py.slice row left right) (Py.slice image top bottom).

Definition empty_quality : quality :=
  mk_quality 0 true true true 0%Q 0%Q None None.

Definition detect_face_quality (image : list (list pixel))
    (face_location : Z * Z * Z * Z) : quality :=
  let '(top, right_, bottom, left_) := face_location in
  let face_region := crop image top bottom left_ right_ in
  if size face_region =? 0 then empty_quality
  else
    let brightness := mean_gray face_region in
    let contrast := std_gray face_region in
    let laplacian_var := laplacian_var face_region in
    let face_area := (bottom - top) * (right_ - left_) in
    let image_area := shape0 image * shape1 image in
    let face_ratio := (inject_Z face_area / inject_Z image_area)%Q in
    let is_blurry := Py.ltb laplacian_var 100%Q in
    let is_dark := Py.ltb brightness 50%Q in
    let is_small := Py.ltb face_ratio 0.01%Q in
    let quality_score := 0 in
    let quality_score := if negb is_blurry then quality_score + 30 else quality_score in
    let quality_score := if negb is_dark then quality_score + 30 else quality_score in
    let quality_score := if negb is_small then quality_score + 20 else quality_score in
    let quality_score :=
      if Py.leb 50%Q brightness && Py.leb brightness 200%Q
      then quality_score + 10
      else if (Py.leb 30%Q brightness && Py.ltb brightness 50%Q)
              || (Py.ltb 200%Q brightness && Py.leb brightness 250%Q)
           then quality_score + 5
           else quality_score in
    let quality_score :=
      if Py.ltb 30%Q contrast then quality_score + 10
      else if Py.ltb 20%Q contrast then quality_score + 5
           else quality_score in
    mk_quality (Z.min quality_score 100) is_blurry is_dark is_small
               brightness contrast (Some laplacian_var) (Some face_ratio).

End Quality.

Arguments shape0 {pixel} image.
Arguments shape1 {pixel} image.
Arguments size {pixel} image.
Arguments crop {pixel} image top bottom left right.
Arguments detect_face_quality {pixel} mean_gray std_gray laplacian_var image face_location.

End ImageProcessor.

(** ** The score of the quality gate as the specification words it *)

Module QualitySpec.

Definition blurry (sharpness : Q) : Prop := (sharpness < 100)%Q.
Definition dark (brightness : Q) : Prop := (brightness < 50)%Q.
Definition small (area_ratio : Q) : Prop := (area_ratio < 0.01)%Q.

(** The five additive terms, each as a relation between the measurement
    and the points it earns. *)
Inductive sharp_points (sharpness : Q) : Z -> Prop :=
| sharp_yes : ~ blurry sharpness -> sharp_points sharpness 30
| sharp_no : blurry sharpness -> sharp_points sharpness 0.

Inductive light_points (brightness : Q) : Z -> Prop :=
| light_yes : ~ dark brightness -> light_points brightness 30
| light_no : dark brightness -> light_points brightness 0.

Inductive size_points (area_ratio : Q) : Z -> Prop :=
| size_yes : ~ small area_ratio -> size_points area_ratio 20
| size_no : small area_ratio -> size_points area_ratio 0.

Inductive brightness_points (b : Q) : Z -> Prop :=
| bright_mid : (50 <= b)%Q -> (b <= 200)%Q -> brightness_points b 10
| bright_low : (30 <= b)%Q -> (b < 50)%Q -> brightness_points b 5
| bright_high : (200 < b)%Q -> (b <= 250)%Q -> brightness_points b 5
| bright_out : (b < 30)%Q \/ (250 < b)%Q -> brightness_points b 0.

Inductive contrast_points (c : Q) : Z -> Prop :=
| contrast_high : (30 < c)%Q -> contrast_points c 10
| contrast_mid : (20 < c)%Q -> (c <= 30)%Q -> contrast_points c 5
| contrast_low : (c <= 20)%Q -> contrast_points c 0.

(** Score: the sum of the five terms, capped at 100. *)
Definition score (sharpness brightness contrast area_ratio : Q) (n : Z) : Prop :=
  exists p1 p2 p3 p4 p5,
    sharp_points sharpness p1 /\ light_points brightness p2 /\
    size_points area_ratio p3 /\ brightness_points brightness p4 /\
    contrast_points contrast p5 /\
    n = Z.min (p1 + p2 + p3 + p4 + p5) 100.

End QualitySpec.

(** ** Executable instances of the numeric routines

    Used to run the model on concrete inputs: a square root rounded down
    to twelve decimals for the Euclidean norm, and the one-decimal
    percentage of Python's format. *)

Module Numeric.

Definition sqrt (q : Q) : Q :=
  Qred (Z.sqrt (Qnum q * 10 ^ 24 / Zpos (Qden q)) # 10 ^ 12).

Definition norm (v : list Q) : Q :=
  sqrt (fold_right (fun x acc => (x * x + acc)%Q) 0%Q v).

(** Nearest integer, ties to even. *)
Definition round_half_even (q : Q) : Z :=
  let n := Qnum q in
  let d := Zpos (Qden q) in
  let fl := n / d in
  let twice := 2 * (n - fl * d) in
  if twice <? d then fl
  else if d <? twice then fl + 1
  else if Z.even fl then fl else fl + 1.

Definition format_percent (q : Q) : string :=
  let tenths := round_half_even (q * inject_Z 1000)%Q in
  let a := Z.abs tenths in
  let sign := if tenths <? 0 then "-"%string else EmptyString in
  (sign ++ Py.str_int (a / 10) ++ "." ++ Py.str_int (a mod 10) ++ "%")%string.

End Numeric.

(** ** binary64 at the thresholds of the matcher *)

Module Binary64.

Definition sub : spec_float -> spec_float -> spec_float := SFsub 53 1024.

(** The value of a finite number. *)
Definition to_Q (x : spec_float) : Q :=
  match x with
  | S754_finite s m e =>
      let v := if 0 <=? e then inject_Z (Zpos m * 2 ^ e)
               else (Zpos m # Z.to_pos (2 ^ (- e))) in
      if s then (- v)%Q else v
  | _ => 0%Q
  end.

(** [1.0], [0.4], the number just below [0.4] (same exponent, mantissa
    less one), and [0.6]. *)
Definition one : spec_float := S754_finite false 4503599627370496 (-52).
Definition tolerance : spec_float := S754_finite false 7205759403792794 (-54).
Definition below_tolerance : spec_float := S754_finite false 7205759403792793 (-54).
Definition floor : spec_float := S754_finite false 5404319552844595 (-53).

End Binary64.

(** ** The gallery and the outcomes of recognition, named *)

Module Gallery.

(** What one selected row contributes to the gallery: its vector and its
    owner, unless the vector is unreadable or has the wrong size. *)
Definition entry (embedding_dim : option Z) (r : FaceEmbedding.t)
  : list (list Q * string) :=
  match FaceEmbedding.get_embedding r with
  | None => []
  | Some v =>
      match embedding_dim with
      | Some d => if (d =? 0) || (Z.of_nat (List.length v) =? d)
                  then [(v, FaceEmbedding.employee_code r)] else []
      | None => [(v, FaceEmbedding.employee_code r)]
      end
  end.

Definition entries (embedding_dim : option Z) (rows : list FaceEmbedding.t)
  : list (list Q * string) :=
  flat_map (entry embedding_dim) rows.

(** The rows a type filter lets through. *)
Definition of_type (embedding_type : option string) (r : FaceEmbedding.t) : bool :=
  match embedding_type with
  | Some ty => if String.eqb ty EmptyString then true else FaceService.type_is ty r
  | None => true
  end.

End Gallery.

Module Outcome.

Definition no_registered_faces : Recognition.t :=
  Recognition.mk false "No registered faces found" None 0%Q None None.

Definition no_distances : Recognition.t :=
  Recognition.mk false "Could not calculate face distances" None 0%Q None None.

Definition recognized (code : string) (confidence distance : Q) (multi : bool)
  : Recognition.t :=
  Recognition.mk true "Employee recognized" (Some code) confidence (Some distance)
    (Some (if multi then "multi_embedding"%string else "legacy"%string)).

Definition low_confidence (format_percent : Q -> string) (confidence distance : Q)
  : Recognition.t :=
  Recognition.mk false
    ("Face detected but confidence too low (" ++ format_percent confidence
     ++ "). Please register your face.")
    None confidence (Some distance) None.

Definition no_match (distance : Q) : Recognition.t :=
  Recognition.mk false "No matching face found. Please register your face."
    None 0%Q (Some distance) None.

End Outcome.

(** ** Invariants of the store *)

Module Store.

(** The active primary rows of an identity. *)
Definition active_primaries (employee_code : string) (l : list FaceEmbedding.t)
  : list FaceEmbedding.t :=
  filter (fun r => FaceService.code_is employee_code r
                   && FaceEmbedding.is_active r && FaceEmbedding.is_primary r) l.

Definition primary_unique (l : list FaceEmbedding.t) : Prop :=
  forall employee_code, (List.length (active_primaries employee_code l) <= 1)%nat.

Definition has_active (employee_code : string) (l : list FaceEmbedding.t) : bool :=
  existsb (fun r => FaceService.code_is employee_code r && FaceEmbedding.is_active r) l.

(** No statement is in flight: the transaction sees what is committed. *)
Definition clean (s : Db.session) : Prop := Db.pending s = Db.committed s.

(** The statements whose failure aborts a call. *)
Definition aborts (oracle : Db.stmt -> bool) (c : FaceService.call) : bool :=
  match c with
  | FaceService.Add _ _ _ _ _ _ _ prim _ =>
      oracle Db.SelectEmployee || (prim && oracle Db.UpdatePrimary) || oracle Db.Commit
  | FaceService.SetPrimary _ =>
      oracle Db.SelectEmbedding || oracle Db.UpdatePrimary || oracle Db.Commit
  | FaceService.Delete _ =>
      oracle Db.SelectEmbedding || oracle Db.Commit
  end.

Definition no_failure : Db.stmt -> bool := fun _ => false.

(** The session after a rollback, and after a commit of new rows. *)
Definition rolled_back (s : Db.session) : Db.session :=
  Db.mk_session (Db.committed s) (Db.committed s) (Db.raises s).

Definition persisted (rows : list FaceEmbedding.t) (s : Db.session) : Db.session :=
  let tb := Db.mk_tables (Db.employees (Db.pending s)) rows in
  Db.mk_session tb tb (Db.raises s).

(** The order of a listing: primary rows first, then the most recent. *)
Definition comes_before (a b : FaceEmbedding.t) : Prop :=
  (FaceEmbedding.is_primary a = true /\ FaceEmbedding.is_primary b = false)
  \/ (FaceEmbedding.is_primary a = FaceEmbedding.is_primary b
      /\ FaceEmbedding.created_at b <= FaceEmbedding.created_at a).

(** The rows after the primary flags of an identity are cleared. *)
Definition cleared (employee_code : string) (l : list FaceEmbedding.t)
  : list FaceEmbedding.t :=
  map (fun r => if FaceService.code_is employee_code r && FaceEmbedding.is_primary r
                then FaceEmbedding.with_is_primary false r else r) l.

End Store.

(** ** Concrete stores *)

Module Example.

Definition row (id : Z) (employee_code : string) (v : list Q)
    (embedding_type : string) (is_primary is_active : bool) (created_at : Z)
  : FaceEmbedding.t :=
  FaceEmbedding.mk id id employee_code (Some v) (Some embedding_type)
    (Some "default"%string) None None None is_primary is_active created_at.

Definition staff : list Employee.t :=
  [Employee.mk 1 "E1" None true; Employee.mk 2 "E2" None true].

Definition store (rows : list FaceEmbedding.t) (raises : Db.stmt -> bool)
  : Db.session :=
  Db.mk_session (Db.mk_tables staff rows) (Db.mk_tables staff rows) raises.

Definition fresh : Db.session := store [] Store.no_failure.

(** One enrolled face of two dimensions. *)
Definition one_face : Db.session :=
  store [row 1 "E1" [0; 0]%Q "standard" true true 10] Store.no_failure.

(** One enrolled face at distance 0.45 from the origin. *)
Definition far_face : Db.session :=
  store [row 1 "E1" [0.45; 0]%Q "standard" true true 10] Store.no_failure.

(** Two faces of different embedding types and the same length. *)
Definition two_types : Db.session :=
  store [row 1 "E1" [0; 0]%Q "standard" true true 10;
         row 2 "E2" [1; 1]%Q "deepface" true true 20] Store.no_failure.

(** Two faces of different lengths. *)
Definition two_lengths : Db.session :=
  store [row 1 "E1" [0; 0]%Q "standard" true true 10;
         row 2 "E2" [1; 1; 1]%Q "deepface" true true 20] Store.no_failure.

(** A database that refuses to commit. *)
Definition commit_fails : Db.stmt -> bool :=
  fun st => match st with Db.Commit => true | _ => false end.


(** E1 enrolls twice, the second time as primary; making the first row
    primary again fails at commit once and then succeeds. *)
Definition enrollments : list ((Db.stmt -> bool) * FaceService.call) :=
  [(Store.no_failure,
    FaceService.Add "E1" [0; 0]%Q "default" "standard" None None None false 10);
   (Store.no_failure,
    FaceService.Add "E1" [1; 1]%Q "with_glasses" "standard" None None None true 20);
   (commit_fails, FaceService.SetPrimary 1);
   (Store.no_failure, FaceService.SetPrimary 1)].

(** One primary row of E1, in a database that refuses to commit. *)
Definition refusing : Db.session :=
  store [row 1 "E1" [0; 0]%Q "standard" true true 10] commit_fails.

(** A service whose detector was given the tolerance 0.6. *)
Definition loose : FaceService.t := FaceService.mk (FaceDetector.mk "hog" 0.6%Q).

End Example.

(** * Further methods of the same classes *)

(** ** Python dictionaries with string keys *)

Module PyDict.

(** The items in insertion order. *)
Definition t (V : Type) := list (string * V).

(** [d.get(k)]. *)
Fixpoint get {V : Type} (d : t V) (k : string) : option V :=
  match d with
  | [] => None
  | (k', v) :: d' => if String.eqb k' k then Some v else get d' k
  end.

(** [d[k] = v]: an existing key keeps its place and takes the value. *)
Fixpoint set {V : Type} (d : t V) (k : string) (v : V) : t V :=
  match d with
  | [] => [(k, v)]
  | (k', v') :: d' => if String.eqb k' k then (k', v) :: d'
                      else (k', v') :: set d' k v
  end.

End PyDict.

(** ** The remaining queries of the model (app/models/face_embedding.py) *)

Module FaceEmbeddingQuery.

(** [filter_by(employee_code=..., is_primary=True, is_active=True).first()]. *)
Definition get_primary_embedding (table : list FaceEmbedding.t)
    (employee_code : string) : option FaceEmbedding.t :=
  find (fun r => String.eqb (FaceEmbedding.employee_code r) employee_code
                 && FaceEmbedding.is_primary r && FaceEmbedding.is_active r) table.

(** [filter_by(employee_code=..., variant_type=..., is_active=True).all()];
    a NULL variant equals no string. *)
Definition get_embeddings_by_variant (table : list FaceEmbedding.t)
    (employee_code variant_type : string) : list FaceEmbedding.t :=
  filter (fun r => String.eqb (FaceEmbedding.employee_code r) employee_code
                   && match FaceEmbedding.variant_type r with
                      | Some v => String.eqb v variant_type
                      | None => false
                      end
                   && FaceEmbedding.is_active r) table.

End FaceEmbeddingQuery.

(** ** FaceDetector.compare_faces and recognize_face *)

Module FaceDetectorMatch.

Section Match.

Variable norm : list Q -> Q.

(** [face_recognition.compare_faces] is
    [list(face_distance(known, face) <= tolerance)]; any exception gives
    the empty list. *)
Definition compare_faces (self : FaceDetector.t) (face_encoding : list Q)
    (known_encodings : list (list Q)) : list bool :=
  match known_encodings with
  | [] => []
  | _ => match face_distance norm known_encodings face_encoding with
         | Some distances =>
             map (fun d => Py.leb d (FaceDetector.tolerance self)) distances
         | None => []
         end
  end.

(** [np.argmin] is the position of the first least element; on an empty
    list it raises, as does an index past the end of [known_names], and
    the handler returns [None]. *)
Definition recognize_face (self : FaceDetector.t) (face_encoding : list Q)
    (known_encodings : list (list Q)) (known_names : list string)
  : option string :=
  match known_encodings, known_names with
  | [], _ => None
  | _, [] => None
  | _ :: _, _ :: _ =>
      let matches := compare_faces self face_encoding known_encodings in
      if existsb (fun m => m) matches
      then
        let face_distances :=
          FaceDetector.find_face_distance norm self face_encoding known_encodings in
        match face_distances with
        | [] => None
        | d0 :: ds =>
            match Py.index face_distances (Py.min_from d0 ds) with
            | None => None
            | Some best_match_index =>
                match nth_error face_distances best_match_index with
                | None => None
                | Some d =>
                    if Py.ltb d (FaceDetector.tolerance self)
                    then nth_error known_names best_match_index
                    else None
                end
            end
        end
      else None
  end.

End Match.

End FaceDetectorMatch.

(** ** FaceService: the legacy matcher and the administrative methods *)

(** The dictionary of [delete_all_employee_embeddings]. *)
Module Deletion.

Record t := mk {
  success : bool;
  message : string;
  employee_code : string;
  deleted_count : option Z
}.

End Deletion.

(** The dictionary of [get_embedding_statistics]. *)
Module Statistics.

Record t := mk {
  total_embeddings : Z;
  total_employees_with_embeddings : Z;
  variant_counts : PyDict.t Z;
  average_embeddings_per_employee : Q
}.

End Statistics.

Module FaceServiceMore.

Import Db.

(** A statement that has no kind of its own in [Db.stmt]: whether it
    raises is told where it is sent. *)
Definition execute_other (raises : bool) : M unit :=
  fun s => if raises then (Raise "database error"%string, s) else (Return tt, s).

(** [emb.variant_type or 'default']. *)
Definition variant_or_default (variant : option string) : string :=
  match variant with
  | Some v => if String.eqb v EmptyString then "default"%string else v
  | None => "default"%string
  end.

(** The loop of [get_employee_embeddings_dict]. *)
Fixpoint fill (embeddings : list FaceEmbedding.t) (result : PyDict.t (list Q))
  : PyDict.t (list Q) :=
  match embeddings with
  | [] => result
  | emb :: rest =>
      match FaceEmbedding.get_embedding emb with
      | Some embedding_data =>
          fill rest (PyDict.set result
                       (variant_or_default (FaceEmbedding.variant_type emb))
                       embedding_data)
      | None => fill rest result
      end
  end.

Definition get_employee_embeddings_dict (employee_code : string)
    (active_only : bool) : M (PyDict.t (list Q)) :=
  try_except
    (embeddings <- FaceService.get_employee_embeddings employee_code active_only ;;
     ret (fill embeddings []))
    (fun _ => ret []).

(** [query(FaceEmbedding).filter_by(employee_code=...).delete()] returns
    the number of rows it deleted. *)
Definition delete_all_employee_embeddings (delete_raises : bool)
    (employee_code : string) : M Deletion.t :=
  try_except
    (execute_other delete_raises ;;;
     tb <- get_pending ;;
     let count :=
       Z.of_nat (List.length (filter (FaceService.code_is employee_code)
                                     (face_embeddings tb))) in
     put_face_embeddings
       (filter (fun r => negb (FaceService.code_is employee_code r))
               (face_embeddings tb)) ;;;
     commit ;;;
     ret (Deletion.mk true ("Deleted " ++ Py.str_int count ++ " embeddings")
                      employee_code (Some count)))
    (fun e =>
       rollback ;;;
       ret (Deletion.mk false ("Deletion failed: " ++ e) employee_code None)).

(** The loop that counts the variants. *)
Fixpoint count_variants (variants : list (option string)) (variant_counts : PyDict.t Z)
  : PyDict.t Z :=
  match variants with
  | [] => variant_counts
  | variant :: rest =>
      let variant := variant_or_default variant in
      count_variants rest
        (PyDict.set variant_counts variant
           (match PyDict.get variant_counts variant with
            | Some n => n
            | None => 0
            end + 1))
  end.

Section Average.

(** Python's [a / b] on two ints: the binary64 number nearest to the
    quotient, as the rational it is.  The rounding is that of the
    language and is not fixed here. *)
Variable true_div : Z -> Z -> Q.

Definition get_embedding_statistics : M Statistics.t :=
  try_except
    (execute CountEmbeddings ;;;
     tb <- get_pending ;;
     let active := filter FaceEmbedding.is_active (face_embeddings tb) in
     let total_embeddings := Z.of_nat (List.length active) in
     execute CountEmbeddings ;;;
     let total_employees_with_embeddings :=
       Z.of_nat (List.length (nodup String.string_dec
                                    (map FaceEmbedding.employee_code active))) in
     execute SelectEmbeddings ;;;
     let variants := map FaceEmbedding.variant_type active in
     let variant_counts := count_variants variants [] in
     ret (Statistics.mk total_embeddings total_employees_with_embeddings
            variant_counts
            (if 0 <? total_employees_with_embeddings
             then true_div total_embeddings total_employees_with_embeddings
             else 0%Q)))
    (fun _ => ret (Statistics.mk 0 0 [] 0%Q)).

End Average.

Section Legacy.

Variable norm : list Q -> Q.
Variable format_percent : Q -> string.

(** [recognize_employee]: the matcher over the legacy encodings. *)
Definition recognize_employee (self : FaceService.t) (face_encoding : list Q)
  : M Recognition.t :=
  try_except
    (known <- FaceService.get_all_face_encodings ;;
     let known_encodings := fst known in
     let known_employee_ids := snd known in
     match known_encodings with
     | [] =>
         ret (Recognition.mk false "No registered faces found" None 0%Q None None)
     | _ :: _ =>
         let distances :=
           FaceDetector.find_face_distance norm (FaceService.face_detector self)
                                           face_encoding known_encodings in
         match distances with
         | [] =>
             ret (Recognition.mk false "Could not calculate face distances"
                                 None 0%Q None None)
         | d0 :: ds =>
             let min_distance := Py.min_from d0 ds in
             match Py.index distances min_distance with
             | None => raise "ValueError"
             | Some best_match_index =>
                 if Py.ltb min_distance
                           (FaceDetector.tolerance (FaceService.face_detector self))
                 then
                   let confidence := (1 - min_distance)%Q in
                   if Py.leb 0.6%Q confidence
                   then
                     match nth_error known_employee_ids best_match_index with
                     | None => raise "IndexError"
                     | Some employee_code =>
                         ret (Recognition.mk true "Employee recognized"
                                (Some employee_code) confidence
                                (Some min_distance) None)
                     end
                   else ret (Recognition.mk false
                               ("Face detected but confidence too low ("
                                ++ format_percent confidence
                                ++ "). Please register your face.")
                               None confidence (Some min_distance) None)
                 else ret (Recognition.mk false
                             "No matching face found. Please register your face."
                             None 0%Q (Some min_distance) None)
             end
         end
     end)
    (fun e =>
       ret (Recognition.mk false ("Recognition failed: " ++ e) None 0%Q None None)).

End Legacy.

End FaceServiceMore.

(** ** ImageProcessor.crop_face *)

Module ImageCrop.

(** The box is widened by [padding] and clamped to the image before the
    slice is taken. *)
Definition crop_face {pixel : Type} (image : list (list pixel))
    (face_location : Z * Z * Z * Z) (padding : Z) : list (list pixel) :=
  let '(top, right_, bottom, left_) := face_location in
  let h := ImageProcessor.shape0 image in
  let w := ImageProcessor.shape1 image in
  let top := Z.max 0 (top - padding) in
  let bottom := Z.min h (bottom + padding) in
  let left_ := Z.max 0 (left_ - padding) in
  let right_ := Z.min w (right_ + padding) in
  ImageProcessor.crop image top bottom left_ right_.

End ImageCrop.

(** ** More vocabulary for the store *)

Module StoreMore.




(** The sum of the values of a dictionary of counts. *)
Definition total_count (d : PyDict.t Z) : Z :=
  fold_right (fun kv acc => snd kv + acc) 0 d.

End StoreMore.

(** ** FaceDetector.process_image and the routes of app/routes/face_api.py *)

(** What [process_image] returns. *)
Module Processed.

Record t := mk {
  faces_found : Z;
  face_locations : list (Z * Z * Z * Z);
  face_encodings : list (list Q);
  names : list string
}.

End Processed.

(** A JSON object sent to a route: the keys the routes read, each absent
    ([None]) or present with a value of the type the route expects, and
    whether the object has further keys. *)
Module Json.

Record t := mk {
  employee_code : option string;
  image : option string;
  variant_type : option string;
  description : option string;
  set_as_primary : option bool;
  other_keys : bool
}.

(** [not data] for an object: it has no key at all. *)
Definition is_empty (data : t) : bool :=
  match employee_code data, image data, variant_type data, description data,
        set_as_primary data with
  | None, None, None, None, None => negb (other_keys data)
  | _, _, _, _, _ => false
  end.

End Json.

(** What [request.get_json()] gives inside the [try] of a route: it
    raises (the body is not JSON, or is not announced as JSON), or it
    returns the parsed value, which is null, an object, or a value of
    another type (a list, a string, a number, a boolean).  Of the latter
    the routes see whether it is truthy and, through the AttributeError
    that [data.get] raises, the name of its type. *)
Module Request.

Inductive json :=
| Null
| Object (data : Json.t)
| Other (truthy : bool) (type_name : string).

Inductive t :=
| Raises (e : string)
| Returns (data : json).

(** [str(e)] of the AttributeError of [data.get] on a value that is not
    an object. *)
Definition no_get (type_name : string) : string :=
  ("'" ++ type_name ++ "' object has no attribute 'get'")%string.

End Request.

(** A response: the status and the body, which is either an error
    object [{'success': False, 'message': ...}] or the dictionary of the
    service. *)
Module Response.

Inductive body (A : Type) :=
| Failure (message : string)
| Payload (a : A).
Arguments Failure {A} message.
Arguments Payload {A} a.

Record t (A : Type) := mk {
  content : body A;
  status : Z
}.
Arguments mk {A} content status.
Arguments content {A} t.
Arguments status {A} t.

End Response.

Module FaceApi.

Import Db.

Section Routes.

(** The decoded image and the third-party routines: [_decode_image]
    ([None] when the data cannot be decoded),
    [face_recognition.face_locations] and [face_recognition.face_encodings]
    on the converted image ([None] when they raise), [np.linalg.norm] and
    the formatting of a percentage. *)
Variable image : Type.
Variable decode_image : string -> option image.
Variable face_locations : image -> option (list (Z * Z * Z * Z)).
Variable face_encodings : image -> list (Z * Z * Z * Z) -> option (list (list Q)).
Variable norm : list Q -> Q.
Variable format_percent : Q -> string.

Definition detect_faces (img : image) : list (Z * Z * Z * Z) :=
  match face_locations img with
  | Some locations => locations
  | None => []
  end.

Definition get_face_encodings (img : image)
    (locations : option (list (Z * Z * Z * Z))) : list (list Q) :=
  let locations := match locations with
                   | Some l => l
                   | None => detect_faces img
                   end in
  match locations with
  | [] => []
  | _ :: _ => match face_encodings img locations with
              | Some encodings => encodings
              | None => []
              end
  end.

(** [name or "Unknown"]. *)
Definition name_or_unknown (name : option string) : string :=
  match name with
  | Some n => if String.eqb n EmptyString then "Unknown"%string else n
  | None => "Unknown"%string
  end.

(** [known_face_encodings] and [known_face_names] are the lists held by
    the detector. *)
Definition process_image (self : FaceDetector.t)
    (known_face_encodings : list (list Q)) (known_face_names : list string)
    (img : image) : Processed.t :=
  let locations := detect_faces img in
  match locations with
  | [] => Processed.mk 0 [] [] []
  | _ :: _ =>
      let encodings := get_face_encodings img (Some locations) in
      let names :=
        match known_face_encodings with
        | [] => repeat "Unknown"%string (List.length encodings)
        | _ :: _ =>
            map (fun encoding =>
                   name_or_unknown
                     (FaceDetectorMatch.recognize_face norm self encoding
                        known_face_encodings known_face_names))
                encodings
        end in
      Processed.mk (Z.of_nat (List.length locations)) locations encodings names
  end.

(** The detector of the module, [FaceDetector()], holds no known face. *)
Definition face_detector : FaceDetector.t := FaceDetector.init.

(** POST /api/face/recognize. *)
Definition recognize_face (request : Request.t) : M (Response.t Recognition.t) :=
  try_except
    (match request with
     | Request.Raises e => raise e
     | Request.Returns Request.Null =>
         ret (Response.mk (Response.Failure "Không có dữ liệu") 400)
     | Request.Returns (Request.Other truthy type_name) =>
         if negb truthy
         then ret (Response.mk (Response.Failure "Không có dữ liệu") 400)
         else raise (Request.no_get type_name)
     | Request.Returns (Request.Object data) =>
         if Json.is_empty data
         then ret (Response.mk (Response.Failure "Không có dữ liệu") 400)
         else
           match Json.image data with
           | None => ret (Response.mk (Response.Failure "Dữ liệu ảnh là bắt buộc") 400)
           | Some image_data =>
               if String.eqb image_data EmptyString
               then ret (Response.mk (Response.Failure "Dữ liệu ảnh là bắt buộc") 400)
               else
                 match decode_image image_data with
                 | None =>
                     ret (Response.mk (Response.Failure "Dữ liệu ảnh không hợp lệ") 400)
                 | Some img =>
                     let result := process_image face_detector [] [] img in
                     if Processed.faces_found result =? 0
                     then ret (Response.mk
                                 (Response.Failure "Không có khuôn mặt trong ảnh") 400)
                     else if 1 <? Processed.faces_found result
                     then ret (Response.mk
                                 (Response.Failure
                                    "Nhiều khuôn mặt được phát hiện. Vui lòng sử dụng ảnh với một khuôn mặt")
                                 400)
                     else
                       match Processed.face_encodings result with
                       | [] => raise "list index out of range"
                       | face_encoding :: _ =>
                           recognition_result <-
                             FaceService.recognize_employee_multi norm format_percent
                               FaceService.init face_encoding true ;;
                           ret (Response.mk (Response.Payload recognition_result) 200)
                       end
                 end
           end
     end)
    (fun e => ret (Response.mk (Response.Failure ("Nhận dạng thất bại: " ++ e)) 500)).


End Routes.

End FaceApi.

(** ** More concrete inputs *)

Module Sample.

(** Two identities enrolled with the same vector. *)
Definition twins : Db.session :=
  Example.store [Example.row 1 "E1" [0; 0]%Q "standard" true true 10;
                 Example.row 2 "E2" [0; 0]%Q "standard" true true 20]
    Store.no_failure.

(** Two rows of E1, the older one not primary. *)
Definition two_rows : Db.session :=
  Example.store [Example.row 1 "E1" [0; 0]%Q "standard" false true 10;
                 Example.row 2 "E1" [1; 1]%Q "standard" true true 20]
    Store.no_failure.

(** E2 enrolls a first face, not asking to be primary; E1 enrolls a
    second one as primary. *)
Definition enroll_E2 : FaceService.call :=
  FaceService.Add "E2" [1; 1]%Q "default" "standard" None None None false 30.

Definition enroll_E1_primary : FaceService.call :=
  FaceService.Add "E1" [1; 1]%Q "with_glasses" "standard" None None None true 30.


(** An image of four rows of four gray pixels, and measurements of a
    bright, contrasted and sharp region. *)
Definition gray : list (list Z) := repeat (repeat 128 4%nat) 4%nat.

Definition mean_gray (region : list (list Z)) : Q := 128%Q.
Definition std_gray (region : list (list Z)) : Q := 40%Q.
Definition laplacian_var (region : list (list Z)) : Q := 150%Q.

End Sample.

(** * Properties *)

(** ** Comparisons *)

Lemma ltb_lt (a b : Q) : Py.ltb a b = true <-> (a < b)%Q.
Proof.
  unfold Py.ltb. rewrite negb_true_iff. split; intro H.
  - apply Qnot_le_lt. intro Hle. apply Qle_bool_iff in Hle. congruence.
  - destruct (Qle_bool b a) eqn:E; [|reflexivity].
    apply Qle_bool_iff in E. exfalso. apply (Qlt_not_le _ _ H E).
Qed.

Lemma ltb_ge (a b : Q) : Py.ltb a b = false <-> (b <= a)%Q.
Proof.
  unfold Py.ltb. rewrite negb_false_iff. apply Qle_bool_iff.
Qed.

Lemma leb_le (a b : Q) : Py.leb a b = true <-> (a <= b)%Q.
Proof. apply Qle_bool_iff. Qed.

Lemma leb_gt (a b : Q) : Py.leb a b = false <-> (b < a)%Q.
Proof.
  unfold Py.leb. split; intro H.
  - apply Qnot_le_lt. intro Hle. apply Qle_bool_iff in Hle. congruence.
  - destruct (Qle_bool a b) eqn:E; [|reflexivity].
    apply Qle_bool_iff in E. exfalso. apply (Qlt_not_le _ _ H E).
Qed.

(** ** The gallery *)

Lemma collect_entries (dim : option Z) (rows : list FaceEmbedding.t) :
  forall encodings codes,
    FaceService.collect dim rows encodings codes
    = (encodings ++ map fst (Gallery.entries dim rows),
       codes ++ map snd (Gallery.entries dim rows)).
Proof.
  induction rows as [|r rows IH]; intros encodings codes; simpl.
  - now rewrite !app_nil_r.
  - unfold Gallery.entry.
    destruct (FaceEmbedding.get_embedding r) as [v|]; simpl; [|apply IH].
    destruct dim as [d|]; simpl.
    + destruct (d =? 0); simpl.
      * rewrite IH, <- !app_assoc. reflexivity.
      * destruct (Z.of_nat (List.length v) =? d); simpl.
        -- rewrite IH, <- !app_assoc. reflexivity.
        -- apply IH.
    + rewrite IH, <- !app_assoc. reflexivity.
Qed.

Lemma filter_all {A} (f : A -> bool) (l : list A) :
  (forall x, f x = true) -> filter f l = l.
Proof.
  intro H. induction l as [|a l IH]; simpl; [reflexivity|].
  now rewrite H, IH.
Qed.

Lemma typed_query (ty : option string) (l : list FaceEmbedding.t) :
  match ty with
  | Some t => if Py.truthy_str ty then filter (FaceService.type_is t) l else l
  | None => l
  end = filter (Gallery.of_type ty) l.
Proof.
  destruct ty as [t|]; simpl.
  - destruct (String.eqb t EmptyString) eqn:E; simpl.
    + symmetry. apply filter_all. intro x. unfold Gallery.of_type. now rewrite E.
    + apply filter_ext. intro x. unfold Gallery.of_type. now rewrite E.
  - symmetry. apply filter_all. reflexivity.
Qed.

Lemma multi_gallery (ty : option string) (dim : option Z) (s : Db.session) :
  FaceService.get_all_face_embeddings_multi ty dim s
  = if Db.raises s Db.SelectEmbeddings then (Db.Return ([], []), s)
    else
      let es := Gallery.entries dim
                  (filter (Gallery.of_type ty)
                     (filter FaceEmbedding.is_active
                        (Db.face_embeddings (Db.pending s)))) in
      (Db.Return (map fst es, map snd es), s).
Proof.
  unfold FaceService.get_all_face_embeddings_multi, Db.try_except, Db.bind,
    Db.execute, Db.get_pending, Db.ret.
  destruct (Db.raises s Db.SelectEmbeddings); [reflexivity|].
  cbv zeta. rewrite typed_query, collect_entries. reflexivity.
Qed.

Lemma collect_legacy_entries (employees : list Employee.t) :
  forall encodings ids,
    exists es : list (list Q * string),
      FaceService.collect_legacy employees encodings ids
      = (encodings ++ map fst es, ids ++ map snd es).
Proof.
  induction employees as [|e employees IH]; intros encodings ids; simpl.
  - exists []. now rewrite !app_nil_r.
  - destruct (Employee.face_encoding e) as [v|].
    + destruct (IH (encodings ++ [v]) (ids ++ [Employee.employee_code e])) as [es Hes].
      exists ((v, Employee.employee_code e) :: es).
      rewrite Hes, <- !app_assoc. reflexivity.
    + apply IH.
Qed.

(** Both ways of fetching the gallery return the vectors and their
    owners side by side, leave the session as it was and never raise. *)
Lemma gallery_shape (multi : bool) (s : Db.session) :
  exists es : list (list Q * string),
    (if multi then FaceService.get_all_face_embeddings_multi None None
     else FaceService.get_all_face_encodings) s
    = (Db.Return (map fst es, map snd es), s).
Proof.
  destruct multi.
  - rewrite multi_gallery. destruct (Db.raises s Db.SelectEmbeddings).
    + now exists [].
    + eexists. reflexivity.
  - unfold FaceService.get_all_face_encodings, Db.try_except, Db.bind,
      Db.execute, Db.get_pending, Db.ret.
    destruct (Db.raises s Db.SelectEmployees).
    + now exists [].
    + cbv zeta.
      match goal with
      | |- context [FaceService.collect_legacy ?l [] []] =>
          destruct (collect_legacy_entries l [] []) as [es Hes]; rewrite Hes
      end.
      exists es. reflexivity.
Qed.

(** ** Minimum and index *)

Lemma min_from_in (l : list Q) : forall cur, In (Py.min_from cur l) (cur :: l).
Proof.
  induction l as [|x l IH]; intro cur; simpl.
  - now left.
  - destruct (IH (if Py.ltb x cur then x else cur)) as [H|H].
    + destruct (Py.ltb x cur); [right; left | left]; exact H.
    + right; right; exact H.
Qed.

Lemma min_from_le_cur (l : list Q) : forall cur, (Py.min_from cur l <= cur)%Q.
Proof.
  induction l as [|x l IH]; intro cur; simpl.
  - apply Qle_refl.
  - destruct (Py.ltb x cur) eqn:E.
    + apply ltb_lt in E. eapply Qle_trans; [apply IH|]. now apply Qlt_le_weak.
    + apply IH.
Qed.

Lemma min_from_lower (l : list Q) :
  forall cur d, In d (cur :: l) -> (Py.min_from cur l <= d)%Q.
Proof.
  induction l as [|x l IH]; intros cur d Hd; simpl.
  - destruct Hd as [<-|[]]. apply Qle_refl.
  - destruct Hd as [<-|[<-|Hd]].
    + eapply Qle_trans; [apply min_from_le_cur|].
      destruct (Py.ltb x cur) eqn:E.
      * apply ltb_lt in E. now apply Qlt_le_weak.
      * apply Qle_refl.
    + eapply Qle_trans; [apply min_from_le_cur|].
      destruct (Py.ltb x cur) eqn:E.
      * apply Qle_refl.
      * now apply ltb_ge in E.
    + apply IH. now right.
Qed.

Lemma index_of_member (l : list Q) (x : Q) :
  In x l -> exists i, Py.index l x = Some i /\ (i < List.length l)%nat.
Proof.
  induction l as [|y l IH]; intro H; [destruct H|]. simpl.
  destruct (Py.eqb y x) eqn:E.
  - exists O. split; [reflexivity|lia].
  - destruct H as [->|H].
    + unfold Py.eqb in E. rewrite (proj2 (Qeq_bool_iff x x) (Qeq_refl x)) in E.
      discriminate.
    + destruct (IH H) as [i [Hi Hlt]]. rewrite Hi.
      exists (S i). split; [reflexivity|lia].
Qed.

(** ** Distances *)

Lemma sub_rows_length (rows : list (list Q)) (b : list Q) :
  forall ds, sub_rows rows b = Some ds -> List.length ds = List.length rows.
Proof.
  induction rows as [|r rows IH]; intros ds H; simpl in H.
  - injection H as <-. reflexivity.
  - destruct (broadcast_sub r b); [|discriminate].
    destruct (sub_rows rows b) as [ds'|]; [|discriminate].
    injection H as <-. simpl. f_equal. now apply IH.
Qed.

Lemma face_distance_length norm (known : list (list Q)) (q : list Q) :
  forall ds, face_distance norm known q = Some ds ->
             List.length ds = List.length known.
Proof.
  intros ds H. destruct known as [|r0 known]; unfold face_distance in H.
  - injection H as <-. reflexivity.
  - match type of H with
    | (if ?c then _ else _) = _ => destruct c; [|discriminate]
    end.
    destruct (sub_rows (r0 :: known) q) as [rows|] eqn:E; [|discriminate].
    injection H as <-. rewrite length_map. now apply sub_rows_length in E.
Qed.

Lemma find_face_distance_cases norm (fd : FaceDetector.t) (q : list Q)
    (known : list (list Q)) :
  (FaceDetector.find_face_distance norm fd q known = []
   /\ (known = [] \/ face_distance norm known q = None))
  \/ (known <> [] /\
      face_distance norm known q
      = Some (FaceDetector.find_face_distance norm fd q known)).
Proof.
  destruct known as [|r known].
  - left. split; [reflexivity|now left].
  - unfold FaceDetector.find_face_distance.
    destruct (face_distance norm (r :: known) q) as [ds|] eqn:E.
    + right. split; [discriminate|reflexivity].
    + left. split; [reflexivity|now right].
Qed.

(** ** Recognition *)

Section RecognitionFacts.

Variable norm : list Q -> Q.
Variable format_percent : Q -> string.

(** The dictionary recognition returns, branch by branch, once the
    gallery is known. *)
Lemma recognize_cases (self : FaceService.t) (q : list Q) (multi : bool)
    (s : Db.session) (es : list (list Q * string)) :
  (if multi then FaceService.get_all_face_embeddings_multi None None
   else FaceService.get_all_face_encodings) s
  = (Db.Return (map fst es, map snd es), s) ->
  exists R,
    FaceService.recognize_employee_multi norm format_percent self q multi s
    = (Db.Return R, s)
    /\ match FaceDetector.find_face_distance norm (FaceService.face_detector self)
               q (map fst es) with
       | [] => (es = [] /\ R = Outcome.no_registered_faces)
               \/ (es <> [] /\ R = Outcome.no_distances)
       | d0 :: ds =>
           let m := Py.min_from d0 ds in
           if Py.ltb m (FaceDetector.tolerance (FaceService.face_detector self))
           then if Py.leb 0.6%Q (1 - m)%Q
                then exists code, In code (map snd es)
                                  /\ R = Outcome.recognized code (1 - m)%Q m multi
                else R = Outcome.low_confidence format_percent (1 - m)%Q m
           else R = Outcome.no_match m
       end.
Proof.
  intro Hg.
  unfold FaceService.recognize_employee_multi, Db.try_except, Db.bind.
  rewrite Hg. cbn [fst snd].
  destruct es as [|e es].
  - simpl. eexists. split; [reflexivity|]. left. now split.
  - change (map fst (e :: es)) with (fst e :: map fst es).
    cbv beta iota.
    change (fst e :: map fst es) with (map fst (e :: es)).
    set (known := map fst (e :: es)).
    destruct (find_face_distance_cases norm (FaceService.face_detector self) q known)
      as [[Hnil _]|[_ Hsome]].
    + rewrite Hnil. eexists. split; [reflexivity|]. right. split; [discriminate|reflexivity].
    + set (dists := FaceDetector.find_face_distance norm
                      (FaceService.face_detector self) q known) in *.
      assert (Hlen : List.length dists = List.length (e :: es)).
      { rewrite (face_distance_length _ _ _ _ Hsome). unfold known. apply length_map. }
      destruct dists as [|d0 ds] eqn:Ed; [discriminate|].
      destruct (index_of_member (d0 :: ds) (Py.min_from d0 ds) (min_from_in ds d0))
        as [i [Hi Hlt]].
      rewrite Hi.
      destruct (nth_error (map snd (e :: es)) i) as [code|] eqn:En.
      * cbv zeta.
        destruct (Py.ltb (Py.min_from d0 ds) _).
        -- destruct (Py.leb 0.6%Q _).
           ++ eexists. split; [reflexivity|]. exists code. split; [|reflexivity].
              eapply nth_error_In; exact En.
           ++ eexists. split; reflexivity.
        -- eexists. split; reflexivity.
      * exfalso. apply nth_error_None in En. rewrite length_map in En.
        simpl in Hlt, Hlen, En. lia.
Qed.

End RecognitionFacts.

(** ** The matcher *)

Lemma broadcast_sub_mismatch (a b : list Q) :
  List.length a <> List.length b -> List.length b <> 1%nat ->
  List.length a <> 1%nat -> broadcast_sub a b = None.
Proof.
  intros Hab Hb Ha. unfold broadcast_sub.
  destruct (Nat.eqb_spec (List.length a) (List.length b)) as [E|_]; [contradiction|].
  destruct b as [|y [|y' b]]; [| now elim Hb |].
  - destruct a as [|x [|x' a]]; [now elim Hab | now elim Ha | reflexivity].
  - destruct a as [|x [|x' a]]; [reflexivity | now elim Ha | reflexivity].
Qed.

Section MatcherTheorems.

Variable norm : list Q -> Q.
Variable format_percent : Q -> string.

(** C7.  Identifying any query against an empty gallery (no active
    registered embedding) returns, as an ordinary result and with the
    session untouched, success = false with the message
    "No registered faces found", no identity and confidence 0. *)
Theorem empty_gallery_no_registered_faces (self : FaceService.t) (q : list Q)
    (s : Db.session) :
  (forall r, In r (Db.face_embeddings (Db.pending s)) ->
             FaceEmbedding.is_active r = false) ->
  FaceService.recognize_employee_multi norm format_percent self q true s
  = (Db.Return (Recognition.mk false "No registered faces found" None 0%Q None None), s).
Proof.
  intro Hnone.
  assert (Hf : filter FaceEmbedding.is_active (Db.face_embeddings (Db.pending s)) = []).
  { induction (Db.face_embeddings (Db.pending s)) as [|r l IH]; [reflexivity|].
    simpl. rewrite (Hnone r (or_introl eq_refl)). apply IH.
    intros r' Hr'. apply Hnone. now right. }
  assert (Hg : FaceService.get_all_face_embeddings_multi None None s
               = (Db.Return (map fst (@nil (list Q * string)), map snd (@nil (list Q * string))), s)).
  { rewrite multi_gallery, Hf. now destruct (Db.raises s Db.SelectEmbeddings). }
  destruct (recognize_cases norm format_percent self q true s [] Hg) as [R [HR Hcase]].
  rewrite HR. simpl in Hcase. destruct Hcase as [[_ ->]|[Hne _]]; [reflexivity|].
  now elim Hne.
Qed.

(** C1.  On a non-empty gallery whose distances to the query are
    defined, recognition succeeds exactly when the minimum distance is
    strictly below the tolerance and the confidence 1 - minimum is at
    least 0.6; a minimum below the tolerance with a confidence under 0.6
    gives the low-confidence result, which carries that confidence and
    that distance, and a minimum at or above the tolerance gives the
    plain no-match result. *)
Theorem two_stage_acceptance (self : FaceService.t) (q : list Q) (multi : bool)
    (s : Db.session) (known : list (list Q)) (codes : list string)
    (dists : list Q) :
  fst ((if multi then FaceService.get_all_face_embeddings_multi None None
        else FaceService.get_all_face_encodings) s) = Db.Return (known, codes) ->
  known <> [] ->
  face_distance norm known q = Some dists ->
  exists m R,
    Py.min dists = Some m
    /\ In m dists /\ (forall d, In d dists -> (m <= d)%Q)
    /\ FaceService.recognize_employee_multi norm format_percent self q multi s
       = (Db.Return R, s)
    /\ (Recognition.success R = true
        <-> (m < FaceDetector.tolerance (FaceService.face_detector self)
             /\ 0.6 <= 1 - m)%Q)
    /\ ((m < FaceDetector.tolerance (FaceService.face_detector self))%Q ->
        (1 - m < 0.6)%Q ->
        R = Outcome.low_confidence format_percent (1 - m)%Q m)
    /\ ((FaceDetector.tolerance (FaceService.face_detector self) <= m)%Q ->
        R = Outcome.no_match m).
Proof.
  intros Hg Hne Hd.
  destruct (gallery_shape multi s) as [es Hes].
  rewrite Hes in Hg. simpl in Hg. injection Hg as Hk Hc.
  destruct (recognize_cases norm format_percent self q multi s es Hes) as [R [HR Hcase]].
  rewrite Hk in Hcase.
  destruct (find_face_distance_cases norm (FaceService.face_detector self) q known)
    as [[_ [Hk0|Hnone]]|[_ Hsome]]; [contradiction|congruence|].
  rewrite Hd in Hsome. injection Hsome as Hsome. rewrite <- Hsome in Hcase.
  assert (Hlen := face_distance_length _ _ _ _ Hd).
  destruct dists as [|d0 ds].
  { destruct known; [contradiction|discriminate]. }
  exists (Py.min_from d0 ds), R.
  split; [reflexivity|].
  split; [apply min_from_in|].
  split; [apply min_from_lower|].
  split; [exact HR|].
  cbv zeta in Hcase.
  destruct (Py.ltb (Py.min_from d0 ds) _) eqn:Ea.
  - apply ltb_lt in Ea.
    destruct (Py.leb 0.6%Q _) eqn:Eb.
    + apply leb_le in Eb. destruct Hcase as [code [_ ->]].
      split; [|split].
      * split; [intros _; now split | reflexivity].
      * intros _ Hlow. exfalso. apply (Qlt_not_le _ _ Hlow Eb).
      * intro Hge. exfalso. apply (Qlt_not_le _ _ Ea Hge).
    + apply leb_gt in Eb. subst R. split; [|split].
      * split; [discriminate|]. intros [_ Hge]. exfalso. apply (Qlt_not_le _ _ Eb Hge).
      * reflexivity.
      * intro Hge. exfalso. apply (Qlt_not_le _ _ Ea Hge).
  - apply ltb_ge in Ea. subst R. split; [|split].
    + split; [discriminate|]. intros [Hlt _]. exfalso. apply (Qlt_not_le _ _ Hlt Ea).
    + intros Hlt _. exfalso. apply (Qlt_not_le _ _ Hlt Ea).
    + reflexivity.
Qed.

(** C5.  A distance below 0.4 leaves a confidence above 0.6; with the
    detector FaceService builds (tolerance 0.4) recognition never returns
    the low-confidence result; and whenever recognition does return it,
    the tolerance of the detector is above 0.4. *)
Theorem low_confidence_needs_loose_tolerance :
  (forall d : Q, (d < FaceDetector.tolerance FaceDetector.init)%Q -> (0.6 < 1 - d)%Q)
  /\ (forall q multi s c d,
        fst (FaceService.recognize_employee_multi norm format_percent
               FaceService.init q multi s)
        <> Db.Return (Outcome.low_confidence format_percent c d))
  /\ (forall self q multi s c d,
        fst (FaceService.recognize_employee_multi norm format_percent self q multi s)
        = Db.Return (Outcome.low_confidence format_percent c d) ->
        (0.4 < FaceDetector.tolerance (FaceService.face_detector self))%Q).
Proof.
  assert (Hreach : forall self q multi s c d,
        fst (FaceService.recognize_employee_multi norm format_percent self q multi s)
        = Db.Return (Outcome.low_confidence format_percent c d) ->
        (0.4 < FaceDetector.tolerance (FaceService.face_detector self))%Q).
  { intros self q multi s c d H.
    destruct (gallery_shape multi s) as [es Hes].
    destruct (recognize_cases norm format_percent self q multi s es Hes) as [R [HR Hcase]].
    rewrite HR in H. simpl in H. injection H as H. subst R.
    destruct (FaceDetector.find_face_distance norm _ q (map fst es)) as [|d0 ds].
    - destruct Hcase as [[_ H]|[_ H]]; discriminate H.
    - cbv zeta in Hcase.
      destruct (Py.ltb (Py.min_from d0 ds) _) eqn:Ea.
      + destruct (Py.leb 0.6%Q _) eqn:Eb.
        * destruct Hcase as [code [_ H]]. discriminate H.
        * apply ltb_lt in Ea. apply leb_gt in Eb. lra.
      + discriminate Hcase. }
  split; [|split].
  - intros d Hd. simpl in Hd. lra.
  - intros q multi s c d H. apply Hreach in H. simpl in H. lra.
  - exact Hreach.
Qed.

(** C3, as the code has it.  When every vector of a non-empty gallery has
    one length, the query another, and neither length is 1, the distance
    routine raises inside find_face_distance, which returns no distance:
    recognition returns success = false with
    "Could not calculate face distances" and confidence 0, and the query
    is neither padded nor truncated nor compared. *)
Theorem mismatched_query_no_distances (self : FaceService.t) (q : list Q)
    (s : Db.session) (known : list (list Q)) (codes : list string) (n : nat) :
  fst (FaceService.get_all_face_embeddings_multi None None s)
  = Db.Return (known, codes) ->
  known <> [] ->
  (forall v, In v known -> List.length v = n) ->
  List.length q <> n -> List.length q <> 1%nat -> n <> 1%nat ->
  face_distance norm known q = None
  /\ FaceService.recognize_employee_multi norm format_percent self q true s
     = (Db.Return (Recognition.mk false "Could not calculate face distances"
                                  None 0%Q None None), s).
Proof.
  intros Hg Hne Hlen Hq Hq1 Hn1.
  assert (Hnone : face_distance norm known q = None).
  { destruct known as [|r0 known]; [contradiction|]. unfold face_distance.
    destruct (forallb _ (r0 :: known)); [|reflexivity].
    simpl. rewrite broadcast_sub_mismatch; [reflexivity| | assumption |].
    - rewrite (Hlen r0 (or_introl eq_refl)). congruence.
    - now rewrite (Hlen r0 (or_introl eq_refl)). }
  split; [exact Hnone|].
  destruct (gallery_shape true s) as [es Hes].
  rewrite Hes in Hg. simpl in Hg. injection Hg as Hk Hc.
  destruct (recognize_cases norm format_percent self q true s es Hes) as [R [HR Hcase]].
  rewrite HR. rewrite Hk in Hcase.
  destruct (find_face_distance_cases norm (FaceService.face_detector self) q known)
    as [[Hnil _]|[_ Hsome]]; [|congruence].
  rewrite Hnil in Hcase. destruct Hcase as [[He _]|[_ ->]]; [|reflexivity].
  subst es. simpl in Hk. congruence.
Qed.

End MatcherTheorems.

(** C5, witness: with tolerance 0.6 a face at distance 0.45 is reported
    with low confidence. *)
Lemma low_confidence_needs_loose_tolerance_witness :
  (0.4 < FaceDetector.tolerance (FaceService.face_detector Example.loose))%Q.
Proof.
  apply (proj2 (proj2 (low_confidence_needs_loose_tolerance
                         Numeric.norm Numeric.format_percent))
           Example.loose [0; 0]%Q true Example.far_face (11 # 20) (9 # 20)).
  vm_compute. reflexivity.
Defined.

(** In binary64 the constants are the nearest numbers to 0.4 and 0.6; at
    the largest distance below the default tolerance the confidence
    [1.0 - d] is at least the floor, and at the tolerance itself it is
    the floor exactly. *)
Lemma binary64_boundary :
  (Qabs (Binary64.to_Q Binary64.tolerance - 0.4) <= 1 # (2 ^ 55))%Q
  /\ (Qabs (Binary64.to_Q Binary64.floor - 0.6) <= 1 # (2 ^ 54))%Q
  /\ (Binary64.to_Q Binary64.one == 1)%Q
  /\ SFltb Binary64.below_tolerance Binary64.tolerance = true
  /\ SFleb Binary64.floor (Binary64.sub Binary64.one Binary64.below_tolerance) = true
  /\ Binary64.sub Binary64.one Binary64.tolerance = Binary64.floor.
Proof.
  repeat split; try (vm_compute; reflexivity).
  - vm_compute. discriminate.
  - vm_compute. discriminate.
Qed.

(** C3, counterexample: a query of length 1 against a gallery of
    vectors of length 2 is not rejected; numpy stretches it, the distance
    is computed and the employee is recognized. *)
Lemma length_one_query_is_compared :
  fst (FaceService.get_all_face_embeddings_multi None None Example.one_face)
  = Db.Return ([[0; 0]%Q], ["E1"%string])
  /\ List.length [0%Q] <> List.length [0; 0]%Q
  /\ fst (FaceService.recognize_employee_multi Numeric.norm Numeric.format_percent
            FaceService.init [0%Q] true Example.one_face)
     = Db.Return (Outcome.recognized "E1" 1 0 true).
Proof.
  split; [vm_compute; reflexivity|]. split; [discriminate|].
  vm_compute. reflexivity.
Qed.

(** C3, witness. *)
Lemma mismatched_query_no_distances_witness :
  face_distance Numeric.norm [[0; 0]%Q] [0; 0; 0]%Q = None
  /\ FaceService.recognize_employee_multi Numeric.norm Numeric.format_percent
       FaceService.init [0; 0; 0]%Q true Example.one_face
     = (Db.Return (Recognition.mk false "Could not calculate face distances"
                                  None 0%Q None None), Example.one_face).
Proof.
  apply (mismatched_query_no_distances Numeric.norm Numeric.format_percent
           FaceService.init [0; 0; 0]%Q Example.one_face [[0; 0]%Q] ["E1"%string] 2%nat).
  - vm_compute. reflexivity.
  - discriminate.
  - intros v [<-|[]]. reflexivity.
  - simpl. lia.
  - simpl. lia.
  - lia.
Defined.

(** C7, witness: a fresh store. *)
Lemma empty_gallery_no_registered_faces_witness :
  FaceService.recognize_employee_multi Numeric.norm Numeric.format_percent
    FaceService.init [0; 0]%Q true Example.fresh
  = (Db.Return (Recognition.mk false "No registered faces found" None 0%Q None None),
     Example.fresh).
Proof.
  apply (empty_gallery_no_registered_faces Numeric.norm Numeric.format_percent
           FaceService.init [0; 0]%Q Example.fresh).
  intros r [].
Defined.

(** C1, witness: the enrolled vector itself is at distance 0. *)
Lemma two_stage_acceptance_witness :
  exists m R,
    Py.min [0%Q] = Some m
    /\ In m [0%Q] /\ (forall d, In d [0%Q] -> (m <= d)%Q)
    /\ FaceService.recognize_employee_multi Numeric.norm Numeric.format_percent
         FaceService.init [0; 0]%Q true Example.one_face
       = (Db.Return R, Example.one_face)
    /\ (Recognition.success R = true
        <-> (m < FaceDetector.tolerance (FaceService.face_detector FaceService.init)
             /\ 0.6 <= 1 - m)%Q)
    /\ ((m < FaceDetector.tolerance (FaceService.face_detector FaceService.init))%Q ->
        (1 - m < 0.6)%Q ->
        R = Outcome.low_confidence Numeric.format_percent (1 - m)%Q m)
    /\ ((FaceDetector.tolerance (FaceService.face_detector FaceService.init) <= m)%Q ->
        R = Outcome.no_match m).
Proof.
  apply (two_stage_acceptance Numeric.norm Numeric.format_percent FaceService.init
           [0; 0]%Q true Example.one_face [[0; 0]%Q] ["E1"%string] [0%Q]).
  - vm_compute. reflexivity.
  - discriminate.
  - vm_compute. reflexivity.
Defined.

(** ** The store operations, branch by branch *)

Ltac db_unfold :=
  repeat (progress unfold Db.try_except, Db.bind, Db.get_pending,
            Db.put_face_embeddings, Db.commit, Db.execute, Db.ret, Db.raise,
            Db.rollback).

Lemma count_positive {A} (f : A -> bool) (l : list A) :
  (0 <? Z.of_nat (List.length (filter f l))) = existsb f l.
Proof.
  induction l as [|a l IH]; simpl; [reflexivity|].
  destruct (f a); simpl; [|exact IH].
  apply Z.ltb_lt. lia.
Qed.

Lemma has_any_embeddings_cases (code : string) (s : Db.session) :
  FaceService.has_any_embeddings code s
  = (Db.Return (if Db.raises s Db.CountEmbeddings then false
                else Store.has_active code (Db.face_embeddings (Db.pending s))), s).
Proof.
  unfold FaceService.has_any_embeddings, Db.try_except, Db.bind, Db.execute,
    Db.get_pending, Db.ret.
  destruct (Db.raises s Db.CountEmbeddings); [reflexivity|].
  cbv zeta. now rewrite count_positive.
Qed.

Lemma add_face_embedding_cases (code : string) (emb : list Q)
    (variant ty : string) (descr photo : option string) (quality : option Q)
    (prim : bool) (now : Z) (s : Db.session) :
  FaceService.add_face_embedding code emb variant ty descr photo quality prim now s
  = if Db.raises s Db.SelectEmployee
    then (Db.Return (Result.mk false "Failed to add embedding: database error"
                               (Some code) None None None), Store.rolled_back s)
    else
      match find (fun e => String.eqb (Employee.employee_code e) code)
                 (Db.employees (Db.pending s)) with
      | None => (Db.Return (Result.mk false ("Employee " ++ code ++ " not found")
                                      (Some code) None None None), s)
      | Some employee =>
          if prim && Db.raises s Db.UpdatePrimary
          then (Db.Return (Result.mk false "Failed to add embedding: database error"
                                     (Some code) None None None), Store.rolled_back s)
          else
            let rows := if prim then Store.cleared code (Db.face_embeddings (Db.pending s))
                        else Db.face_embeddings (Db.pending s) in
            let has_any := if Db.raises s Db.CountEmbeddings then false
                           else Store.has_active code rows in
            let r := FaceEmbedding.mk (Db.next_id rows) (Employee.id employee) code
                       (Some emb) (Some ty) (Some variant) descr photo quality
                       (prim || negb has_any) true now in
            if Db.raises s Db.Commit
            then (Db.Return (Result.mk false "Failed to add embedding: database error"
                                       (Some code) None None None), Store.rolled_back s)
            else (Db.Return (Result.mk true "Face embedding added successfully"
                                       (Some code) (Some (FaceEmbedding.id r))
                                       (Some variant) (Some (FaceEmbedding.is_primary r))),
                  Store.persisted (rows ++ [r]) s)
      end.
Proof.
  unfold FaceService.add_face_embedding.
  unfold Db.try_except at 1. unfold Db.bind at 1. unfold Db.execute at 1.
  destruct (Db.raises s Db.SelectEmployee) eqn:E1; [reflexivity|].
  unfold Db.bind at 1. unfold Db.get_pending at 1.
  destruct (find _ (Db.employees (Db.pending s))) as [employee|]; [|reflexivity].
  destruct prim; simpl andb; cbv iota.
  - unfold Db.bind at 1. unfold FaceService.unset_primary.
    unfold Db.bind at 1. unfold Db.execute at 1.
    destruct (Db.raises s Db.UpdatePrimary) eqn:E2; [reflexivity|].
    unfold Db.bind at 1. unfold Db.get_pending at 1. unfold Db.put_face_embeddings at 1.
    unfold Db.bind at 1. rewrite has_any_embeddings_cases.
    db_unfold. simpl. destruct (Db.raises s Db.Commit) eqn:E3; reflexivity.
  - unfold Db.bind at 1. unfold Db.ret at 1.
    unfold Db.bind at 1. rewrite has_any_embeddings_cases.
    db_unfold. simpl. destruct (Db.raises s Db.Commit) eqn:E3; reflexivity.
Qed.

Lemma set_primary_embedding_cases (i : Z) (s : Db.session) :
  FaceService.set_primary_embedding i s
  = if Db.raises s Db.SelectEmbedding
    then (Db.Return (Result.mk false "Failed to set primary: database error"
                               None (Some i) None None), Store.rolled_back s)
    else
      match find (fun r => FaceEmbedding.id r =? i)
                 (Db.face_embeddings (Db.pending s)) with
      | None => (Db.Return (Result.mk false ("Embedding " ++ Py.str_int i ++ " not found")
                                      None (Some i) None None), s)
      | Some embedding =>
          if Db.raises s Db.UpdatePrimary || Db.raises s Db.Commit
          then (Db.Return (Result.mk false "Failed to set primary: database error"
                                     None (Some i) None None), Store.rolled_back s)
          else (Db.Return (Result.mk true "Primary embedding set successfully"
                                     (Some (FaceEmbedding.employee_code embedding))
                                     (Some i) None None),
                Store.persisted
                  (FaceService.assign_primary i
                     (Store.cleared (FaceEmbedding.employee_code embedding)
                        (Db.face_embeddings (Db.pending s)))) s)
      end.
Proof.
  unfold FaceService.set_primary_embedding, FaceService.unset_primary.
  db_unfold.
  destruct (Db.raises s Db.SelectEmbedding) eqn:E1; [reflexivity|].
  destruct (find _ (Db.face_embeddings (Db.pending s))) as [embedding|]; [|reflexivity].
  destruct (Db.raises s Db.UpdatePrimary) eqn:E2; [reflexivity|].
  simpl. destruct (Db.raises s Db.Commit) eqn:E3; reflexivity.
Qed.

Lemma delete_face_embedding_cases (i : Z) (s : Db.session) :
  FaceService.delete_face_embedding i s
  = if Db.raises s Db.SelectEmbedding
    then (Db.Return (Result.mk false "Deletion failed: database error"
                               None (Some i) None None), Store.rolled_back s)
    else
      match find (fun r => FaceEmbedding.id r =? i)
                 (Db.face_embeddings (Db.pending s)) with
      | None => (Db.Return (Result.mk false ("Embedding " ++ Py.str_int i ++ " not found")
                                      None (Some i) None None), s)
      | Some embedding =>
          if Db.raises s Db.Commit
          then (Db.Return (Result.mk false "Deletion failed: database error"
                                     None (Some i) None None), Store.rolled_back s)
          else (Db.Return (Result.mk true "Face embedding deleted successfully"
                                     (Some (FaceEmbedding.employee_code embedding))
                                     (Some i) None None),
                Store.persisted
                  (FaceService.delete_row i (Db.face_embeddings (Db.pending s))) s)
      end.
Proof.
  unfold FaceService.delete_face_embedding.
  db_unfold.
  destruct (Db.raises s Db.SelectEmbedding) eqn:E1; [reflexivity|].
  destruct (find _ (Db.face_embeddings (Db.pending s))) as [embedding|]; [|reflexivity].
  simpl. destruct (Db.raises s Db.Commit) eqn:E3; reflexivity.
Qed.

(** ** Counting active primary rows *)

Lemma code_is_eq (c : string) (r : FaceEmbedding.t) :
  FaceService.code_is c r = true <-> FaceEmbedding.employee_code r = c.
Proof. apply String.eqb_eq. Qed.

Lemma active_primaries_app (c : string) (l1 l2 : list FaceEmbedding.t) :
  Store.active_primaries c (l1 ++ l2)
  = Store.active_primaries c l1 ++ Store.active_primaries c l2.
Proof. apply filter_app. Qed.

Lemma active_primaries_cleared_same (c : string) (l : list FaceEmbedding.t) :
  Store.active_primaries c (Store.cleared c l) = [].
Proof.
  induction l as [|r l IH]; [reflexivity|].
  unfold Store.cleared, Store.active_primaries in *. simpl.
  destruct (FaceService.code_is c r) eqn:Ec; simpl.
  - destruct (FaceEmbedding.is_primary r) eqn:Ep; simpl.
    + unfold FaceService.code_is in *. simpl. rewrite Ec. simpl.
      rewrite andb_false_r. exact IH.
    + rewrite Ec, Ep. rewrite andb_false_r. exact IH.
  - rewrite Ec. simpl. exact IH.
Qed.

Lemma active_primaries_cleared_le (c c' : string) (l : list FaceEmbedding.t) :
  (List.length (Store.active_primaries c' (Store.cleared c l))
   <= List.length (Store.active_primaries c' l))%nat.
Proof.
  induction l as [|r l IH]; [apply Nat.le_refl|].
  unfold Store.cleared, Store.active_primaries in *. simpl.
  destruct (FaceService.code_is c r && FaceEmbedding.is_primary r) eqn:E.
  - unfold FaceService.code_is at 1. simpl. rewrite andb_false_r.
    destruct (FaceService.code_is c' r && FaceEmbedding.is_active r
              && FaceEmbedding.is_primary r); simpl; lia.
  - destruct (FaceService.code_is c' r && FaceEmbedding.is_active r
              && FaceEmbedding.is_primary r); simpl; lia.
Qed.

Lemma active_primaries_without_active (c : string) (l : list FaceEmbedding.t) :
  Store.has_active c l = false -> Store.active_primaries c l = [].
Proof.
  induction l as [|r l IH]; [reflexivity|].
  unfold Store.has_active, Store.active_primaries in *. simpl. intro H.
  apply orb_false_iff in H. destruct H as [H1 H2].
  rewrite H1. simpl. now apply IH.
Qed.

Lemma active_primaries_assign (c' : string) (i : Z) (l : list FaceEmbedding.t) :
  (List.length (Store.active_primaries c' (FaceService.assign_primary i l))
   <= List.length (Store.active_primaries c' l)
      + match find (fun r => (FaceEmbedding.id r =? i)%Z) l with
        | Some r => if FaceService.code_is c' r then 1 else 0
        | None => 0
        end)%nat.
Proof.
  induction l as [|r l IH]; [simpl; lia|].
  simpl. destruct (FaceEmbedding.id r =? i) eqn:Ei.
  - unfold Store.active_primaries. simpl.
    unfold FaceService.code_is at 1. simpl.
    change (String.eqb (FaceEmbedding.employee_code r) c') with (FaceService.code_is c' r).
    destruct (FaceService.code_is c' r); simpl.
    + destruct (FaceEmbedding.is_active r); simpl;
        destruct (FaceEmbedding.is_primary r); simpl; lia.
    + lia.
  - unfold Store.active_primaries in *. simpl.
    destruct (FaceService.code_is c' r && FaceEmbedding.is_active r
              && FaceEmbedding.is_primary r); simpl; lia.
Qed.

Lemma active_primaries_delete (c' : string) (i : Z) (l : list FaceEmbedding.t) :
  (List.length (Store.active_primaries c' (FaceService.delete_row i l))
   <= List.length (Store.active_primaries c' l))%nat.
Proof.
  induction l as [|r l IH]; [apply Nat.le_refl|].
  simpl. destruct (FaceEmbedding.id r =? i).
  - unfold Store.active_primaries. simpl.
    destruct (FaceService.code_is c' r && FaceEmbedding.is_active r
              && FaceEmbedding.is_primary r); simpl; lia.
  - unfold Store.active_primaries in *. simpl.
    destruct (FaceService.code_is c' r && FaceEmbedding.is_active r
              && FaceEmbedding.is_primary r); simpl; lia.
Qed.

Lemma find_cleared (c : string) (i : Z) (l : list FaceEmbedding.t) :
  forall r, find (fun r => FaceEmbedding.id r =? i) l = Some r ->
  exists r', find (fun r => FaceEmbedding.id r =? i) (Store.cleared c l) = Some r'
             /\ FaceEmbedding.employee_code r' = FaceEmbedding.employee_code r.
Proof.
  induction l as [|a l IH]; intros r H; [discriminate|].
  simpl in *.
  assert (Hid : FaceEmbedding.id
                  (if FaceService.code_is c a && FaceEmbedding.is_primary a
                   then FaceEmbedding.with_is_primary false a else a)
                = FaceEmbedding.id a).
  { destruct (_ && _); reflexivity. }
  rewrite Hid. destruct (FaceEmbedding.id a =? i).
  - injection H as <-. eexists. split; [reflexivity|].
    destruct (_ && _); reflexivity.
  - now apply IH.
Qed.

(** ** Primary uniqueness *)

Lemma add_keeps_primary_unique (code : string) (prim : bool)
    (l : list FaceEmbedding.t) (r : FaceEmbedding.t) :
  Store.primary_unique l ->
  FaceEmbedding.employee_code r = code ->
  FaceEmbedding.is_primary r = (prim || negb (Store.has_active code
                                               (if prim then Store.cleared code l else l))) ->
  Store.primary_unique ((if prim then Store.cleared code l else l) ++ [r]).
Proof.
  intros Hu Hc Hp c'. rewrite active_primaries_app, length_app.
  assert (Hle : (List.length (Store.active_primaries c'
                                (if prim then Store.cleared code l else l)) <= 1)%nat).
  { destruct prim; [|apply Hu].
    eapply Nat.le_trans; [apply active_primaries_cleared_le|apply Hu]. }
  unfold Store.active_primaries at 2. simpl.
  destruct (FaceService.code_is c' r) eqn:Ec; simpl; [|lia].
  apply code_is_eq in Ec. rewrite Hc in Ec. subst c'.
  destruct (FaceEmbedding.is_active r); simpl; [|lia].
  destruct (FaceEmbedding.is_primary r); simpl; [|lia].
  destruct prim; simpl in Hp.
  - rewrite active_primaries_cleared_same. simpl. lia.
  - symmetry in Hp. apply negb_true_iff in Hp.
    rewrite (active_primaries_without_active _ _ Hp). simpl. lia.
Qed.

Lemma set_primary_keeps_primary_unique (i : Z) (l : list FaceEmbedding.t)
    (r : FaceEmbedding.t) :
  Store.primary_unique l ->
  find (fun r => FaceEmbedding.id r =? i) l = Some r ->
  Store.primary_unique
    (FaceService.assign_primary i (Store.cleared (FaceEmbedding.employee_code r) l)).
Proof.
  intros Hu Hf c'.
  eapply Nat.le_trans; [apply active_primaries_assign|].
  destruct (find_cleared (FaceEmbedding.employee_code r) i l r Hf) as [r' [Hf' Hc']].
  rewrite Hf'.
  destruct (FaceService.code_is c' r') eqn:Ec.
  - apply code_is_eq in Ec. rewrite Hc' in Ec. subst c'.
    rewrite active_primaries_cleared_same. simpl. lia.
  - rewrite Nat.add_0_r.
    eapply Nat.le_trans; [apply active_primaries_cleared_le|apply Hu].
Qed.

Lemma delete_keeps_primary_unique (i : Z) (l : list FaceEmbedding.t) :
  Store.primary_unique l -> Store.primary_unique (FaceService.delete_row i l).
Proof.
  intros Hu c'. eapply Nat.le_trans; [apply active_primaries_delete|apply Hu].
Qed.

Lemma run_call_keeps_primary_unique (c : FaceService.call) (s : Db.session) :
  Store.clean s ->
  Store.primary_unique (Db.face_embeddings (Db.committed s)) ->
  Db.raises s Db.CountEmbeddings = false ->
  Store.clean (snd (FaceService.run_call c s))
  /\ Store.primary_unique
       (Db.face_embeddings (Db.committed (snd (FaceService.run_call c s)))).
Proof.
  intros Hclean Hu Hcount. unfold Store.clean in *.
  destruct c as [code emb variant ty descr photo quality prim now|i|i]; simpl.
  - rewrite add_face_embedding_cases, Hcount.
    destruct (Db.raises s Db.SelectEmployee); [now split|].
    destruct (find _ (Db.employees (Db.pending s))) as [e|]; [|now split].
    destruct (prim && Db.raises s Db.UpdatePrimary); [now split|].
    cbv zeta.
    destruct (Db.raises s Db.Commit); [now split|].
    simpl. split; [reflexivity|].
    apply add_keeps_primary_unique; [now rewrite Hclean|reflexivity|reflexivity].
  - rewrite set_primary_embedding_cases.
    destruct (Db.raises s Db.SelectEmbedding); [now split|].
    destruct (find _ (Db.face_embeddings (Db.pending s))) as [r|] eqn:Ef; [|now split].
    destruct (Db.raises s Db.UpdatePrimary || Db.raises s Db.Commit); [now split|].
    simpl. split; [reflexivity|].
    apply set_primary_keeps_primary_unique; [now rewrite Hclean|exact Ef].
  - rewrite delete_face_embedding_cases.
    destruct (Db.raises s Db.SelectEmbedding); [now split|].
    destruct (find _ (Db.face_embeddings (Db.pending s))) as [r|] eqn:Ef; [|now split].
    destruct (Db.raises s Db.Commit); [now split|].
    simpl. split; [reflexivity|].
    apply delete_keeps_primary_unique. now rewrite Hclean.
Qed.

Lemma assign_primary_others (i : Z) (l : list FaceEmbedding.t) :
  forall r, In r (FaceService.assign_primary i l) ->
            In r l \/ (FaceEmbedding.id r = i /\ FaceEmbedding.is_primary r = true).
Proof.
  induction l as [|a l IH]; intros r H; [destruct H|].
  simpl in H. destruct (FaceEmbedding.id a =? i) eqn:Ei.
  - destruct H as [<-|H].
    + right. split; [now apply Z.eqb_eq in Ei|reflexivity].
    + left. now right.
  - destruct H as [<-|H]; [left; now left|].
    destruct (IH r H) as [H'|H']; [left; now right|now right].
Qed.

Lemma assign_primary_target (i : Z) (l : list FaceEmbedding.t) :
  forall r, find (fun r => FaceEmbedding.id r =? i) l = Some r ->
            In (FaceEmbedding.with_is_primary true r) (FaceService.assign_primary i l).
Proof.
  induction l as [|a l IH]; intros r H; [discriminate|].
  simpl in *. destruct (FaceEmbedding.id a =? i).
  - injection H as <-. now left.
  - right. now apply IH.
Qed.

Lemma cleared_not_primary (c : string) (l : list FaceEmbedding.t) :
  forall r, In r (Store.cleared c l) -> FaceEmbedding.employee_code r = c ->
            FaceEmbedding.is_primary r = false.
Proof.
  intros r H Hc. unfold Store.cleared in H. apply in_map_iff in H.
  destruct H as [a [Ha _]].
  destruct (FaceService.code_is c a) eqn:Ec; simpl in Ha.
  - destruct (FaceEmbedding.is_primary a) eqn:Ep; subst r; [reflexivity|exact Ep].
  - subst r. apply code_is_eq in Hc. congruence.
Qed.

Lemma run_calls_keep_primary_unique
    (calls : list ((Db.stmt -> bool) * FaceService.call)) :
  forall s,
    Store.clean s ->
    Store.primary_unique (Db.face_embeddings (Db.committed s)) ->
    Forall (fun oc => fst oc Db.CountEmbeddings = false) calls ->
    Store.primary_unique
      (Db.face_embeddings (Db.committed (FaceService.run_calls calls s))).
Proof.
  induction calls as [|[oracle c] calls IH]; intros s Hclean Hu Hall; [exact Hu|].
  inversion Hall as [|x l Hhd Htl]; subst. simpl in Hhd.
  simpl.
  destruct (run_call_keeps_primary_unique c
              (Db.mk_session (Db.committed s) (Db.pending s) oracle))
    as [Hclean' Hu']; [exact Hclean|exact Hu|exact Hhd|].
  apply IH; assumption.
Qed.

(** Primary uniqueness while the count query is answered.  From a store
    in which every identity has at most one active primary row, any
    sequence of add, set_primary and delete calls, failed ones included,
    leaves at most one active primary row per identity, as long as the
    count query of has_any_embeddings is answered.  A
    successful set_primary commits, in the one commit of the call, a table
    in which the target row is primary and every other row of that
    identity that is still primary bears the target id; a failed one
    leaves the committed tables as they were. *)
Theorem primary_uniqueness
    (calls : list ((Db.stmt -> bool) * FaceService.call)) (s : Db.session) :
  Store.clean s ->
  Store.primary_unique (Db.face_embeddings (Db.committed s)) ->
  Forall (fun oc => fst oc Db.CountEmbeddings = false) calls ->
  Store.primary_unique
    (Db.face_embeddings (Db.committed (FaceService.run_calls calls s)))
  /\ forall i s0 res s1,
       FaceService.set_primary_embedding i s0 = (Db.Return res, s1) ->
       (Result.success res = false -> Db.committed s1 = Db.committed s0)
       /\ (Result.success res = true ->
           Db.committed s1 = Db.pending s1
           /\ exists r,
               In r (Db.face_embeddings (Db.committed s1))
               /\ FaceEmbedding.id r = i
               /\ FaceEmbedding.is_primary r = true
               /\ Result.employee_code res = Some (FaceEmbedding.employee_code r)
               /\ forall r',
                   In r' (Db.face_embeddings (Db.committed s1)) ->
                   FaceEmbedding.employee_code r' = FaceEmbedding.employee_code r ->
                   FaceEmbedding.is_primary r' = true ->
                   FaceEmbedding.id r' = i).
Proof.
  intros Hclean Hu Hall. split; [now apply run_calls_keep_primary_unique|].
  intros i s0 res s1 Hrun.
  rewrite set_primary_embedding_cases in Hrun.
  destruct (Db.raises s0 Db.SelectEmbedding).
  { injection Hrun as <- <-. split; [reflexivity|discriminate]. }
  destruct (find _ (Db.face_embeddings (Db.pending s0))) as [r0|] eqn:Ef.
  2:{ injection Hrun as <- <-. split; [reflexivity|discriminate]. }
  destruct (Db.raises s0 Db.UpdatePrimary || Db.raises s0 Db.Commit).
  { injection Hrun as <- <-. split; [reflexivity|discriminate]. }
  injection Hrun as <- <-. split; [discriminate|]. intros _.
  split; [reflexivity|].
  set (c := FaceEmbedding.employee_code r0).
  destruct (find_cleared c i _ r0 Ef) as [r1 [Hf1 Hc1]].
  exists (FaceEmbedding.with_is_primary true r1). simpl.
  split; [now apply assign_primary_target|].
  split.
  { apply find_some in Hf1. destruct Hf1 as [_ Hid]. now apply Z.eqb_eq in Hid. }
  split; [reflexivity|].
  split; [now rewrite Hc1|].
  intros r' Hin Hcode Hprim.
  destruct (assign_primary_others i _ r' Hin) as [Hold|[Hid _]]; [|exact Hid].
  rewrite Hc1 in Hcode.
  rewrite (cleared_not_primary c _ r' Hold Hcode) in Hprim. discriminate.
Qed.

(** An instance: the two enrollments of E1 followed by a failed and a
    successful set_primary, from the fresh store. *)
Lemma primary_uniqueness_witness :
  Store.primary_unique
    (Db.face_embeddings
       (Db.committed (FaceService.run_calls Example.enrollments Example.fresh))).
Proof.
  refine (proj1 (primary_uniqueness Example.enrollments Example.fresh _ _ _)).
  - reflexivity.
  - intro c. simpl. lia.
  - repeat constructor.
Defined.


(** Auto-primary while the count query is answered.  When the employee
    exists and the database answers, adding an embedding without asking
    for it to be primary stores one new active row for that identity; the row is primary when the identity had no
    active embedding and is not primary when it had at least one. *)
Theorem auto_primary_on_first_enrollment (code : string) (emb : list Q)
    (variant ty : string) (descr photo : option string) (quality : option Q)
    (now : Z) (s : Db.session) :
  (exists e, In e (Db.employees (Db.pending s)) /\ Employee.employee_code e = code) ->
  Db.raises s Db.SelectEmployee = false ->
  Db.raises s Db.CountEmbeddings = false ->
  Db.raises s Db.Commit = false ->
  exists r s',
    FaceService.add_face_embedding code emb variant ty descr photo quality false now s
    = (Db.Return (Result.mk true "Face embedding added successfully" (Some code)
                            (Some (FaceEmbedding.id r)) (Some variant)
                            (Some (FaceEmbedding.is_primary r))), s')
    /\ Db.face_embeddings (Db.committed s')
       = Db.face_embeddings (Db.pending s) ++ [r]
    /\ FaceEmbedding.employee_code r = code
    /\ FaceEmbedding.is_active r = true
    /\ (Store.has_active code (Db.face_embeddings (Db.pending s)) = false ->
        FaceEmbedding.is_primary r = true)
    /\ (Store.has_active code (Db.face_embeddings (Db.pending s)) = true ->
        FaceEmbedding.is_primary r = false).
Proof.
  intros [e [He Hcode]] H1 H2 H3.
  rewrite add_face_embedding_cases, H1, H2, H3.
  destruct (find (fun e => String.eqb (Employee.employee_code e) code)
                 (Db.employees (Db.pending s))) as [e'|] eqn:Ef.
  - simpl.
    exists (FaceEmbedding.mk (Db.next_id (Db.face_embeddings (Db.pending s)))
              (Employee.id e') code (Some emb) (Some ty) (Some variant) descr photo
              quality (negb (Store.has_active code (Db.face_embeddings (Db.pending s))))
              true now).
    eexists. split; [reflexivity|].
    split; [reflexivity|]. split; [reflexivity|]. split; [reflexivity|].
    simpl. split; intros ->; reflexivity.
  - exfalso. apply (find_none _ _ Ef) in He.
    rewrite Hcode, String.eqb_refl in He. discriminate.
Qed.

(** An instance: the first enrollment of E1 in the fresh store. *)
Lemma auto_primary_on_first_enrollment_witness :
  exists r s',
    FaceService.add_face_embedding "E1" [0; 0]%Q "default" "standard" None None None
      false 10 Example.fresh
    = (Db.Return (Result.mk true "Face embedding added successfully" (Some "E1"%string)
                            (Some (FaceEmbedding.id r)) (Some "default"%string)
                            (Some (FaceEmbedding.is_primary r))), s')
    /\ Db.face_embeddings (Db.committed s')
       = Db.face_embeddings (Db.pending Example.fresh) ++ [r]
    /\ FaceEmbedding.employee_code r = "E1"%string
    /\ FaceEmbedding.is_active r = true
    /\ (Store.has_active "E1" (Db.face_embeddings (Db.pending Example.fresh)) = false ->
        FaceEmbedding.is_primary r = true)
    /\ (Store.has_active "E1" (Db.face_embeddings (Db.pending Example.fresh)) = true ->
        FaceEmbedding.is_primary r = false).
Proof.
  apply (auto_primary_on_first_enrollment "E1" [0; 0]%Q "default" "standard"
           None None None 10 Example.fresh).
  - exists (Employee.mk 1 "E1" None true). split; [now left|reflexivity].
  - reflexivity.
  - reflexivity.
  - reflexivity.
Defined.


(** ** Failure of a mutation *)

Ltac settle_call :=
  eexists; eexists; split; [reflexivity|]; simpl;
  repeat split; try discriminate; try reflexivity; auto.

(** C9.  Run on a session with no statement in flight, each of
    add_face_embedding, set_primary_embedding and delete_face_embedding
    returns a dictionary and never raises.  When a statement the call
    depends on fails (the lookup, the update of the primary flags, the
    commit), the dictionary has success = false; whenever success is
    false the message is not empty and both the committed tables and the
    tables seen by the session are the ones committed before the call, so
    that a primary-flag update already made is undone; on success the
    session holds exactly what was committed. *)
Theorem failed_mutation_rolls_back (c : FaceService.call) (s : Db.session) :
  Store.clean s ->
  exists res s',
    FaceService.run_call c s = (Db.Return res, s')
    /\ (Store.aborts (Db.raises s) c = true -> Result.success res = false)
    /\ (Result.success res = false ->
        Result.message res <> EmptyString
        /\ Db.committed s' = Db.committed s
        /\ Db.pending s' = Db.committed s)
    /\ (Result.success res = true -> Db.pending s' = Db.committed s').
Proof.
  intro Hclean. unfold Store.clean in Hclean.
  destruct c as [code emb variant ty descr photo quality prim now|i|i]; simpl.
  - rewrite add_face_embedding_cases.
    destruct (Db.raises s Db.SelectEmployee); simpl.
    { settle_call. }
    destruct (find _ (Db.employees (Db.pending s))) as [e|].
    2:{ settle_call. }
    destruct (prim && Db.raises s Db.UpdatePrimary); simpl.
    { settle_call. }
    destruct (Db.raises s Db.Commit); simpl.
    { settle_call. }
    settle_call.
  - rewrite set_primary_embedding_cases.
    destruct (Db.raises s Db.SelectEmbedding); simpl.
    { settle_call. }
    destruct (find _ (Db.face_embeddings (Db.pending s))) as [r|].
    2:{ settle_call. }
    destruct (Db.raises s Db.UpdatePrimary || Db.raises s Db.Commit); simpl.
    { settle_call. }
    settle_call.
  - rewrite delete_face_embedding_cases.
    destruct (Db.raises s Db.SelectEmbedding); simpl.
    { settle_call. }
    destruct (find _ (Db.face_embeddings (Db.pending s))) as [r|].
    2:{ settle_call. }
    destruct (Db.raises s Db.Commit); simpl.
    { settle_call. }
    settle_call.
Qed.

(** C9, witness: an enrollment asking to be primary, against a database
    that refuses to commit. *)
Lemma failed_mutation_rolls_back_witness :
  exists res s',
    FaceService.run_call
      (FaceService.Add "E1" [1; 1]%Q "with_glasses" "standard" None None None true 20)
      Example.refusing = (Db.Return res, s')
    /\ (Store.aborts (Db.raises Example.refusing)
          (FaceService.Add "E1" [1; 1]%Q "with_glasses" "standard" None None None true 20)
        = true -> Result.success res = false)
    /\ (Result.success res = false ->
        Result.message res <> EmptyString
        /\ Db.committed s' = Db.committed Example.refusing
        /\ Db.pending s' = Db.committed Example.refusing)
    /\ (Result.success res = true -> Db.pending s' = Db.committed s').
Proof.
  apply (failed_mutation_rolls_back
           (FaceService.Add "E1" [1; 1]%Q "with_glasses" "standard" None None None true 20)
           Example.refusing).
  reflexivity.
Defined.

(** ** Listing *)

Lemma precedes_spec (a b : FaceEmbedding.t) :
  FaceEmbedding.precedes a b = true <-> Store.comes_before a b.
Proof.
  unfold FaceEmbedding.precedes, Store.comes_before.
  destruct (FaceEmbedding.is_primary a), (FaceEmbedding.is_primary b); simpl;
    rewrite ?Z.leb_le; intuition congruence.
Qed.

Lemma precedes_total (a b : FaceEmbedding.t) :
  FaceEmbedding.precedes a b = false -> Store.comes_before b a.
Proof.
  unfold FaceEmbedding.precedes, Store.comes_before.
  destruct (FaceEmbedding.is_primary a), (FaceEmbedding.is_primary b); simpl;
    rewrite ?Z.leb_gt; intro H; try discriminate; auto; right; split; auto; lia.
Qed.

Lemma comes_before_trans (a b c : FaceEmbedding.t) :
  Store.comes_before a b -> Store.comes_before b c -> Store.comes_before a c.
Proof.
  unfold Store.comes_before.
  destruct (FaceEmbedding.is_primary a), (FaceEmbedding.is_primary b),
    (FaceEmbedding.is_primary c); intros [[? ?]|[? ?]] [[? ?]|[? ?]];
    try discriminate; auto; right; split; auto; lia.
Qed.

Lemma insert_sorted_perm (a : FaceEmbedding.t) (l : list FaceEmbedding.t) :
  Permutation (FaceEmbedding.insert_sorted a l) (a :: l).
Proof.
  induction l as [|b l IH]; simpl; [apply Permutation_refl|].
  destruct (FaceEmbedding.precedes a b); [apply Permutation_refl|].
  eapply Permutation_trans; [apply perm_skip, IH|apply perm_swap].
Qed.

Lemma order_by_perm (l : list FaceEmbedding.t) :
  Permutation (FaceEmbedding.order_by l) l.
Proof.
  induction l as [|a l IH]; simpl; [apply Permutation_refl|].
  eapply Permutation_trans; [apply insert_sorted_perm|now apply perm_skip].
Qed.

Lemma insert_sorted_sorted (a : FaceEmbedding.t) (l : list FaceEmbedding.t) :
  StronglySorted Store.comes_before l ->
  StronglySorted Store.comes_before (FaceEmbedding.insert_sorted a l).
Proof.
  induction l as [|b l IH]; intro Hs; simpl.
  - constructor; constructor.
  - inversion Hs as [|b' l' Hl Hb]; subst.
    destruct (FaceEmbedding.precedes a b) eqn:E.
    + apply precedes_spec in E. constructor; [exact Hs|].
      constructor; [exact E|].
      eapply Forall_impl; [|exact Hb].
      intros c Hc. eapply comes_before_trans; eassumption.
    + apply precedes_total in E. constructor; [now apply IH|].
      eapply Permutation_Forall; [apply Permutation_sym, insert_sorted_perm|].
      now constructor.
Qed.

Lemma order_by_sorted (l : list FaceEmbedding.t) :
  StronglySorted Store.comes_before (FaceEmbedding.order_by l).
Proof.
  induction l as [|a l IH]; simpl; [constructor|].
  now apply insert_sorted_sorted.
Qed.

(** C10.  Listing the active embeddings of an identity returns rows of
    the table that belong to that identity and are active, primary rows
    before the others and, among rows with the same primary flag, later
    creation times first; when the query is answered these are all such
    rows, each as often as it is stored. *)
Theorem listing_primary_first_then_recent (code : string) (s : Db.session) :
  exists l,
    FaceService.get_employee_embeddings code true s = (Db.Return l, s)
    /\ (forall r, In r l ->
                  In r (Db.face_embeddings (Db.pending s))
                  /\ FaceEmbedding.employee_code r = code
                  /\ FaceEmbedding.is_active r = true)
    /\ StronglySorted Store.comes_before l
    /\ (Db.raises s Db.SelectEmbeddings = false ->
        Permutation l
          (filter (fun r => FaceService.code_is code r && FaceEmbedding.is_active r)
                  (Db.face_embeddings (Db.pending s)))).
Proof.
  unfold FaceService.get_employee_embeddings, Db.try_except, Db.bind, Db.execute,
    Db.get_pending, Db.ret.
  destruct (Db.raises s Db.SelectEmbeddings).
  - exists []. split; [reflexivity|]. split; [intros r []|].
    split; [constructor|discriminate].
  - eexists. split; [reflexivity|].
    unfold FaceEmbedding.get_all_embeddings.
    set (tbl := Db.face_embeddings (Db.pending s)).
    assert (Hperm : Permutation
              (FaceEmbedding.order_by
                 (filter FaceEmbedding.is_active
                    (filter (fun r => String.eqb (FaceEmbedding.employee_code r) code) tbl)))
              (filter (fun r => FaceService.code_is code r && FaceEmbedding.is_active r) tbl)).
    { eapply Permutation_trans; [apply order_by_perm|].
      induction tbl as [|r tbl IH]; simpl; [constructor|].
      unfold FaceService.code_is at 1.
      destruct (String.eqb (FaceEmbedding.employee_code r) code); simpl; [|exact IH].
      destruct (FaceEmbedding.is_active r); [now constructor|exact IH]. }
    split; [|split].
    + intros r Hr. apply (Permutation_in _ Hperm) in Hr.
      apply filter_In in Hr. destruct Hr as [Hin Hb].
      apply andb_true_iff in Hb. destruct Hb as [Hc Ha].
      split; [exact Hin|]. split; [now apply String.eqb_eq in Hc|exact Ha].
    + apply order_by_sorted.
    + intros _. exact Hperm.
Qed.

(** The listing of the end-to-end scenario: the second enrollment, made
    primary, comes first. *)
Lemma listing_after_two_enrollments :
  map FaceEmbedding.id
    (FaceEmbedding.get_all_embeddings
       (Db.face_embeddings
          (Db.committed (FaceService.run_calls (firstn 2 Example.enrollments)
                                               Example.fresh)))
       "E1" true)
  = [2; 1].
Proof. vm_compute. reflexivity. Qed.

(** ** The quality gate *)

Lemma sharp_points_code (v : Q) :
  QualitySpec.sharp_points v (if negb (Py.ltb v 100) then 30 else 0).
Proof.
  destruct (Py.ltb v 100) eqn:E; simpl.
  - apply QualitySpec.sharp_no. now apply ltb_lt.
  - apply QualitySpec.sharp_yes. apply ltb_ge in E.
    unfold QualitySpec.blurry. lra.
Qed.

Lemma light_points_code (b : Q) :
  QualitySpec.light_points b (if negb (Py.ltb b 50) then 30 else 0).
Proof.
  destruct (Py.ltb b 50) eqn:E; simpl.
  - apply QualitySpec.light_no. now apply ltb_lt.
  - apply QualitySpec.light_yes. apply ltb_ge in E.
    unfold QualitySpec.dark. lra.
Qed.

Lemma size_points_code (r : Q) :
  QualitySpec.size_points r (if negb (Py.ltb r 0.01) then 20 else 0).
Proof.
  destruct (Py.ltb r 0.01) eqn:E; simpl.
  - apply QualitySpec.size_no. now apply ltb_lt.
  - apply QualitySpec.size_yes. apply ltb_ge in E.
    unfold QualitySpec.small. lra.
Qed.

Lemma brightness_points_code (b : Q) :
  QualitySpec.brightness_points b
    (if Py.leb 50 b && Py.leb b 200 then 10
     else if (Py.leb 30 b && Py.ltb b 50) || (Py.ltb 200 b && Py.leb b 250)
          then 5 else 0).
Proof.
  destruct (Py.leb 50 b) eqn:E1; [apply leb_le in E1|apply leb_gt in E1];
  destruct (Py.leb b 200) eqn:E2; [apply leb_le in E2|apply leb_gt in E2|
                                   apply leb_le in E2|apply leb_gt in E2]; simpl.
  - now apply QualitySpec.bright_mid.
  - destruct (Py.leb 30 b) eqn:E3; [apply leb_le in E3|apply leb_gt in E3];
      destruct (Py.ltb b 50) eqn:E4; [apply ltb_lt in E4|apply ltb_ge in E4|
                                      apply ltb_lt in E4|apply ltb_ge in E4]; simpl;
      try (exfalso; lra).
    destruct (Py.ltb 200 b) eqn:E5; [|apply ltb_ge in E5; exfalso; lra].
    destruct (Py.leb b 250) eqn:E6; [apply leb_le in E6|apply leb_gt in E6]; simpl.
    + now apply QualitySpec.bright_high.
    + apply QualitySpec.bright_out. now right.
  - destruct (Py.ltb b 50) eqn:E4; [|apply ltb_ge in E4; exfalso; lra].
    destruct (Py.ltb 200 b) eqn:E5; [apply ltb_lt in E5; exfalso; lra|].
    destruct (Py.leb 30 b) eqn:E3; [apply leb_le in E3|apply leb_gt in E3]; simpl.
    + apply QualitySpec.bright_low; [exact E3|now apply ltb_lt in E4].
    + apply QualitySpec.bright_out. now left.
  - exfalso. lra.
Qed.

Lemma contrast_points_code (c : Q) :
  QualitySpec.contrast_points c
    (if Py.ltb 30 c then 10 else if Py.ltb 20 c then 5 else 0).
Proof.
  destruct (Py.ltb 30 c) eqn:E1; [apply ltb_lt in E1|apply ltb_ge in E1].
  - now apply QualitySpec.contrast_high.
  - destruct (Py.ltb 20 c) eqn:E2; [apply ltb_lt in E2|apply ltb_ge in E2].
    + now apply QualitySpec.contrast_mid.
    + now apply QualitySpec.contrast_low.
Qed.

Lemma points_bounds (v b c r : Q) (p1 p2 p3 p4 p5 : Z) :
  QualitySpec.sharp_points v p1 -> QualitySpec.light_points b p2 ->
  QualitySpec.size_points r p3 -> QualitySpec.brightness_points b p4 ->
  QualitySpec.contrast_points c p5 ->
  0 <= p1 + p2 + p3 + p4 + p5 <= 100.
Proof.
  intros H1 H2 H3 H4 H5.
  destruct H1, H2, H3, H4, H5; lia.
Qed.

Lemma score_unique (v b c r : Q) (n n' : Z) :
  QualitySpec.score v b c r n -> QualitySpec.score v b c r n' -> n = n'.
Proof.
  intros (p1 & p2 & p3 & p4 & p5 & H1 & H2 & H3 & H4 & H5 & ->)
         (q1 & q2 & q3 & q4 & q5 & K1 & K2 & K3 & K4 & K5 & ->).
  assert (p1 = q1) as -> by (destruct H1, K1; try reflexivity; contradiction).
  assert (p2 = q2) as -> by (destruct H2, K2; try reflexivity; contradiction).
  assert (p3 = q3) as -> by (destruct H3, K3; try reflexivity; contradiction).
  assert (p4 = q4) as ->.
  { destruct H4, K4; try reflexivity;
      repeat match goal with H : _ \/ _ |- _ => destruct H end;
      exfalso; lra. }
  assert (p5 = q5) as -> by (destruct H5, K5; try reflexivity; exfalso; lra).
  reflexivity.
Qed.

Section QualityTheorems.

Variable pixel : Type.
Variable mean_gray std_gray laplacian_var : list (list pixel) -> Q.

(** C8.  For every image and face box: on a face region of size zero
    the result is score 0 with is_blurry, is_dark and is_small all true;
    otherwise the flags are blurry iff the Laplacian variance is below
    100, dark iff the mean brightness is below 50, small iff the area
    ratio is below 0.01, and the score is the reference score of the
    specification and no other number, and lies between 0 and 100. *)
Theorem quality_score_reference (image : list (list pixel))
    (top right_ bottom left_ : Z) :
  let region := ImageProcessor.crop image top bottom left_ right_ in
  let q := ImageProcessor.detect_face_quality mean_gray std_gray laplacian_var
             image (top, right_, bottom, left_) in
  let ratio := (inject_Z ((bottom - top) * (right_ - left_))
                / inject_Z (ImageProcessor.shape0 image * ImageProcessor.shape1 image))%Q in
  (ImageProcessor.size region = 0 ->
   q = ImageProcessor.mk_quality 0 true true true 0%Q 0%Q None None)
  /\ (ImageProcessor.size region <> 0 ->
      QualitySpec.score (laplacian_var region) (mean_gray region) (std_gray region)
                        ratio (ImageProcessor.quality_score q)
      /\ (forall n, QualitySpec.score (laplacian_var region) (mean_gray region)
                                      (std_gray region) ratio n ->
                    n = ImageProcessor.quality_score q)
      /\ (ImageProcessor.is_blurry q = true <-> QualitySpec.blurry (laplacian_var region))
      /\ (ImageProcessor.is_dark q = true <-> QualitySpec.dark (mean_gray region))
      /\ (ImageProcessor.is_small q = true <-> QualitySpec.small ratio)
      /\ ImageProcessor.brightness q = mean_gray region
      /\ ImageProcessor.contrast q = std_gray region
      /\ 0 <= ImageProcessor.quality_score q <= 100).
Proof.
  intros region q ratio. subst q. unfold ImageProcessor.detect_face_quality.
  fold region. split.
  - intro Hz. apply Z.eqb_eq in Hz. now rewrite Hz.
  - intro Hnz. apply Z.eqb_neq in Hnz. rewrite Hnz. cbv zeta. fold ratio.
    set (v := laplacian_var region). set (b := mean_gray region).
    set (c := std_gray region).
    pose proof (sharp_points_code v) as H1.
    pose proof (light_points_code b) as H2.
    pose proof (size_points_code ratio) as H3.
    pose proof (brightness_points_code b) as H4.
    pose proof (contrast_points_code c) as H5.
    pose proof (points_bounds _ _ _ _ _ _ _ _ _ H1 H2 H3 H4 H5) as Hb.
    cbn [ImageProcessor.quality_score ImageProcessor.is_blurry ImageProcessor.is_dark
         ImageProcessor.is_small ImageProcessor.brightness ImageProcessor.contrast].
    assert (Hsum :
      (let quality_score := 0 in
       let quality_score := if negb (Py.ltb v 100) then quality_score + 30 else quality_score in
       let quality_score := if negb (Py.ltb b 50) then quality_score + 30 else quality_score in
       let quality_score := if negb (Py.ltb ratio 0.01) then quality_score + 20 else quality_score in
       let quality_score :=
         if Py.leb 50 b && Py.leb b 200 then quality_score + 10
         else if (Py.leb 30 b && Py.ltb b 50) || (Py.ltb 200 b && Py.leb b 250)
              then quality_score + 5 else quality_score in
       let quality_score :=
         if Py.ltb 30 c then quality_score + 10
         else if Py.ltb 20 c then quality_score + 5 else quality_score in
       quality_score)
      = (if negb (Py.ltb v 100) then 30 else 0)
        + (if negb (Py.ltb b 50) then 30 else 0)
        + (if negb (Py.ltb ratio 0.01) then 20 else 0)
        + (if Py.leb 50 b && Py.leb b 200 then 10
           else if (Py.leb 30 b && Py.ltb b 50) || (Py.ltb 200 b && Py.leb b 250)
                then 5 else 0)
        + (if Py.ltb 30 c then 10 else if Py.ltb 20 c then 5 else 0)).
    { cbv zeta.
      destruct (negb (Py.ltb v 100)), (negb (Py.ltb b 50)), (negb (Py.ltb ratio 0.01)),
        (Py.leb 50 b && Py.leb b 200),
        ((Py.leb 30 b && Py.ltb b 50) || (Py.ltb 200 b && Py.leb b 250)),
        (Py.ltb 30 c), (Py.ltb 20 c); reflexivity. }
    cbv zeta in Hsum. rewrite Hsum.
    assert (Hscore : QualitySpec.score v b c ratio
              (Z.min ((if negb (Py.ltb v 100) then 30 else 0)
                      + (if negb (Py.ltb b 50) then 30 else 0)
                      + (if negb (Py.ltb ratio 0.01) then 20 else 0)
                      + (if Py.leb 50 b && Py.leb b 200 then 10
                         else if (Py.leb 30 b && Py.ltb b 50)
                                 || (Py.ltb 200 b && Py.leb b 250)
                              then 5 else 0)
                      + (if Py.ltb 30 c then 10 else if Py.ltb 20 c then 5 else 0))
                     100)).
    { do 5 eexists. repeat (split; [eassumption|]). reflexivity. }
    split; [exact Hscore|].
    split; [intros n Hn; exact (score_unique _ _ _ _ _ _ Hn Hscore)|].
    split; [apply ltb_lt|]. split; [apply ltb_lt|]. split; [apply ltb_lt|].
    split; [reflexivity|]. split; [reflexivity|]. lia.
Qed.

End QualityTheorems.

(** ** What the gallery holds *)

Lemma in_entry (dim : option Z) (r : FaceEmbedding.t) (v : list Q) (code : string) :
  In (v, code) (Gallery.entry dim r)
  <-> FaceEmbedding.get_embedding r = Some v
      /\ FaceEmbedding.employee_code r = code
      /\ (Py.truthy_int dim = true -> dim = Some (Z.of_nat (List.length v))).
Proof.
  unfold Gallery.entry.
  destruct (FaceEmbedding.get_embedding r) as [w|].
  2:{ split; [intros []|intros [H _]; discriminate]. }
  destruct dim as [d|]; simpl.
  - destruct (Z.eqb_spec d 0) as [Hd|Hd]; simpl.
    + split.
      * intros [H|[]]. injection H as <- <-. repeat split. discriminate.
      * intros [H [<- _]]. injection H as <-. now left.
    + destruct (Z.eqb_spec (Z.of_nat (List.length w)) d) as [Hl|Hl].
      * split.
        -- intros [H|[]]. injection H as <- <-. repeat split. intros _. now rewrite Hl.
        -- intros [H [<- _]]. injection H as <-. now left.
      * split; [intros []|].
        intros [H [_ Hdim]]. injection H as <-.
        specialize (Hdim eq_refl). injection Hdim as Hdim. congruence.
  - split.
    + intros [H|[]]. injection H as <- <-. repeat split. discriminate.
    + intros [H [<- _]]. injection H as <-. now left.
Qed.

Lemma of_type_spec (ty : option string) (r : FaceEmbedding.t) :
  Gallery.of_type ty r = true
  <-> (Py.truthy_str ty = true -> FaceEmbedding.embedding_type r = ty).
Proof.
  unfold Gallery.of_type, Py.truthy_str, FaceService.type_is.
  destruct ty as [t|]; [|split; [discriminate|reflexivity]].
  destruct (String.eqb t EmptyString); simpl.
  - split; [discriminate|reflexivity].
  - destruct (FaceEmbedding.embedding_type r) as [t'|].
    + rewrite String.eqb_eq. split.
      * intros -> _. reflexivity.
      * intro H. specialize (H eq_refl). now injection H.
    + split; [discriminate|]. intro H. specialize (H eq_refl). discriminate.
Qed.

(** C4, as the code has it.  get_all_face_embeddings_multi never raises
    and returns vectors and owners side by side; each comes from an
    active row whose vector is readable, of the requested embedding type
    when one is requested and of the requested size when one is
    requested; when the query is answered every such row is returned.
    Recognition requests neither, so its gallery is every active
    readable row, of any type and any length. *)
Theorem gallery_filter (ty : option string) (dim : option Z) (s : Db.session) :
  exists es : list (list Q * string),
    FaceService.get_all_face_embeddings_multi ty dim s
    = (Db.Return (map fst es, map snd es), s)
    /\ (forall v code,
          In (v, code) es ->
          exists r,
            In r (Db.face_embeddings (Db.pending s))
            /\ FaceEmbedding.is_active r = true
            /\ FaceEmbedding.get_embedding r = Some v
            /\ FaceEmbedding.employee_code r = code
            /\ (Py.truthy_str ty = true -> FaceEmbedding.embedding_type r = ty)
            /\ (Py.truthy_int dim = true -> dim = Some (Z.of_nat (List.length v))))
    /\ (Db.raises s Db.SelectEmbeddings = false ->
        forall r v,
          In r (Db.face_embeddings (Db.pending s)) ->
          FaceEmbedding.is_active r = true ->
          FaceEmbedding.get_embedding r = Some v ->
          (Py.truthy_str ty = true -> FaceEmbedding.embedding_type r = ty) ->
          (Py.truthy_int dim = true -> dim = Some (Z.of_nat (List.length v))) ->
          In (v, FaceEmbedding.employee_code r) es)
    /\ (Db.raises s Db.SelectEmbeddings = false ->
        ty = None -> dim = None ->
        forall r v,
          In r (Db.face_embeddings (Db.pending s)) ->
          FaceEmbedding.is_active r = true ->
          FaceEmbedding.get_embedding r = Some v ->
          In (v, FaceEmbedding.employee_code r) es).
Proof.
  rewrite multi_gallery.
  destruct (Db.raises s Db.SelectEmbeddings).
  - exists []. split; [reflexivity|]. split; [intros v code []|].
    split; discriminate.
  - eexists. split; [reflexivity|].
    assert (Hall : forall r v,
              In r (Db.face_embeddings (Db.pending s)) ->
              FaceEmbedding.is_active r = true ->
              FaceEmbedding.get_embedding r = Some v ->
              (Py.truthy_str ty = true -> FaceEmbedding.embedding_type r = ty) ->
              (Py.truthy_int dim = true -> dim = Some (Z.of_nat (List.length v))) ->
              In (v, FaceEmbedding.employee_code r)
                 (Gallery.entries dim
                    (filter (Gallery.of_type ty)
                       (filter FaceEmbedding.is_active
                          (Db.face_embeddings (Db.pending s)))))).
    { intros r v Hin Hact Hv Hty Hdim.
      unfold Gallery.entries. apply in_flat_map. exists r. split.
      - apply filter_In. split; [|now apply of_type_spec].
        apply filter_In. now split.
      - apply in_entry. now repeat split. }
    split; [|split].
    + intros v code Hin. unfold Gallery.entries in Hin.
      apply in_flat_map in Hin. destruct Hin as [r [Hr He]].
      apply filter_In in Hr. destruct Hr as [Hr Hty].
      apply filter_In in Hr. destruct Hr as [Hr Hact].
      apply in_entry in He. destruct He as [Hv [Hc Hdim]].
      pose proof (proj1 (of_type_spec ty r) Hty) as Hty'.
      exists r. split; [exact Hr|]. split; [exact Hact|]. split; [exact Hv|].
      split; [exact Hc|]. split; assumption.
    + intros _. exact Hall.
    + intros _ -> -> r v Hin Hact Hv.
      apply Hall; try assumption; discriminate.
Qed.

(** C4, counterexample: with one "standard" and one "deepface" row of
    the same length in the store, the gallery of recognition holds both,
    and a query is matched to the owner of the "deepface" row; with rows
    of two lengths the longer one is not skipped, and no query can be
    recognized at all. *)
Lemma gallery_mixes_types :
  map FaceEmbedding.embedding_type (Db.face_embeddings (Db.pending Example.two_types))
  = [Some "standard"%string; Some "deepface"%string]
  /\ fst (FaceService.get_all_face_embeddings_multi None None Example.two_types)
     = Db.Return ([[0; 0]%Q; [1; 1]%Q], ["E1"%string; "E2"%string])
  /\ fst (FaceService.recognize_employee_multi Numeric.norm Numeric.format_percent
            FaceService.init [1; 1]%Q true Example.two_types)
     = Db.Return (Outcome.recognized "E2" 1 0 true)
  /\ fst (FaceService.get_all_face_embeddings_multi None None Example.two_lengths)
     = Db.Return ([[0; 0]%Q; [1; 1; 1]%Q], ["E1"%string; "E2"%string])
  /\ fst (FaceService.recognize_employee_multi Numeric.norm Numeric.format_percent
            FaceService.init [0; 0]%Q true Example.two_lengths)
     = Db.Return Outcome.no_distances.
Proof.
  repeat split; vm_compute; reflexivity.
Qed.

(** * Further properties *)

(** ** The executable norm *)

Lemma numeric_norm_nonnegative (v : list Q) : (0 <= Numeric.norm v)%Q.
Proof.
  unfold Numeric.norm, Numeric.sqrt. rewrite Qred_correct.
  unfold Qle. cbn [Qnum Qden]. rewrite Z.mul_0_l, Z.mul_1_r.
  apply Z.sqrt_nonneg.
Qed.

Lemma numeric_norm_zero (v : list Q) :
  Forall (fun x => (x == 0)%Q) v -> (Numeric.norm v == 0)%Q.
Proof.
  intro H.
  assert (Hn : Qnum (fold_right (fun x acc => (x * x + acc)%Q) 0%Q v) = 0).
  { induction H as [|x l Hx _ IH]; [reflexivity|].
    simpl fold_right.
    assert (Hx0 : Qnum x = 0) by (unfold Qeq in Hx; simpl in Hx; lia).
    set (acc := fold_right (fun x acc => (x * x + acc)%Q) 0%Q l) in *.
    destruct x as [xn xd], acc as [an ad]. simpl in Hx0, IH. subst xn an.
    reflexivity. }
  unfold Numeric.norm, Numeric.sqrt. rewrite Qred_correct, Hn.
  reflexivity.
Qed.

(** ** Recognition: what it returns and what it leaves alone *)

Lemma index_first (l : list Q) (x : Q) :
  forall i, Py.index l x = Some i ->
    (exists y, nth_error l i = Some y /\ (y == x)%Q)
    /\ (forall j y, (j < i)%nat -> nth_error l j = Some y -> ~ (y == x)%Q).
Proof.
  induction l as [|a l IH]; intros i H; [discriminate|].
  simpl in H. destruct (Py.eqb a x) eqn:E.
  - injection H as <-. split.
    + exists a. split; [reflexivity|]. now apply Qeq_bool_iff.
    + intros j y Hj. lia.
  - destruct (Py.index l x) as [i'|]; [|discriminate].
    injection H as <-. destruct (IH i' eq_refl) as [[y [Hy Hyx]] Hbefore].
    split.
    + exists y. split; assumption.
    + intros [|j] y' Hj Hn; simpl in Hn.
      * injection Hn as <-. intro Hax. apply Qeq_bool_iff in Hax.
        unfold Py.eqb in E. congruence.
      * apply (Hbefore j y'); [lia|exact Hn].
Qed.

Lemma broadcast_sub_same_length (a b : list Q) :
  List.length a = List.length b ->
  broadcast_sub a b = Some (map (fun p => (fst p - snd p)%Q) (combine a b)).
Proof.
  intro H. unfold broadcast_sub. now rewrite H, Nat.eqb_refl.
Qed.

Lemma sub_self_zero (a : list Q) :
  Forall (fun x => (x == 0)%Q) (map (fun p => (fst p - snd p)%Q) (combine a a)).
Proof.
  induction a as [|x a IH]; simpl; constructor; [|exact IH].
  simpl. ring.
Qed.

(** On a gallery of vectors of the length of the query every distance is
    the norm of a difference; the difference of the query with itself is
    a zero vector. *)
Lemma face_distance_uniform norm (known : list (list Q)) (q : list Q) :
  (forall v, In v known -> List.length v = List.length q) ->
  exists dists,
    face_distance norm known q = Some dists
    /\ (forall d, In d dists -> exists v, d = norm v)
    /\ (In q known ->
        exists v, In (norm v) dists /\ Forall (fun x => (x == 0)%Q) v).
Proof.
  intro Hlen.
  assert (Hrows : exists rows,
            sub_rows known q = Some rows
            /\ (In q known ->
                exists v, In v rows /\ Forall (fun x => (x == 0)%Q) v)).
  { induction known as [|r known IH].
    - exists []. split; [reflexivity|intros []].
    - destruct IH as [rows [Hrows Hq]]; [intros v Hv; apply Hlen; now right|].
      simpl. rewrite (broadcast_sub_same_length r q (Hlen r (or_introl eq_refl))), Hrows.
      eexists. split; [reflexivity|].
      intros [->|Hin].
      + eexists. split; [now left|apply sub_self_zero].
      + destruct (Hq Hin) as [v [Hv Hz]]. exists v. split; [now right|exact Hz]. }
  destruct Hrows as [rows [Hrows Hq]].
  destruct known as [|r0 known].
  - exists []. split; [reflexivity|]. split; [intros d []|intros []].
  - exists (map norm rows). unfold face_distance.
    assert (Hall : forallb (fun r => (List.length r =? List.length r0)%nat)
                           (r0 :: known) = true).
    { apply forallb_forall. intros r Hr. apply Nat.eqb_eq.
      rewrite (Hlen r Hr), (Hlen r0 (or_introl eq_refl)). reflexivity. }
    rewrite Hall, Hrows. split; [reflexivity|]. split.
    + intros d Hd. apply in_map_iff in Hd. destruct Hd as [v [<- _]]. now exists v.
    + intro Hin. destruct (Hq Hin) as [v [Hv Hz]]. exists v.
      split; [now apply in_map|exact Hz].
Qed.

Section RecognitionMore.

Variable norm : list Q -> Q.
Variable format_percent : Q -> string.

(** Recognition on a gallery with defined distances, with the position
    of the match made explicit. *)
Lemma recognize_at_index (self : FaceService.t) (q : list Q) (multi : bool)
    (s : Db.session) (es : list (list Q * string)) (d0 : Q) (ds : list Q) :
  (if multi then FaceService.get_all_face_embeddings_multi None None
   else FaceService.get_all_face_encodings) s
  = (Db.Return (map fst es, map snd es), s) ->
  FaceDetector.find_face_distance norm (FaceService.face_detector self) q (map fst es)
  = d0 :: ds ->
  exists i code,
    Py.index (d0 :: ds) (Py.min_from d0 ds) = Some i
    /\ nth_error (map snd es) i = Some code
    /\ FaceService.recognize_employee_multi norm format_percent self q multi s
       = (Db.Return
            (let m := Py.min_from d0 ds in
             if Py.ltb m (FaceDetector.tolerance (FaceService.face_detector self))
             then if Py.leb 0.6%Q (1 - m)%Q
                  then Outcome.recognized code (1 - m)%Q m multi
                  else Outcome.low_confidence format_percent (1 - m)%Q m
             else Outcome.no_match m), s).
Proof.
  intros Hg Hd.
  destruct es as [|e es]; [discriminate|].
  assert (Hlen : List.length (d0 :: ds) = List.length (e :: es)).
  { destruct (find_face_distance_cases norm (FaceService.face_detector self) q
                (map fst (e :: es))) as [[Hnil _]|[_ Hsome]]; [congruence|].
    rewrite Hd in Hsome.
    rewrite (face_distance_length _ _ _ _ Hsome). apply length_map. }
  destruct (index_of_member (d0 :: ds) (Py.min_from d0 ds) (min_from_in ds d0))
    as [i [Hi Hlt]].
  destruct (nth_error (map snd (e :: es)) i) as [code|] eqn:En.
  2:{ exfalso. apply nth_error_None in En. rewrite length_map in En.
      simpl in Hlt, Hlen, En. lia. }
  exists i, code. split; [exact Hi|]. split; [exact En|].
  unfold FaceService.recognize_employee_multi, Db.try_except, Db.bind.
  rewrite Hg. cbn [fst snd].
  change (map fst (e :: es)) with (fst e :: map fst es).
  cbv beta iota.
  change (fst e :: map fst es) with (map fst (e :: es)).
  rewrite Hd, Hi, En. cbv zeta.
  destruct (Py.ltb (Py.min_from d0 ds) _); [|reflexivity].
  destruct (Py.leb 0.6%Q _); reflexivity.
Qed.

(** X1.  Recognition always returns a dictionary and leaves the session
    as it found it; a successful result names one owner of a gallery
    entry, every other result names nobody. *)
Theorem recognition_reads_only (self : FaceService.t) (q : list Q) (multi : bool)
    (s : Db.session) :
  exists R known codes,
    FaceService.recognize_employee_multi norm format_percent self q multi s
    = (Db.Return R, s)
    /\ fst ((if multi then FaceService.get_all_face_embeddings_multi None None
             else FaceService.get_all_face_encodings) s) = Db.Return (known, codes)
    /\ (Recognition.success R = true ->
        exists code, Recognition.employee_code R = Some code /\ In code codes)
    /\ (Recognition.success R = false -> Recognition.employee_code R = None).
Proof.
  destruct (gallery_shape multi s) as [es Hes].
  destruct (recognize_cases norm format_percent self q multi s es Hes) as [R [HR Hcase]].
  exists R, (map fst es), (map snd es).
  split; [exact HR|]. split; [now rewrite Hes|].
  destruct (FaceDetector.find_face_distance norm _ q (map fst es)) as [|d0 ds].
  - destruct Hcase as [[_ ->]|[_ ->]]; split; try discriminate; reflexivity.
  - cbv zeta in Hcase.
    destruct (Py.ltb (Py.min_from d0 ds) _).
    + destruct (Py.leb 0.6%Q _).
      * destruct Hcase as [code [Hin ->]]. split; [|discriminate].
        intros _. exists code. split; [reflexivity|exact Hin].
      * subst R. split; [discriminate|reflexivity].
    + subst R. split; [discriminate|reflexivity].
Qed.

(** X2.  The identity of a successful recognition is the owner of the
    first gallery entry at the least distance: its distance is below or
    equal to every other, and every entry before it is strictly
    farther. *)
Theorem recognition_names_first_minimum (self : FaceService.t) (q : list Q)
    (multi : bool) (s : Db.session) (known : list (list Q)) (codes : list string)
    (dists : list Q) (R : Recognition.t) :
  fst ((if multi then FaceService.get_all_face_embeddings_multi None None
        else FaceService.get_all_face_encodings) s) = Db.Return (known, codes) ->
  face_distance norm known q = Some dists ->
  fst (FaceService.recognize_employee_multi norm format_percent self q multi s)
  = Db.Return R ->
  Recognition.success R = true ->
  exists i code d m,
    Recognition.employee_code R = Some code
    /\ nth_error codes i = Some code
    /\ nth_error dists i = Some d
    /\ Recognition.distance R = Some m /\ (d == m)%Q
    /\ (forall d', In d' dists -> (d <= d')%Q)
    /\ (forall j d', (j < i)%nat -> nth_error dists j = Some d' -> (d < d')%Q).
Proof.
  intros Hg Hd HR Hsucc.
  destruct (gallery_shape multi s) as [es Hes].
  rewrite Hes in Hg. simpl in Hg. injection Hg as Hk Hc. subst known codes.
  destruct es as [|e es].
  { destruct (recognize_cases norm format_percent self q multi s [] Hes)
      as [R' [HR' Hcase]].
    rewrite HR' in HR. simpl in HR, Hcase. injection HR as ->.
    destruct Hcase as [[_ ->]|[Hne _]]; [discriminate|now elim Hne]. }
  destruct (find_face_distance_cases norm (FaceService.face_detector self) q
              (map fst (e :: es))) as [[_ [Hk0|Hnone]]|[_ Hsome]];
    [discriminate|congruence|].
  rewrite Hd in Hsome. injection Hsome as Hsome.
  assert (Hlen := face_distance_length _ _ _ _ Hd).
  destruct dists as [|d0 ds]; [discriminate|].
  symmetry in Hsome.
  destruct (recognize_at_index self q multi s (e :: es) d0 ds Hes Hsome)
    as [i [code [Hi [Hn Hrun]]]].
  rewrite Hrun in HR. simpl in HR. injection HR as HR.
  destruct (index_first _ _ _ Hi) as [[d [Hnd Hdm]] Hbefore].
  exists i, code, d, (Py.min_from d0 ds).
  cbv zeta in HR.
  destruct (Py.ltb (Py.min_from d0 ds) _); [|subst R; discriminate].
  destruct (Py.leb 0.6%Q _); [|subst R; discriminate].
  subst R. split; [reflexivity|]. split; [exact Hn|].
  assert (Hmin : forall d', In d' (d0 :: ds) -> (Py.min_from d0 ds <= d')%Q)
    by apply min_from_lower.
  split; [exact Hnd|]. split; [reflexivity|]. split; [exact Hdm|].
  split.
  - intros d' Hd'. rewrite Hdm. now apply Hmin.
  - intros j d' Hj Hjd. rewrite Hdm.
    assert (Hle : (Py.min_from d0 ds <= d')%Q).
    { apply Hmin. eapply nth_error_In. exact Hjd. }
    apply Qle_lteq in Hle. destruct Hle as [Hlt|Heq]; [exact Hlt|].
    exfalso. apply (Hbefore j d' Hj Hjd). now symmetry.
Qed.

Lemma identical_vector_recognized (self : FaceService.t) (q : list Q)
    (multi : bool) (s : Db.session) (known : list (list Q)) (codes : list string) :
  (forall v, (0 <= norm v)%Q) ->
  (forall v, Forall (fun x => (x == 0)%Q) v -> (norm v == 0)%Q) ->
  fst ((if multi then FaceService.get_all_face_embeddings_multi None None
        else FaceService.get_all_face_encodings) s) = Db.Return (known, codes) ->
  In q known ->
  (forall v, In v known -> List.length v = List.length q) ->
  (0 < FaceDetector.tolerance (FaceService.face_detector self))%Q ->
  exists R code m,
    FaceService.recognize_employee_multi norm format_percent self q multi s
    = (Db.Return R, s)
    /\ Recognition.success R = true
    /\ Recognition.employee_code R = Some code /\ In code codes
    /\ Recognition.distance R = Some m /\ (m == 0)%Q
    /\ (Recognition.confidence R == 1)%Q.
Proof.
  intros Hnonneg Hzero Hg Hin Hlen Htol.
  destruct (gallery_shape multi s) as [es Hes].
  rewrite Hes in Hg. simpl in Hg. injection Hg as Hk Hc. subst known codes.
  destruct (face_distance_uniform norm (map fst es) q Hlen) as [dists [Hd Hall]].
  assert (Hne : map fst es <> []) by (intro E; rewrite E in Hin; destruct Hin).
  destruct (find_face_distance_cases norm (FaceService.face_detector self) q
              (map fst es)) as [[_ [Hk0|Hnone]]|[_ Hsome]];
    [contradiction|congruence|].
  rewrite Hd in Hsome. injection Hsome as Hsome. symmetry in Hsome.
  destruct dists as [|d0 ds].
  { exfalso. apply face_distance_length in Hd. destruct (map fst es); [now elim Hne|discriminate]. }
  destruct (recognize_at_index self q multi s es d0 ds Hes Hsome)
    as [i [code [Hi [Hn Hrun]]]].
  destruct Hall as [Hnorms Hself].
  assert (Hm0 : (Py.min_from d0 ds == 0)%Q).
  { apply Qle_antisym.
    - destruct (Hself Hin) as [v [Hv Hz]].
      rewrite <- (Hzero v Hz). now apply min_from_lower.
    - destruct (Hnorms _ (min_from_in ds d0)) as [v ->]. apply Hnonneg. }
  rewrite Hrun. cbv zeta.
  assert (Ea : Py.ltb (Py.min_from d0 ds)
                      (FaceDetector.tolerance (FaceService.face_detector self)) = true).
  { apply ltb_lt. rewrite Hm0. exact Htol. }
  assert (Eb : Py.leb 0.6%Q (1 - Py.min_from d0 ds)%Q = true).
  { apply leb_le. rewrite Hm0. lra. }
  rewrite Ea, Eb.
  eexists. exists code. eexists. split; [reflexivity|]. simpl.
  split; [reflexivity|]. split; [reflexivity|].
  split; [eapply nth_error_In; exact Hn|].
  split; [reflexivity|]. split; [exact Hm0|]. rewrite Hm0. ring.
Qed.

(** X3.  For a norm that is never negative and is zero on a zero vector,
    a query equal to an enrolled vector, against a gallery of vectors of
    its length, is recognized whenever the tolerance is positive: the
    distance is 0 and the confidence 1. *)
Theorem enrolled_vector_is_recognized (self : FaceService.t) (q : list Q)
    (multi : bool) (s : Db.session) (known : list (list Q)) (codes : list string) :
  (forall v, (0 <= norm v)%Q) ->
  (forall v, Forall (fun x => (x == 0)%Q) v -> (norm v == 0)%Q) ->
  fst ((if multi then FaceService.get_all_face_embeddings_multi None None
        else FaceService.get_all_face_encodings) s) = Db.Return (known, codes) ->
  In q known ->
  (forall v, In v known -> List.length v = List.length q) ->
  (0 < FaceDetector.tolerance (FaceService.face_detector self))%Q ->
  exists R code m,
    FaceService.recognize_employee_multi norm format_percent self q multi s
    = (Db.Return R, s)
    /\ Recognition.success R = true
    /\ Recognition.employee_code R = Some code /\ In code codes
    /\ Recognition.distance R = Some m /\ (m == 0)%Q
    /\ (Recognition.confidence R == 1)%Q.
Proof. apply identical_vector_recognized. Qed.

(** X4.  The legacy recognize_employee and recognize_employee_multi
    with use_multi_embedding = False return the same dictionary, but for
    the method key that only the latter sets, and both leave the session
    alone. *)
Theorem legacy_matcher_agrees (self : FaceService.t) (q : list Q) (s : Db.session) :
  exists R,
    FaceService.recognize_employee_multi norm format_percent self q false s
    = (Db.Return R, s)
    /\ FaceServiceMore.recognize_employee norm format_percent self q s
       = (Db.Return (Recognition.mk (Recognition.success R) (Recognition.message R)
                       (Recognition.employee_code R) (Recognition.confidence R)
                       (Recognition.distance R) None), s).
Proof.
  destruct (gallery_shape false s) as [es Hes].
  unfold FaceServiceMore.recognize_employee, Db.try_except, Db.bind.
  rewrite Hes. cbn [fst snd].
  destruct (FaceDetector.find_face_distance norm (FaceService.face_detector self) q
              (map fst es)) as [|d0 ds] eqn:Hd.
  - destruct (recognize_cases norm format_percent self q false s es Hes)
      as [R [HR Hcase]].
    rewrite Hd in Hcase. exists R. split; [exact HR|].
    destruct es as [|e es].
    + destruct Hcase as [[_ ->]|[Hne _]]; [reflexivity|now elim Hne].
    + destruct Hcase as [[He _]|[_ ->]]; [discriminate|].
      change (map fst (e :: es)) with (fst e :: map fst es).
      cbv beta iota.
      reflexivity.
  - destruct (recognize_at_index self q false s es d0 ds Hes Hd)
      as [i [code [Hi [Hn Hrun]]]].
    eexists. split; [exact Hrun|].
    destruct es as [|e es]; [discriminate|].
    change (map fst (e :: es)) with (fst e :: map fst es).
    cbv beta iota.
    rewrite Hi. cbv zeta.
    destruct (Py.ltb (Py.min_from d0 ds) _); [|reflexivity].
    destruct (Py.leb 0.6%Q _); [|reflexivity].
    rewrite Hn. reflexivity.
Qed.

End RecognitionMore.

Lemma recognition_names_first_minimum_witness :
  exists i code d m,
    Recognition.employee_code (Outcome.recognized "E1" 1 0 true) = Some code
    /\ nth_error ["E1"; "E2"]%string i = Some code
    /\ nth_error [0; 0]%Q i = Some d
    /\ Recognition.distance (Outcome.recognized "E1" 1 0 true) = Some m /\ (d == m)%Q
    /\ (forall d', In d' [0; 0]%Q -> (d <= d')%Q)
    /\ (forall j d', (j < i)%nat -> nth_error [0; 0]%Q j = Some d' -> (d < d')%Q).
Proof.
  apply (recognition_names_first_minimum Numeric.norm Numeric.format_percent
           FaceService.init [0; 0]%Q true Sample.twins
           [[0; 0]; [0; 0]]%Q ["E1"; "E2"]%string [0; 0]%Q
           (Outcome.recognized "E1" 1 0 true)).
  - vm_compute. reflexivity.
  - vm_compute. reflexivity.
  - vm_compute. reflexivity.
  - reflexivity.
Defined.

Lemma enrolled_vector_is_recognized_witness :
  exists R code m,
    FaceService.recognize_employee_multi Numeric.norm Numeric.format_percent
      FaceService.init [0; 0]%Q true Sample.twins
    = (Db.Return R, Sample.twins)
    /\ Recognition.success R = true
    /\ Recognition.employee_code R = Some code /\ In code ["E1"; "E2"]%string
    /\ Recognition.distance R = Some m /\ (m == 0)%Q
    /\ (Recognition.confidence R == 1)%Q.
Proof.
  apply (enrolled_vector_is_recognized Numeric.norm Numeric.format_percent
           FaceService.init [0; 0]%Q true Sample.twins [[0; 0]; [0; 0]]%Q).
  - exact numeric_norm_nonnegative.
  - exact numeric_norm_zero.
  - vm_compute. reflexivity.
  - simpl. auto.
  - intros v [<-|[<-|[]]]; reflexivity.
  - vm_compute. reflexivity.
Defined.

(** ** FaceDetector.recognize_face *)

Section DetectorMatch.

Variable norm : list Q -> Q.

(** X5.  With one name per known encoding and defined distances,
    recognize_face returns a name exactly when some distance is strictly
    below the tolerance; it is the name at the first least distance.  No
    confidence floor applies, and the test of compare_faces with
    [<=] changes nothing. *)
Theorem recognize_face_first_minimum (self : FaceDetector.t) (q : list Q)
    (known : list (list Q)) (names : list string) (dists : list Q) :
  known <> [] ->
  List.length names = List.length known ->
  face_distance norm known q = Some dists ->
  ((exists d, In d dists /\ (d < FaceDetector.tolerance self)%Q)
   <-> exists name,
         FaceDetectorMatch.recognize_face norm self q known names = Some name)
  /\ (forall name,
        FaceDetectorMatch.recognize_face norm self q known names = Some name ->
        exists i d,
          nth_error names i = Some name
          /\ nth_error dists i = Some d
          /\ (d < FaceDetector.tolerance self)%Q
          /\ (forall d', In d' dists -> (d <= d')%Q)
          /\ (forall j d', (j < i)%nat -> nth_error dists j = Some d' -> (d < d')%Q)).
Proof.
  intros Hne Hlen Hd.
  assert (Hdl := face_distance_length _ _ _ _ Hd).
  destruct known as [|r known]; [now elim Hne|].
  destruct names as [|n names]; [discriminate|].
  destruct dists as [|d0 ds]; [discriminate|].
  unfold FaceDetectorMatch.recognize_face, FaceDetectorMatch.compare_faces,
    FaceDetector.find_face_distance.
  rewrite Hd.
  destruct (index_of_member (d0 :: ds) (Py.min_from d0 ds) (min_from_in ds d0))
    as [i [Hi Hlt]].
  destruct (index_first _ _ _ Hi) as [[d [Hnd Hdm]] Hbefore].
  rewrite Hi, Hnd.
  assert (Hmin : forall d', In d' (d0 :: ds) -> (d <= d')%Q).
  { intros d' Hd'. rewrite Hdm. now apply min_from_lower. }
  assert (Hfirst : forall j d', (j < i)%nat -> nth_error (d0 :: ds) j = Some d' ->
                                (d < d')%Q).
  { intros j d' Hj Hjd. rewrite Hdm.
    assert (Hle : (Py.min_from d0 ds <= d')%Q).
    { apply min_from_lower. eapply nth_error_In. exact Hjd. }
    apply Qle_lteq in Hle. destruct Hle as [Hl|Heq]; [exact Hl|].
    exfalso. apply (Hbefore j d' Hj Hjd). now symmetry. }
  destruct (nth_error (n :: names) i) as [name|] eqn:En.
  2:{ exfalso. apply nth_error_None in En. rewrite Hlen, <- Hdl in En. lia. }
  destruct (Py.ltb d (FaceDetector.tolerance self)) eqn:Et.
  - apply ltb_lt in Et.
    assert (Hex : existsb (fun m => m)
                    (map (fun d => Py.leb d (FaceDetector.tolerance self)) (d0 :: ds))
                  = true).
    { apply existsb_exists. exists true. split; [|reflexivity].
      apply in_map_iff. exists d. split.
      - apply leb_le. now apply Qlt_le_weak.
      - eapply nth_error_In. exact Hnd. }
    rewrite Hex. split.
    + split; [intros _; now exists name|].
      intros _. exists d. split; [eapply nth_error_In; exact Hnd|exact Et].
    + intros name' H. injection H as <-. exists i, d. now repeat split.
  - apply ltb_ge in Et.
    assert (Hnone : (if existsb (fun m => m)
                          (map (fun d => Py.leb d (FaceDetector.tolerance self))
                               (d0 :: ds))
                     then @None string else None) = None)
      by (destruct (existsb _ _); reflexivity).
    rewrite Hnone. split.
    + split.
      * intros [d' [Hd' Hlt']]. exfalso.
        apply (Qlt_not_le _ _ Hlt'). eapply Qle_trans; [exact Et|now apply Hmin].
      * intros [name' H]. discriminate.
    + intros name' H. discriminate.
Qed.

End DetectorMatch.

Lemma recognize_face_first_minimum_witness :
  ((exists d, In d [0; 0]%Q /\ (d < FaceDetector.tolerance FaceDetector.init)%Q)
   <-> exists name,
         FaceDetectorMatch.recognize_face Numeric.norm FaceDetector.init [0; 0]%Q
           [[0; 0]; [0; 0]]%Q ["Ann"; "Bob"]%string = Some name)
  /\ (forall name,
        FaceDetectorMatch.recognize_face Numeric.norm FaceDetector.init [0; 0]%Q
          [[0; 0]; [0; 0]]%Q ["Ann"; "Bob"]%string = Some name ->
        exists i d,
          nth_error ["Ann"; "Bob"]%string i = Some name
          /\ nth_error [0; 0]%Q i = Some d
          /\ (d < FaceDetector.tolerance FaceDetector.init)%Q
          /\ (forall d', In d' [0; 0]%Q -> (d <= d')%Q)
          /\ (forall j d', (j < i)%nat -> nth_error [0; 0]%Q j = Some d' -> (d < d')%Q)).
Proof.
  apply (recognize_face_first_minimum Numeric.norm FaceDetector.init [0; 0]%Q
           [[0; 0]; [0; 0]]%Q ["Ann"; "Bob"]%string [0; 0]%Q).
  - discriminate.
  - reflexivity.
  - vm_compute. reflexivity.
Defined.

(** ** The store: when a call succeeds and what it changes *)










(** X8.  After a successful enrollment that asks to be primary, the new
    row is the last of the table and is primary, and no other row of
    that identity, active or not, is primary. *)
Theorem primary_enrollment_is_sole_primary (code : string) (emb : list Q)
    (variant ty : string) (descr photo : option string) (quality : option Q)
    (now : Z) (s s' : Db.session) (res : Result.t) :
  FaceService.add_face_embedding code emb variant ty descr photo quality true now s
  = (Db.Return res, s') ->
  Result.success res = true ->
  exists old r,
    Db.face_embeddings (Db.committed s') = old ++ [r]
    /\ List.length old = List.length (Db.face_embeddings (Db.pending s))
    /\ FaceEmbedding.employee_code r = code
    /\ FaceEmbedding.embedding_data r = Some emb
    /\ FaceEmbedding.is_primary r = true
    /\ FaceEmbedding.is_active r = true
    /\ (forall r', In r' old -> FaceEmbedding.employee_code r' = code ->
                   FaceEmbedding.is_primary r' = false).
Proof.
  intros Hrun Hs. rewrite add_face_embedding_cases in Hrun.
  destruct (Db.raises s Db.SelectEmployee).
  { injection Hrun as <- <-. discriminate. }
  destruct (find _ (Db.employees (Db.pending s))) as [e|].
  2:{ injection Hrun as <- <-. discriminate. }
  destruct (true && Db.raises s Db.UpdatePrimary).
  { injection Hrun as <- <-. discriminate. }
  cbv zeta in Hrun. destruct (Db.raises s Db.Commit).
  { injection Hrun as <- <-. discriminate. }
  injection Hrun as <- <-. simpl.
  eexists. eexists. split; [reflexivity|]. simpl.
  split; [unfold Store.cleared; apply length_map|].
  repeat split.
  intros r' Hin Hc. now apply (cleared_not_primary code _ r' Hin).
Qed.

(** ** The store: how calls compose with the reads *)

(** X9.  After a successful set_primary on an active row,
    get_primary_embedding for the identity of that row returns a row
    with the chosen id, active and primary. *)
Theorem set_primary_then_get_primary (i : Z) (s s' : Db.session) (res : Result.t)
    (r : FaceEmbedding.t) :
  find (fun r => FaceEmbedding.id r =? i) (Db.face_embeddings (Db.pending s)) = Some r ->
  FaceEmbedding.is_active r = true ->
  FaceService.set_primary_embedding i s = (Db.Return res, s') ->
  Result.success res = true ->
  exists r',
    FaceEmbeddingQuery.get_primary_embedding
      (Db.face_embeddings (Db.committed s')) (FaceEmbedding.employee_code r) = Some r'
    /\ FaceEmbedding.id r' = i
    /\ FaceEmbedding.is_active r' = true
    /\ FaceEmbedding.is_primary r' = true
    /\ FaceEmbedding.embedding_data r' = FaceEmbedding.embedding_data r.
Proof.
  intros Hf Hact Hrun Hs. rewrite set_primary_embedding_cases, Hf in Hrun.
  destruct (Db.raises s Db.SelectEmbedding).
  { injection Hrun as <- <-. discriminate. }
  destruct (Db.raises s Db.UpdatePrimary || Db.raises s Db.Commit).
  { injection Hrun as <- <-. discriminate. }
  injection Hrun as <- <-. simpl.
  set (c := FaceEmbedding.employee_code r).
  set (l := Db.face_embeddings (Db.pending s)) in *.
  unfold FaceEmbeddingQuery.get_primary_embedding.
  clearbody l. clear s.
  induction l as [|a l IH]; [discriminate|].
  simpl in Hf. simpl.
  set (fa := if FaceService.code_is c a && FaceEmbedding.is_primary a
             then FaceEmbedding.with_is_primary false a else a).
  assert (Hida : FaceEmbedding.id fa = FaceEmbedding.id a)
    by (unfold fa; destruct (_ && _); reflexivity).
  assert (Hca : FaceEmbedding.employee_code fa = FaceEmbedding.employee_code a)
    by (unfold fa; destruct (_ && _); reflexivity).
  assert (Haa : FaceEmbedding.is_active fa = FaceEmbedding.is_active a)
    by (unfold fa; destruct (_ && _); reflexivity).
  assert (Hda : FaceEmbedding.embedding_data fa = FaceEmbedding.embedding_data a)
    by (unfold fa; destruct (_ && _); reflexivity).
  assert (Hpa : String.eqb (FaceEmbedding.employee_code a) c = true ->
                FaceEmbedding.is_primary fa = false).
  { intro H. unfold fa, FaceService.code_is. rewrite H. simpl.
    destruct (FaceEmbedding.is_primary a) eqn:Ep; [reflexivity|exact Ep]. }
  rewrite Hida.
  destruct (FaceEmbedding.id a =? i) eqn:Ei.
  - injection Hf as ->. simpl. rewrite Hca, Haa, Hact.
    unfold c. rewrite String.eqb_refl. simpl.
    eexists. split; [reflexivity|]. simpl.
    split; [rewrite Hida; now apply Z.eqb_eq in Ei|].
    split; [now rewrite Haa|]. split; [reflexivity|exact Hda].
  - simpl. rewrite Hca.
    destruct (String.eqb (FaceEmbedding.employee_code a) c) eqn:Eca; simpl.
    + rewrite (Hpa eq_refl). simpl. now apply IH.
    + now apply IH.
Qed.

Lemma gallery_rows_app (ty : option string) (dim : option Z)
    (l1 l2 : list FaceEmbedding.t) :
  Gallery.entries dim (filter (Gallery.of_type ty) (filter FaceEmbedding.is_active (l1 ++ l2)))
  = Gallery.entries dim (filter (Gallery.of_type ty) (filter FaceEmbedding.is_active l1))
    ++ Gallery.entries dim (filter (Gallery.of_type ty) (filter FaceEmbedding.is_active l2)).
Proof.
  unfold Gallery.entries. now rewrite !filter_app, flat_map_app.
Qed.

Lemma gallery_rows_cleared (ty : option string) (dim : option Z) (c : string)
    (l : list FaceEmbedding.t) :
  Gallery.entries dim
    (filter (Gallery.of_type ty) (filter FaceEmbedding.is_active (Store.cleared c l)))
  = Gallery.entries dim (filter (Gallery.of_type ty) (filter FaceEmbedding.is_active l)).
Proof.
  induction l as [|r l IH]; [reflexivity|].
  change (Store.cleared c (r :: l))
    with ((if FaceService.code_is c r && FaceEmbedding.is_primary r
           then FaceEmbedding.with_is_primary false r else r) :: Store.cleared c l).
  change (r :: l) with ([r] ++ l).
  change (?x :: Store.cleared c l) with ([x] ++ Store.cleared c l).
  rewrite !gallery_rows_app, IH. f_equal.
  destruct (FaceService.code_is c r && FaceEmbedding.is_primary r); [|reflexivity].
  simpl. destruct (FaceEmbedding.is_active r); [|reflexivity].
  simpl. unfold Gallery.of_type, FaceService.type_is. simpl.
  destruct ty as [t|]; [destruct (String.eqb t EmptyString)|]; try reflexivity.
  destruct (FaceEmbedding.embedding_type r) as [t'|]; [|reflexivity].
  destruct (String.eqb t' t); reflexivity.
Qed.

Lemma gallery_after_enrollment (code : string) (emb : list Q)
    (variant ty : string) (descr photo : option string) (quality : option Q)
    (prim : bool) (now : Z) (s s' : Db.session) (res : Result.t) :
  FaceService.add_face_embedding code emb variant ty descr photo quality prim now s
  = (Db.Return res, s') ->
  Result.success res = true ->
  Db.raises s Db.SelectEmbeddings = false ->
  exists encs codes,
    FaceService.get_all_face_embeddings_multi None None s = (Db.Return (encs, codes), s)
    /\ FaceService.get_all_face_embeddings_multi None None s'
       = (Db.Return (encs ++ [emb], codes ++ [code]), s').
Proof.
  intros Hrun Hs Hsel. rewrite add_face_embedding_cases in Hrun.
  destruct (Db.raises s Db.SelectEmployee).
  { injection Hrun as <- <-. discriminate. }
  destruct (find _ (Db.employees (Db.pending s))) as [e|].
  2:{ injection Hrun as <- <-. discriminate. }
  destruct (prim && Db.raises s Db.UpdatePrimary).
  { injection Hrun as <- <-. discriminate. }
  cbv zeta in Hrun. destruct (Db.raises s Db.Commit).
  { injection Hrun as <- <-. discriminate. }
  injection Hrun as <- <-.
  rewrite !multi_gallery. cbn [Db.raises Store.persisted Db.pending Db.face_embeddings].
  rewrite Hsel. do 2 eexists. split; [reflexivity|].
  cbv zeta. rewrite gallery_rows_app.
  destruct prim; rewrite ?gallery_rows_cleared, !map_app; reflexivity.
Qed.

(** X10.  The gallery read right after a successful enrollment holds
    the entries (vector with its owner) of the gallery read before it,
    each as often as before, and one entry more, the enrolled vector
    with its owner: nothing else is added and nothing is dropped,
    whether or not the enrollment cleared primary flags.  The order of
    the entries, which the query leaves to the database, is not part of
    the statement. *)
Theorem enrollment_shows_in_next_gallery (code : string) (emb : list Q)
    (variant ty : string) (descr photo : option string) (quality : option Q)
    (prim : bool) (now : Z) (s s' : Db.session) (res : Result.t) :
  FaceService.add_face_embedding code emb variant ty descr photo quality prim now s
  = (Db.Return res, s') ->
  Result.success res = true ->
  Db.raises s Db.SelectEmbeddings = false ->
  exists es es' : list (list Q * string),
    FaceService.get_all_face_embeddings_multi None None s
    = (Db.Return (map fst es, map snd es), s)
    /\ FaceService.get_all_face_embeddings_multi None None s'
       = (Db.Return (map fst es', map snd es'), s')
    /\ Permutation es' ((emb, code) :: es).
Proof.
  intros Hrun Hs Hsel.
  destruct (gallery_after_enrollment _ _ _ _ _ _ _ _ _ _ _ _ Hrun Hs Hsel)
    as [encs [codes [Hbefore Hafter]]].
  destruct (gallery_shape true s) as [es Hes]. cbv iota in Hes.
  rewrite Hes in Hbefore. injection Hbefore as <- <-.
  exists es, (es ++ [(emb, code)]).
  split; [exact Hes|]. split.
  - rewrite Hafter, !map_app. reflexivity.
  - apply Permutation_sym, Permutation_cons_append.
Qed.

Section EnrollThenRecognize.

Variable norm : list Q -> Q.
Variable format_percent : Q -> string.

(** X11.  Enrollment followed by recognition: when the vectors already
    in the gallery have the length of the new one, the norm is never
    negative and is zero on a zero vector, and the tolerance is positive,
    the vector just enrolled is recognized by the very next query, at
    distance 0 and confidence 1, as the owner of the first gallery entry
    at that distance. *)
Theorem enroll_then_recognize (self : FaceService.t) (code : string) (emb : list Q)
    (variant ty : string) (descr photo : option string) (quality : option Q)
    (prim : bool) (now : Z) (s s' : Db.session) (res : Result.t)
    (encs : list (list Q)) (codes : list string) :
  (forall v, (0 <= norm v)%Q) ->
  (forall v, Forall (fun x => (x == 0)%Q) v -> (norm v == 0)%Q) ->
  (0 < FaceDetector.tolerance (FaceService.face_detector self))%Q ->
  Db.raises s Db.SelectEmbeddings = false ->
  fst (FaceService.get_all_face_embeddings_multi None None s) = Db.Return (encs, codes) ->
  (forall v, In v encs -> List.length v = List.length emb) ->
  FaceService.add_face_embedding code emb variant ty descr photo quality prim now s
  = (Db.Return res, s') ->
  Result.success res = true ->
  exists R who m,
    FaceService.recognize_employee_multi norm format_percent self emb true s'
    = (Db.Return R, s')
    /\ Recognition.success R = true
    /\ Recognition.employee_code R = Some who /\ In who (codes ++ [code])
    /\ Recognition.distance R = Some m /\ (m == 0)%Q
    /\ (Recognition.confidence R == 1)%Q.
Proof.
  intros Hnonneg Hzero Htol Hsel Hg Hlen Hrun Hs.
  destruct (gallery_after_enrollment code emb variant ty descr photo quality prim now
              s s' res Hrun Hs Hsel) as [encs' [codes' [Hbefore Hafter]]].
  rewrite Hbefore in Hg. simpl in Hg. injection Hg as -> ->.
  apply (identical_vector_recognized norm format_percent self emb true s'
           (encs ++ [emb]) (codes ++ [code]) Hnonneg Hzero).
  - now rewrite Hafter.
  - apply in_or_app. right. now left.
  - intros v Hv. apply in_app_or in Hv. destruct Hv as [Hv|[<-|[]]];
      [now apply Hlen|reflexivity].
  - exact Htol.
Qed.

End EnrollThenRecognize.


Lemma primary_enrollment_is_sole_primary_witness :
  exists old r,
    Db.face_embeddings
      (Db.committed (snd (FaceService.run_call Sample.enroll_E1_primary
                            Example.one_face))) = old ++ [r]
    /\ List.length old = List.length (Db.face_embeddings (Db.pending Example.one_face))
    /\ FaceEmbedding.employee_code r = "E1"%string
    /\ FaceEmbedding.embedding_data r = Some [1; 1]%Q
    /\ FaceEmbedding.is_primary r = true
    /\ FaceEmbedding.is_active r = true
    /\ (forall r', In r' old -> FaceEmbedding.employee_code r' = "E1"%string ->
                   FaceEmbedding.is_primary r' = false).
Proof.
  refine (primary_enrollment_is_sole_primary "E1" [1; 1]%Q "with_glasses" "standard"
            None None None 30 Example.one_face
            (snd (FaceService.run_call Sample.enroll_E1_primary Example.one_face))
            (Result.mk true "Face embedding added successfully" (Some "E1"%string)
               (Some 2) (Some "with_glasses"%string) (Some true)) _ _).
  - vm_compute. reflexivity.
  - reflexivity.
Defined.

Lemma set_primary_then_get_primary_witness :
  exists r',
    FaceEmbeddingQuery.get_primary_embedding
      (Db.face_embeddings
         (Db.committed (snd (FaceService.set_primary_embedding 1 Sample.two_rows))))
      "E1" = Some r'
    /\ FaceEmbedding.id r' = 1
    /\ FaceEmbedding.is_active r' = true
    /\ FaceEmbedding.is_primary r' = true
    /\ FaceEmbedding.embedding_data r' = Some [0; 0]%Q.
Proof.
  refine (set_primary_then_get_primary 1 Sample.two_rows
            (snd (FaceService.set_primary_embedding 1 Sample.two_rows))
            (Result.mk true "Primary embedding set successfully" (Some "E1"%string)
               (Some 1) None None)
            (Example.row 1 "E1" [0; 0]%Q "standard" false true 10) _ _ _ _).
  - reflexivity.
  - reflexivity.
  - vm_compute. reflexivity.
  - reflexivity.
Defined.

Lemma enrollment_shows_in_next_gallery_witness :
  exists es es' : list (list Q * string),
    FaceService.get_all_face_embeddings_multi None None Example.one_face
    = (Db.Return (map fst es, map snd es), Example.one_face)
    /\ FaceService.get_all_face_embeddings_multi None None
         (snd (FaceService.run_call Sample.enroll_E2 Example.one_face))
       = (Db.Return (map fst es', map snd es'),
          snd (FaceService.run_call Sample.enroll_E2 Example.one_face))
    /\ Permutation es' (([1; 1]%Q, "E2"%string) :: es).
Proof.
  refine (enrollment_shows_in_next_gallery "E2" [1; 1]%Q "default" "standard"
            None None None false 30 Example.one_face
            (snd (FaceService.run_call Sample.enroll_E2 Example.one_face))
            (Result.mk true "Face embedding added successfully" (Some "E2"%string)
               (Some 2) (Some "default"%string) (Some true)) _ _ _).
  - vm_compute. reflexivity.
  - reflexivity.
  - reflexivity.
Defined.

Lemma enroll_then_recognize_witness :
  exists R who m,
    FaceService.recognize_employee_multi Numeric.norm Numeric.format_percent
      FaceService.init [1; 1]%Q true
      (snd (FaceService.run_call Sample.enroll_E2 Example.one_face))
    = (Db.Return R, snd (FaceService.run_call Sample.enroll_E2 Example.one_face))
    /\ Recognition.success R = true
    /\ Recognition.employee_code R = Some who
    /\ In who (["E1"%string] ++ ["E2"%string])
    /\ Recognition.distance R = Some m /\ (m == 0)%Q
    /\ (Recognition.confidence R == 1)%Q.
Proof.
  refine (enroll_then_recognize Numeric.norm Numeric.format_percent FaceService.init
            "E2" [1; 1]%Q "default" "standard" None None None false 30
            Example.one_face
            (snd (FaceService.run_call Sample.enroll_E2 Example.one_face))
            (Result.mk true "Face embedding added successfully" (Some "E2"%string)
               (Some 2) (Some "default"%string) (Some true))
            [[0; 0]%Q] ["E1"%string] _ _ _ _ _ _ _ _).
  - exact numeric_norm_nonnegative.
  - exact numeric_norm_zero.
  - vm_compute. reflexivity.
  - reflexivity.
  - vm_compute. reflexivity.
  - intros v [<-|[]]. reflexivity.
  - vm_compute. reflexivity.
  - reflexivity.
Defined.

(** ** Deleting *)

Lemma delete_row_members (i : Z) (l : list FaceEmbedding.t) :
  NoDup (map FaceEmbedding.id l) ->
  (exists r, In r l /\ FaceEmbedding.id r = i) ->
  forall r, In r (FaceService.delete_row i l) <-> In r l /\ FaceEmbedding.id r <> i.
Proof.
  induction l as [|a l IH]; intros Hnd [r0 [Hin0 Hid0]] r; [destruct Hin0|].
  simpl in Hnd. apply NoDup_cons_iff in Hnd. destruct Hnd as [Hnotin Hnd'].
  simpl. destruct (Z.eqb_spec (FaceEmbedding.id a) i) as [Ea|Ea].
  - split.
    + intro Hr. split; [now right|]. intro Hri. apply Hnotin.
      rewrite Ea, <- Hri. now apply in_map.
    + intros [[<-|Hr] Hne]; [contradiction|exact Hr].
  - destruct Hin0 as [<-|Hin0]; [contradiction|].
    split.
    + intros [<-|Hr]; [split; [now left|exact Ea]|].
      apply IH in Hr; [|exact Hnd'|now exists r0].
      destruct Hr as [Hr Hne]. split; [now right|exact Hne].
    + intros [[<-|Hr] Hne]; [now left|].
      right. apply IH; [exact Hnd'|now exists r0|now split].
Qed.

Lemma delete_row_length (i : Z) (l : list FaceEmbedding.t) :
  (exists r, In r l /\ FaceEmbedding.id r = i) ->
  S (List.length (FaceService.delete_row i l)) = List.length l.
Proof.
  induction l as [|a l IH]; intros [r0 [Hin0 Hid0]]; [destruct Hin0|].
  simpl. destruct (Z.eqb_spec (FaceEmbedding.id a) i) as [Ea|Ea]; [reflexivity|].
  destruct Hin0 as [<-|Hin0]; [contradiction|].
  simpl. f_equal. apply IH. now exists r0.
Qed.

(** X12.  In a table with distinct ids, a successful delete_face_embedding
    removes the row with that id and no other: the rows left are exactly
    the rows that had another id, one fewer in number, and deleting the
    same id again reports that the embedding is not found and changes
    nothing. *)
Theorem delete_removes_exactly_the_row (i : Z) (s s' : Db.session) (res : Result.t) :
  NoDup (map FaceEmbedding.id (Db.face_embeddings (Db.pending s))) ->
  FaceService.delete_face_embedding i s = (Db.Return res, s') ->
  Result.success res = true ->
  (forall r, In r (Db.face_embeddings (Db.committed s'))
             <-> In r (Db.face_embeddings (Db.pending s)) /\ FaceEmbedding.id r <> i)
  /\ S (List.length (Db.face_embeddings (Db.committed s')))
     = List.length (Db.face_embeddings (Db.pending s))
  /\ FaceService.delete_face_embedding i s'
     = (Db.Return (Result.mk false ("Embedding " ++ Py.str_int i ++ " not found")
                             None (Some i) None None), s').
Proof.
  intros Hnd Hrun Hs. rewrite delete_face_embedding_cases in Hrun.
  destruct (Db.raises s Db.SelectEmbedding) eqn:E1.
  { injection Hrun as <- <-. discriminate. }
  destruct (find _ (Db.face_embeddings (Db.pending s))) as [r0|] eqn:Ef.
  2:{ injection Hrun as <- <-. discriminate. }
  destruct (Db.raises s Db.Commit) eqn:E3.
  { injection Hrun as <- <-. discriminate. }
  injection Hrun as <- <-.
  assert (Hex : exists r, In r (Db.face_embeddings (Db.pending s)) /\ FaceEmbedding.id r = i).
  { apply find_some in Ef. destruct Ef as [Hin Hid].
    exists r0. split; [exact Hin|now apply Z.eqb_eq]. }
  pose proof (delete_row_members i _ Hnd Hex) as Hmem.
  cbn [Store.persisted Db.committed Db.face_embeddings].
  split; [exact Hmem|]. split; [now apply delete_row_length|].
  rewrite delete_face_embedding_cases.
  cbn [Store.persisted Db.raises Db.pending Db.face_embeddings]. rewrite E1.
  destruct (find (fun r => FaceEmbedding.id r =? i)
                 (FaceService.delete_row i (Db.face_embeddings (Db.pending s))))
    as [r1|] eqn:Ef1; [|reflexivity].
  exfalso. apply find_some in Ef1. destruct Ef1 as [Hin1 Hid1].
  apply Hmem in Hin1. destruct Hin1 as [_ Hne]. now apply Z.eqb_eq in Hid1.
Qed.

(** ** Reading the rows of an identity *)

Lemma order_by_nil (l : list FaceEmbedding.t) :
  FaceEmbedding.order_by l = [] <-> l = [].
Proof.
  split; [|now intros ->].
  intro H. pose proof (order_by_perm l) as Hp. rewrite H in Hp.
  now apply Permutation_nil in Hp.
Qed.

(** X13.  When both queries are answered, has_any_embeddings is True
    exactly when the listing of the active embeddings of that identity
    is not empty. *)
Theorem has_any_iff_listing_nonempty (code : string) (s : Db.session) :
  Db.raises s Db.CountEmbeddings = false ->
  Db.raises s Db.SelectEmbeddings = false ->
  exists b l,
    FaceService.has_any_embeddings code s = (Db.Return b, s)
    /\ FaceService.get_employee_embeddings code true s = (Db.Return l, s)
    /\ (b = true <-> l <> []).
Proof.
  intros Hc Hsel. rewrite has_any_embeddings_cases, Hc.
  unfold FaceService.get_employee_embeddings, Db.try_except, Db.bind, Db.execute,
    Db.get_pending, Db.ret. rewrite Hsel.
  do 2 eexists. split; [reflexivity|]. split; [reflexivity|].
  unfold FaceEmbedding.get_all_embeddings, Store.has_active.
  set (tbl := Db.face_embeddings (Db.pending s)).
  rewrite order_by_nil. clearbody tbl.
  induction tbl as [|r tbl IH]; simpl.
  - split; [discriminate|intro H; now elim H].
  - unfold FaceService.code_is at 1.
    destruct (String.eqb (FaceEmbedding.employee_code r) code); simpl; [|exact IH].
    destruct (FaceEmbedding.is_active r); simpl; [|exact IH].
    split; [discriminate|reflexivity].
Qed.

(** ** Dictionaries *)

Lemma dict_get_set_same {V} (d : PyDict.t V) (k : string) (v : V) :
  PyDict.get (PyDict.set d k v) k = Some v.
Proof.
  induction d as [|[k' v'] d IH]; simpl.
  - now rewrite String.eqb_refl.
  - destruct (String.eqb k' k) eqn:E; simpl; rewrite E; [reflexivity|exact IH].
Qed.

Lemma dict_get_set_other {V} (d : PyDict.t V) (k k' : string) (v : V) :
  String.eqb k k' = false ->
  PyDict.get (PyDict.set d k v) k' = PyDict.get d k'.
Proof.
  intro Hk. induction d as [|[k0 v0] d IH]; simpl.
  - now rewrite Hk.
  - destruct (String.eqb k0 k) eqn:E; simpl.
    + apply String.eqb_eq in E. subst k0. now rewrite Hk.
    + destruct (String.eqb k0 k'); [reflexivity|exact IH].
Qed.

Lemma find_app_last {A} (f : A -> bool) (l : list A) (a : A) :
  find f (l ++ [a])
  = match find f l with
    | Some x => Some x
    | None => if f a then Some a else None
    end.
Proof.
  induction l as [|b l IH]; simpl; [reflexivity|].
  destruct (f b); [reflexivity|exact IH].
Qed.

Lemma fill_get (l : list FaceEmbedding.t) :
  forall (d : PyDict.t (list Q)) (k : string),
    PyDict.get (FaceServiceMore.fill l d) k
    = match find (fun r => match FaceEmbedding.get_embedding r with
                           | Some _ => String.eqb (FaceServiceMore.variant_or_default
                                                     (FaceEmbedding.variant_type r)) k
                           | None => false
                           end) (rev l) with
      | Some r => FaceEmbedding.get_embedding r
      | None => PyDict.get d k
      end.
Proof.
  induction l as [|a l IH]; intros d k; [reflexivity|].
  simpl. rewrite find_app_last.
  destruct (FaceEmbedding.get_embedding a) as [v|] eqn:Ea.
  - rewrite IH.
    destruct (find _ (rev l)) as [r|]; [reflexivity|].
    destruct (String.eqb (FaceServiceMore.variant_or_default
                            (FaceEmbedding.variant_type a)) k) eqn:Ek.
    + apply String.eqb_eq in Ek. subst k. rewrite dict_get_set_same. now rewrite Ea.
    + now apply dict_get_set_other.
  - rewrite IH. destruct (find _ (rev l)); reflexivity.
Qed.

(** X14.  get_employee_embeddings_dict maps a variant to the vector of
    the last row of the listing that has this variant and a readable
    vector, and holds no other key: the listing being primary first and
    most recent first, among rows of one variant an older row overrides
    a newer one and a row that is not primary overrides the primary one.
    A missing or empty variant counts as "default". *)
Theorem embeddings_dict_last_listed_wins (code : string) (active_only : bool)
    (s : Db.session) (variant : string) :
  Db.raises s Db.SelectEmbeddings = false ->
  exists d,
    FaceServiceMore.get_employee_embeddings_dict code active_only s = (Db.Return d, s)
    /\ PyDict.get d variant
       = match find (fun r =>
                       match FaceEmbedding.get_embedding r with
                       | Some _ => String.eqb (FaceServiceMore.variant_or_default
                                                 (FaceEmbedding.variant_type r)) variant
                       | None => false
                       end)
                    (rev (FaceEmbedding.get_all_embeddings
                            (Db.face_embeddings (Db.pending s)) code active_only)) with
         | Some r => FaceEmbedding.get_embedding r
         | None => None
         end.
Proof.
  intro Hsel.
  unfold FaceServiceMore.get_employee_embeddings_dict, FaceService.get_employee_embeddings,
    Db.try_except, Db.bind, Db.execute, Db.get_pending, Db.ret.
  rewrite Hsel. eexists. split; [reflexivity|].
  now rewrite fill_get.
Qed.

(** ** Deleting every embedding of an identity *)

Lemma filter_length_split {A} (f : A -> bool) (l : list A) :
  (List.length (filter f l) + List.length (filter (fun x => negb (f x)) l)
   = List.length l)%nat.
Proof.
  induction l as [|a l IH]; [reflexivity|]. simpl.
  destruct (f a); simpl; lia.
Qed.

(** X15.  delete_all_employee_embeddings succeeds exactly when neither
    the delete nor the commit fails, also for an identity without rows or
    unknown to the employees table.  On success no row of that identity
    is left, the rows of the others are kept in their order, and
    deleted_count is the number of rows removed; on failure the committed
    table is the one from before. *)
Theorem delete_all_clears_the_identity (delete_raises : bool) (code : string)
    (s : Db.session) :
  exists res s',
    FaceServiceMore.delete_all_employee_embeddings delete_raises code s
    = (Db.Return res, s')
    /\ (Deletion.success res = true
        <-> delete_raises = false /\ Db.raises s Db.Commit = false)
    /\ (Deletion.success res = true ->
        Db.face_embeddings (Db.committed s')
        = filter (fun r => negb (FaceService.code_is code r))
                 (Db.face_embeddings (Db.pending s))
        /\ (forall r, In r (Db.face_embeddings (Db.committed s')) ->
                      FaceEmbedding.employee_code r <> code)
        /\ Store.has_active code (Db.face_embeddings (Db.committed s')) = false
        /\ exists n,
             Deletion.deleted_count res = Some n
             /\ n + Z.of_nat (List.length (Db.face_embeddings (Db.committed s')))
                = Z.of_nat (List.length (Db.face_embeddings (Db.pending s))))
    /\ (Deletion.success res = false -> Db.committed s' = Db.committed s).
Proof.
  unfold FaceServiceMore.delete_all_employee_embeddings, FaceServiceMore.execute_other.
  db_unfold.
  destruct delete_raises.
  { do 2 eexists. split; [reflexivity|]. simpl.
    split; [split; [discriminate|intros [H _]; discriminate]|].
    split; [discriminate|reflexivity]. }
  simpl. destruct (Db.raises s Db.Commit).
  { do 2 eexists. split; [reflexivity|]. simpl.
    split; [split; [discriminate|intros [_ H]; discriminate]|].
    split; [discriminate|reflexivity]. }
  do 2 eexists. split; [reflexivity|]. simpl.
  split; [now split|]. split; [|discriminate].
  intros _. split; [reflexivity|].
  set (tbl := Db.face_embeddings (Db.pending s)).
  assert (Hgone : forall r, In r (filter (fun r => negb (FaceService.code_is code r)) tbl) ->
                            FaceEmbedding.employee_code r <> code).
  { intros r Hr Hc. apply filter_In in Hr. destruct Hr as [_ Hr].
    apply code_is_eq in Hc. rewrite Hc in Hr. discriminate. }
  split; [exact Hgone|]. split.
  - unfold Store.has_active.
    destruct (existsb _ _) eqn:E; [|reflexivity].
    apply existsb_exists in E. destruct E as [r [Hr Hb]].
    apply andb_true_iff in Hb. destruct Hb as [Hc _].
    apply code_is_eq in Hc. now elim (Hgone r Hr).
  - eexists. split; [reflexivity|].
    pose proof (filter_length_split (FaceService.code_is code) tbl). lia.
Qed.

(** ** Statistics *)

Lemma total_count_bump (d : PyDict.t Z) (k : string) :
  StoreMore.total_count
    (PyDict.set d k (match PyDict.get d k with Some n => n | None => 0 end + 1))
  = StoreMore.total_count d + 1.
Proof.
  induction d as [|[k' v'] d IH]; simpl; [lia|].
  destruct (String.eqb k' k); simpl; [lia|]. rewrite IH. lia.
Qed.

Lemma count_variants_total (variants : list (option string)) :
  forall d,
    StoreMore.total_count (FaceServiceMore.count_variants variants d)
    = StoreMore.total_count d + Z.of_nat (List.length variants).
Proof.
  induction variants as [|v variants IH]; intro d; simpl; [lia|].
  rewrite IH, total_count_bump. lia.
Qed.

Lemma nodup_shorter (l : list string) :
  (List.length (nodup String.string_dec l) <= List.length l)%nat.
Proof.
  induction l as [|a l IH]; simpl; [lia|].
  destruct (in_dec String.string_dec a l); simpl; lia.
Qed.

Lemma nodup_nonempty (l : list string) :
  l <> [] -> nodup String.string_dec l <> [].
Proof.
  intros Hne Hnil. destruct l as [|a l]; [now elim Hne|].
  assert (Hin : In a (nodup String.string_dec (a :: l)))
    by (apply nodup_In; now left).
  rewrite Hnil in Hin. destruct Hin.
Qed.

(** X16.  get_embedding_statistics always returns a dictionary and
    leaves the session as it was.  Whatever the database does, the
    variant counts add up to total_embeddings, there are no more
    employees with embeddings than embeddings and none exactly when
    there is no embedding; the average is the quotient of the two
    counts, taken only when there is an employee, and is 0 otherwise,
    so no division by zero arises.  When the queries are answered
    total_embeddings is the number of active rows; when one of them
    fails every figure is 0 and variant_counts is empty. *)
Theorem statistics_are_consistent (true_div : Z -> Z -> Q) (s : Db.session) :
  exists st,
    FaceServiceMore.get_embedding_statistics true_div s = (Db.Return st, s)
    /\ StoreMore.total_count (Statistics.variant_counts st)
       = Statistics.total_embeddings st
    /\ 0 <= Statistics.total_employees_with_embeddings st
         <= Statistics.total_embeddings st
    /\ (Statistics.total_employees_with_embeddings st = 0
        <-> Statistics.total_embeddings st = 0)
    /\ (0 < Statistics.total_employees_with_embeddings st ->
        Statistics.average_embeddings_per_employee st
        = true_div (Statistics.total_embeddings st)
                   (Statistics.total_employees_with_embeddings st))
    /\ (Statistics.total_employees_with_embeddings st = 0 ->
        Statistics.average_embeddings_per_employee st = 0%Q)
    /\ (Db.raises s Db.CountEmbeddings = false ->
        Db.raises s Db.SelectEmbeddings = false ->
        Statistics.total_embeddings st
        = Z.of_nat (List.length (filter FaceEmbedding.is_active
                                        (Db.face_embeddings (Db.pending s))))
        /\ Statistics.total_employees_with_embeddings st
           = Z.of_nat (List.length
                         (nodup String.string_dec
                            (map FaceEmbedding.employee_code
                               (filter FaceEmbedding.is_active
                                  (Db.face_embeddings (Db.pending s)))))))
    /\ (Db.raises s Db.CountEmbeddings = true \/ Db.raises s Db.SelectEmbeddings = true ->
        st = Statistics.mk 0 0 [] 0%Q).
Proof.
  unfold FaceServiceMore.get_embedding_statistics. db_unfold.
  destruct (Db.raises s Db.CountEmbeddings) eqn:Ec.
  { eexists. split; [reflexivity|]. simpl.
    repeat split; try lia; try reflexivity; try discriminate. }
  cbv beta iota zeta. rewrite Ec. cbv beta iota zeta.
  set (active := filter FaceEmbedding.is_active (Db.face_embeddings (Db.pending s))).
  set (codes := map FaceEmbedding.employee_code active).
  assert (Hle := nodup_shorter codes).
  assert (Hlen : List.length codes = List.length active) by apply length_map.
  assert (Hz : List.length (nodup String.string_dec codes) = O <-> List.length active = O).
  { split; intro H.
    - destruct active as [|a active']; [reflexivity|]. exfalso.
      apply (nodup_nonempty codes); [discriminate|].
      now destruct (nodup String.string_dec codes).
    - rewrite <- Hlen in H. lia. }
  destruct (Db.raises s Db.SelectEmbeddings).
  { eexists. split; [reflexivity|]. simpl.
    repeat split; try lia; try reflexivity; try discriminate. }
  eexists. split; [reflexivity|].
  cbn [Statistics.variant_counts Statistics.total_embeddings
       Statistics.total_employees_with_embeddings
       Statistics.average_embeddings_per_employee].
  fold active. fold codes.
  set (n := Z.of_nat (List.length active)) in *.
  set (k := Z.of_nat (List.length (nodup String.string_dec codes))) in *.
  assert (Hk : 0 <= k <= n) by (unfold k, n; lia).
  assert (Hk0 : k = 0 <-> n = 0) by (unfold k, n; lia).
  split.
  { rewrite count_variants_total, length_map. simpl. reflexivity. }
  split; [exact Hk|]. split; [exact Hk0|].
  split.
  { intro Hpos. apply Z.ltb_lt in Hpos. now rewrite Hpos. }
  split.
  { intro H0. rewrite H0. reflexivity. }
  split; [intros _ _; split; reflexivity|].
  intros [H|H]; discriminate.
Qed.

Lemma delete_removes_exactly_the_row_witness :
  (forall r, In r (Db.face_embeddings
                     (Db.committed (snd (FaceService.delete_face_embedding 1
                                           Example.two_types))))
             <-> In r (Db.face_embeddings (Db.pending Example.two_types))
                 /\ FaceEmbedding.id r <> 1)
  /\ S (List.length (Db.face_embeddings
                       (Db.committed (snd (FaceService.delete_face_embedding 1
                                             Example.two_types)))))
     = List.length (Db.face_embeddings (Db.pending Example.two_types))
  /\ FaceService.delete_face_embedding 1
       (snd (FaceService.delete_face_embedding 1 Example.two_types))
     = (Db.Return (Result.mk false ("Embedding " ++ Py.str_int 1 ++ " not found")
                             None (Some 1) None None),
        snd (FaceService.delete_face_embedding 1 Example.two_types)).
Proof.
  refine (delete_removes_exactly_the_row 1 Example.two_types
            (snd (FaceService.delete_face_embedding 1 Example.two_types))
            (Result.mk true "Face embedding deleted successfully" (Some "E1"%string)
               (Some 1) None None) _ _ _).
  - simpl. repeat constructor; simpl; intuition discriminate.
  - vm_compute. reflexivity.
  - reflexivity.
Defined.

Lemma has_any_iff_listing_nonempty_witness :
  exists b l,
    FaceService.has_any_embeddings "E1" Example.one_face = (Db.Return b, Example.one_face)
    /\ FaceService.get_employee_embeddings "E1" true Example.one_face
       = (Db.Return l, Example.one_face)
    /\ (b = true <-> l <> []).
Proof.
  apply (has_any_iff_listing_nonempty "E1" Example.one_face); reflexivity.
Defined.

Lemma embeddings_dict_last_listed_wins_witness :
  exists d,
    FaceServiceMore.get_employee_embeddings_dict "E1" true Sample.two_rows
    = (Db.Return d, Sample.two_rows)
    /\ PyDict.get d "default"
       = match find (fun r =>
                       match FaceEmbedding.get_embedding r with
                       | Some _ => String.eqb (FaceServiceMore.variant_or_default
                                                 (FaceEmbedding.variant_type r))
                                     "default"
                       | None => false
                       end)
                    (rev (FaceEmbedding.get_all_embeddings
                            (Db.face_embeddings (Db.pending Sample.two_rows))
                            "E1" true)) with
         | Some r => FaceEmbedding.get_embedding r
         | None => None
         end.
Proof.
  apply (embeddings_dict_last_listed_wins "E1" true Sample.two_rows "default").
  reflexivity.
Defined.

(** ** Cropping *)

Lemma slice_length {A} (l : list A) (lo hi : Z) :
  0 <= lo <= hi -> hi <= Z.of_nat (List.length l) ->
  Z.of_nat (List.length (Py.slice l lo hi)) = hi - lo.
Proof.
  intros Hlo Hhi. unfold Py.slice, Py.slice_bound.
  destruct (Z.ltb_spec lo 0) as [H|_]; [lia|].
  destruct (Z.ltb_spec hi 0) as [H|_]; [lia|].
  rewrite length_firstn, length_skipn. lia.
Qed.

Lemma slice_members {A} (l : list A) (lo hi : Z) (x : A) :
  In x (Py.slice l lo hi) -> In x l.
Proof.
  unfold Py.slice. cbv zeta.
  set (n := Z.to_nat _). set (m := Z.to_nat _). intro H.
  rewrite <- (firstn_skipn m l). apply in_or_app. right.
  rewrite <- (firstn_skipn n (skipn m l)). apply in_or_app. now left.
Qed.

(** X17.  On a rectangular image and a box inside it, crop_face with a
    padding that is not negative returns a region of
    min(h, bottom + padding) - max(0, top - padding) rows, each of
    min(w, right + padding) - max(0, left - padding) pixels: at least the
    box, at most the image, and with padding 0 the very region that
    detect_face_quality examines. *)
Theorem crop_face_dimensions {pixel : Type} (image : list (list pixel))
    (top right_ bottom left_ padding w : Z) :
  (forall row, In row image -> Z.of_nat (List.length row) = w) ->
  0 <= padding ->
  0 <= top <= bottom -> bottom <= ImageProcessor.shape0 image ->
  0 <= left_ <= right_ -> right_ <= w ->
  let h := ImageProcessor.shape0 image in
  let region := ImageCrop.crop_face image (top, right_, bottom, left_) padding in
  Z.of_nat (List.length region)
  = Z.min h (bottom + padding) - Z.max 0 (top - padding)
  /\ (forall row, In row region ->
        Z.of_nat (List.length row)
        = Z.min w (right_ + padding) - Z.max 0 (left_ - padding))
  /\ bottom - top <= Z.of_nat (List.length region) <= h
  /\ ImageCrop.crop_face image (top, right_, bottom, left_) 0
     = ImageProcessor.crop image top bottom left_ right_.
Proof.
  intros Hrows Hp Htb Hb Hlr Hr h region.
  unfold region, ImageCrop.crop_face. fold h.
  assert (Hw : image <> [] -> ImageProcessor.shape1 image = w).
  { destruct image as [|row image']; [intro H; now elim H|].
    intros _. simpl. apply Hrows. now left. }
  assert (Hlen : Z.of_nat (List.length
                   (ImageProcessor.crop image (Z.max 0 (top - padding))
                      (Z.min h (bottom + padding))
                      (Z.max 0 (left_ - padding))
                      (Z.min (ImageProcessor.shape1 image) (right_ + padding))))
                 = Z.min h (bottom + padding) - Z.max 0 (top - padding)).
  { unfold ImageProcessor.crop. rewrite length_map.
    apply slice_length; unfold h, ImageProcessor.shape0 in *; lia. }
  split; [exact Hlen|]. split; [|split].
  - intros row Hin. unfold ImageProcessor.crop in Hin.
    apply in_map_iff in Hin. destruct Hin as [row0 [<- Hin0]].
    assert (Hin1 : In row0 image) by (eapply slice_members; exact Hin0).
    rewrite Hw by (intro E; rewrite E in Hin1; destruct Hin1).
    apply slice_length; [lia|rewrite (Hrows row0 Hin1); lia].
  - rewrite Hlen. unfold h, ImageProcessor.shape0 in *. lia.
  - replace (top - 0) with top by lia. replace (bottom + 0) with bottom by lia.
    replace (left_ - 0) with left_ by lia. replace (right_ + 0) with right_ by lia.
    rewrite (Z.max_r 0 top) by lia. rewrite (Z.min_r h bottom) by (unfold h; lia).
    rewrite (Z.max_r 0 left_) by lia.
    destruct image as [|row image'].
    + unfold ImageProcessor.crop, Py.slice. cbv zeta.
      now rewrite skipn_nil, firstn_nil.
    + rewrite Hw by discriminate. now rewrite (Z.min_r w right_) by lia.
Qed.

(** ** Reading a quality score *)

Section QualityMore.

Variable pixel : Type.
Variable mean_gray std_gray laplacian_var : list (list pixel) -> Q.

Lemma quality_score_sum (image : list (list pixel)) (top right_ bottom left_ : Z) :
  let region := ImageProcessor.crop image top bottom left_ right_ in
  let q := ImageProcessor.detect_face_quality mean_gray std_gray laplacian_var
             image (top, right_, bottom, left_) in
  ImageProcessor.size region <> 0 ->
  ImageProcessor.quality_score q
  = Z.min ((if ImageProcessor.is_blurry q then 0 else 30)
           + (if ImageProcessor.is_dark q then 0 else 30)
           + (if ImageProcessor.is_small q then 0 else 20)
           + (if Py.leb 50 (mean_gray region) && Py.leb (mean_gray region) 200 then 10
              else if (Py.leb 30 (mean_gray region) && Py.ltb (mean_gray region) 50)
                      || (Py.ltb 200 (mean_gray region) && Py.leb (mean_gray region) 250)
                   then 5 else 0)
           + (if Py.ltb 30 (std_gray region) then 10
              else if Py.ltb 20 (std_gray region) then 5 else 0)) 100
  /\ ImageProcessor.is_blurry q = Py.ltb (laplacian_var region) 100
  /\ ImageProcessor.is_dark q = Py.ltb (mean_gray region) 50
  /\ ImageProcessor.is_small q
     = Py.ltb (inject_Z ((bottom - top) * (right_ - left_))
               / inject_Z (ImageProcessor.shape0 image * ImageProcessor.shape1 image))%Q
              0.01.
Proof.
  intros region q Hnz. subst q. unfold ImageProcessor.detect_face_quality.
  fold region. apply Z.eqb_neq in Hnz. rewrite Hnz. cbv zeta.
  cbn [ImageProcessor.quality_score ImageProcessor.is_blurry ImageProcessor.is_dark
       ImageProcessor.is_small].
  split; [|now repeat split].
  set (m := Py.leb 50 (mean_gray region) && Py.leb (mean_gray region) 200).
  set (g := (Py.leb 30 (mean_gray region) && Py.ltb (mean_gray region) 50)
            || (Py.ltb 200 (mean_gray region) && Py.leb (mean_gray region) 250)).
  set (f1 := Py.ltb (laplacian_var region) 100).
  set (f2 := Py.ltb (mean_gray region) 50).
  set (f3 := Py.ltb _ 0.01).
  set (c1 := Py.ltb 30 (std_gray region)).
  set (c2 := Py.ltb 20 (std_gray region)).
  clearbody m g f1 f2 f3 c1 c2.
  destruct m, g, f1, f2, f3, c1, c2; reflexivity.
Qed.

(** X18.  On a face region that is not empty: the score is 100 exactly
    when the face is not blurry and not small, the brightness lies in
    [50, 200] and the contrast exceeds 30; a score above 80 is reached
    only when none of the three flags is set, a blurry face scoring at
    most 70, a dark one at most 65 and a small one at most 80. *)
Theorem quality_score_thresholds (image : list (list pixel))
    (top right_ bottom left_ : Z) :
  let region := ImageProcessor.crop image top bottom left_ right_ in
  let q := ImageProcessor.detect_face_quality mean_gray std_gray laplacian_var
             image (top, right_, bottom, left_) in
  ImageProcessor.size region <> 0 ->
  (ImageProcessor.quality_score q = 100
   <-> ImageProcessor.is_blurry q = false /\ ImageProcessor.is_small q = false
       /\ (50 <= mean_gray region)%Q /\ (mean_gray region <= 200)%Q
       /\ (30 < std_gray region)%Q)
  /\ (ImageProcessor.is_blurry q = true -> ImageProcessor.quality_score q <= 70)
  /\ (ImageProcessor.is_dark q = true -> ImageProcessor.quality_score q <= 65)
  /\ (ImageProcessor.is_small q = true -> ImageProcessor.quality_score q <= 80)
  /\ (80 < ImageProcessor.quality_score q ->
      ImageProcessor.is_blurry q = false /\ ImageProcessor.is_dark q = false
      /\ ImageProcessor.is_small q = false).
Proof.
  intros region q Hnz.
  destruct (quality_score_sum image top right_ bottom left_ Hnz)
    as [Hsum [_ [Hdark _]]].
  fold region in Hsum, Hdark. fold q in Hsum, Hdark. rewrite Hsum.
  set (b := mean_gray region) in *. set (c := std_gray region) in *.
  destruct (Py.leb 50 b) eqn:E50; [apply leb_le in E50|apply leb_gt in E50];
  destruct (Py.leb b 200) eqn:E200; [apply leb_le in E200|apply leb_gt in E200|
                                     apply leb_le in E200|apply leb_gt in E200];
  destruct (Py.ltb 30 c) eqn:E30; [apply ltb_lt in E30|apply ltb_ge in E30|
                                   apply ltb_lt in E30|apply ltb_ge in E30|
                                   apply ltb_lt in E30|apply ltb_ge in E30|
                                   apply ltb_lt in E30|apply ltb_ge in E30];
  destruct (ImageProcessor.is_dark q) eqn:Ed;
    try (symmetry in Hdark; apply ltb_lt in Hdark);
    try (symmetry in Hdark; apply ltb_ge in Hdark);
  destruct (ImageProcessor.is_blurry q), (ImageProcessor.is_small q);
  destruct ((Py.leb 30 b && Py.ltb b 50) || (Py.ltb 200 b && Py.leb b 250));
  destruct (Py.ltb 20 c);
  simpl;
  repeat split; intros; try lia; try discriminate; try assumption;
  try (exfalso; lra);
  try (match goal with H : _ /\ _ |- _ => decompose [and] H end;
       try discriminate; exfalso; lra).
Qed.

End QualityMore.

Lemma crop_face_dimensions_witness :
  Z.of_nat (List.length (ImageCrop.crop_face Sample.gray (1, 3, 3, 1) 1))
  = Z.min (ImageProcessor.shape0 Sample.gray) (3 + 1) - Z.max 0 (1 - 1)
  /\ (forall row, In row (ImageCrop.crop_face Sample.gray (1, 3, 3, 1) 1) ->
        Z.of_nat (List.length row) = Z.min 4 (3 + 1) - Z.max 0 (1 - 1))
  /\ 3 - 1 <= Z.of_nat (List.length (ImageCrop.crop_face Sample.gray (1, 3, 3, 1) 1))
     <= ImageProcessor.shape0 Sample.gray
  /\ ImageCrop.crop_face Sample.gray (1, 3, 3, 1) 0
     = ImageProcessor.crop Sample.gray 1 3 1 3.
Proof.
  apply (crop_face_dimensions Sample.gray 1 3 3 1 1 4).
  - intros row H. simpl in H. intuition (subst; reflexivity).
  - lia.
  - lia.
  - vm_compute. discriminate.
  - lia.
  - lia.
Defined.

Lemma quality_score_thresholds_witness :
  let region := ImageProcessor.crop Sample.gray 0 4 0 4 in
  let q := ImageProcessor.detect_face_quality Sample.mean_gray Sample.std_gray
             Sample.laplacian_var Sample.gray (0, 4, 4, 0) in
  ImageProcessor.size region <> 0
  /\ (ImageProcessor.quality_score q = 100
      <-> ImageProcessor.is_blurry q = false /\ ImageProcessor.is_small q = false
          /\ (50 <= Sample.mean_gray region)%Q /\ (Sample.mean_gray region <= 200)%Q
          /\ (30 < Sample.std_gray region)%Q)
  /\ (ImageProcessor.is_blurry q = true -> ImageProcessor.quality_score q <= 70)
  /\ (ImageProcessor.is_dark q = true -> ImageProcessor.quality_score q <= 65)
  /\ (ImageProcessor.is_small q = true -> ImageProcessor.quality_score q <= 80)
  /\ (80 < ImageProcessor.quality_score q ->
      ImageProcessor.is_blurry q = false /\ ImageProcessor.is_dark q = false
      /\ ImageProcessor.is_small q = false).
Proof.
  assert (H : ImageProcessor.size (ImageProcessor.crop Sample.gray 0 4 0 4) <> 0)
    by (vm_compute; discriminate).
  split; [exact H|].
  exact (quality_score_thresholds Z Sample.mean_gray Sample.std_gray
           Sample.laplacian_var Sample.gray 0 4 4 0 H).
Defined.

(** ** The detector on an image and the routes *)

Section RouteFacts.

Variable image : Type.
Variable decode_image : string -> option image.
Variable face_locations : image -> option (list (Z * Z * Z * Z)).
Variable face_encodings : image -> list (Z * Z * Z * Z) -> option (list (list Q)).
Variable norm : list Q -> Q.
Variable format_percent : Q -> string.

Lemma recognized_name_is_known (self : FaceDetector.t) (q : list Q)
    (known : list (list Q)) (names : list string) (name : string) :
  FaceDetectorMatch.recognize_face norm self q known names = Some name ->
  In name names.
Proof.
  unfold FaceDetectorMatch.recognize_face.
  destruct known as [|k known]; [discriminate|].
  destruct names as [|n names]; [discriminate|].
  destruct (existsb _ _); [|discriminate].
  cbv zeta.
  destruct (FaceDetector.find_face_distance norm self q (k :: known)) as [|d0 ds];
    [discriminate|].
  destruct (Py.index _ _) as [i|]; [|discriminate].
  destruct (nth_error (d0 :: ds) i); [|discriminate].
  destruct (Py.ltb _ _); [|discriminate].
  apply nth_error_In.
Qed.

(** X19.  process_image returns the boxes the detector located and
    counts them in faces_found; a detector that raises gives the result
    for no face.  With a face located, the encodings are those the
    encoder returns for these boxes, with one name each; when the encoder
    raises, the faces are still reported and counted but there is neither
    an encoding nor a name.  Every name is "Unknown" or one of the known
    names, and without known encodings every name is "Unknown". *)
Theorem process_image_shape (self : FaceDetector.t) (known : list (list Q))
    (names : list string) (img : image) :
  let result := FaceApi.process_image image face_locations face_encodings norm
                  self known names img in
  (forall locations,
     face_locations img = Some locations ->
     Processed.face_locations result = locations
     /\ Processed.faces_found result = Z.of_nat (List.length locations))
  /\ (face_locations img = None -> result = Processed.mk 0 [] [] [])
  /\ (forall locations encodings,
        face_locations img = Some locations -> locations <> [] ->
        face_encodings img locations = Some encodings ->
        Processed.face_encodings result = encodings
        /\ List.length (Processed.names result) = List.length encodings)
  /\ (forall locations,
        face_locations img = Some locations ->
        face_encodings img locations = None ->
        Processed.faces_found result = Z.of_nat (List.length locations)
        /\ Processed.face_encodings result = []
        /\ Processed.names result = [])
  /\ (forall n, In n (Processed.names result) ->
        n = "Unknown"%string \/ (known <> [] /\ In n names)).
Proof.
  unfold FaceApi.process_image, FaceApi.detect_faces, FaceApi.get_face_encodings.
  destruct (face_locations img) as [[|box locations]|]; cbv zeta.
  - split; [intros l H; injection H as <-; now split|].
    split; [discriminate|].
    split; [intros l e H Hne; injection H as <-; now elim Hne|].
    split; [intros l H _; injection H as <-; repeat split|].
    intros n [].
  - split; [intros l H; injection H as <-; now split|].
    split; [discriminate|].
    destruct (face_encodings img (box :: locations)) as [encodings|] eqn:Ee.
    + split.
      { intros l e H _ He. injection H as <-. rewrite Ee in He.
        injection He as <-.
        split; [reflexivity|].
        cbn [Processed.names].
        destruct known; [apply repeat_length|apply length_map]. }
      split; [intros l H He; injection H as <-; rewrite Ee in He; discriminate|].
      intros n Hn. cbn [Processed.names] in Hn.
      destruct known as [|k known].
      * left. now apply repeat_spec in Hn.
      * apply in_map_iff in Hn. destruct Hn as [encoding [Hn _]].
        destruct (FaceDetectorMatch.recognize_face norm self encoding (k :: known) names)
          as [name|] eqn:Er; simpl in Hn; [|now left].
        destruct (String.eqb name EmptyString); [now left|].
        right. subst n. split; [discriminate|].
        eapply recognized_name_is_known. exact Er.
    + split; [intros l e H _ He; injection H as <-; rewrite Ee in He; discriminate|].
      split.
      { intros l H _. injection H as <-. cbn.
        split; [reflexivity|]. split; [reflexivity|]. now destruct known. }
      intros n Hn. cbn [Processed.names] in Hn. destruct known; destruct Hn.
  - split; [discriminate|]. split; [reflexivity|].
    split; [discriminate|]. split; [discriminate|]. intros n [].
Qed.

Lemma one_face_located (img : image) :
  let result := FaceApi.process_image image face_locations face_encodings norm
                  FaceApi.face_detector [] [] img in
  Processed.faces_found result = 1 ->
  exists box,
    face_locations img = Some [box]
    /\ Processed.face_encodings result
       = match face_encodings img [box] with Some e => e | None => [] end.
Proof.
  unfold FaceApi.process_image, FaceApi.detect_faces, FaceApi.get_face_encodings.
  destruct (face_locations img) as [[|box [|box' locations]]|]; simpl;
    try discriminate.
  - intros _. exists box. split; reflexivity.
  - intro H. exfalso. lia.
Qed.

Lemma located_faces_found (img : image) (locations : list (Z * Z * Z * Z)) :
  face_locations img = Some locations ->
  Processed.faces_found
    (FaceApi.process_image image face_locations face_encodings norm
       FaceApi.face_detector [] [] img)
  = Z.of_nat (List.length locations).
Proof.
  unfold FaceApi.process_image, FaceApi.detect_faces. intros ->.
  destruct locations; reflexivity.
Qed.

Ltac request_cases :=
  intros;
  repeat match goal with
         | H : exists _, _ |- _ => destruct H
         | H : _ /\ _ |- _ => destruct H
         | H : _ \/ _ |- _ => destruct H
         end.

(** X20.  The route /recognize always answers, with status 200, 400 or
    500, and leaves the session as it was.  It answers 200 exactly when
    get_json returns an object whose image data decodes to an image with
    exactly one located face for which the encoder returns an encoding,
    and the body is then the dictionary of recognize_employee_multi for
    the first encoding, whether or not somebody is recognized.  It
    answers 500 exactly when get_json raises, or returns a truthy value
    that is not an object, or one face is located but no encoding comes
    back. *)
Theorem recognize_route_answers (request : Request.t) (s : Db.session) :
  exists resp,
    FaceApi.recognize_face image decode_image face_locations face_encodings
      norm format_percent request s = (Db.Return resp, s)
    /\ (Response.status resp = 200 \/ Response.status resp = 400
        \/ Response.status resp = 500)
    /\ (Response.status resp = 200 <->
        exists d image_data img box enc rest,
          request = Request.Returns (Request.Object d)
          /\ Json.image d = Some image_data
          /\ image_data <> EmptyString
          /\ decode_image image_data = Some img
          /\ face_locations img = Some [box]
          /\ face_encodings img [box] = Some (enc :: rest))
    /\ (forall d image_data img box enc rest,
          request = Request.Returns (Request.Object d) ->
          Json.image d = Some image_data ->
          decode_image image_data = Some img ->
          face_locations img = Some [box] ->
          face_encodings img [box] = Some (enc :: rest) ->
          Response.status resp = 200 ->
          exists R,
            Response.content resp = Response.Payload R
            /\ FaceService.recognize_employee_multi norm format_percent
                 FaceService.init enc true s = (Db.Return R, s))
    /\ (Response.status resp = 500 <->
        (exists e, request = Request.Raises e)
        \/ (exists type_name,
              request = Request.Returns (Request.Other true type_name))
        \/ (exists d image_data img box,
              request = Request.Returns (Request.Object d)
              /\ Json.image d = Some image_data
              /\ image_data <> EmptyString
              /\ decode_image image_data = Some img
              /\ face_locations img = Some [box]
              /\ (face_encodings img [box] = None
                  \/ face_encodings img [box] = Some []))).
Proof.
  unfold FaceApi.recognize_face, Db.try_except.
  assert (Hempty : forall d, Json.is_empty d = true -> Json.image d = None).
  { intros d H. unfold Json.is_empty in H.
    destruct (Json.employee_code d), (Json.image d); try discriminate; reflexivity. }
  destruct request as [e|[|d|truthy type_name]].
  - (* get_json raises *)
    eexists. split; [reflexivity|]. cbn [Response.status Response.content].
    split; [tauto|].
    split; [split; [discriminate|request_cases; discriminate]|].
    split; [intros; discriminate|].
    split; [intros _; left; now exists e|reflexivity].
  - (* null *)
    eexists. split; [reflexivity|]. cbn [Response.status Response.content].
    split; [tauto|].
    split; [split; [discriminate|request_cases; discriminate]|].
    split; [intros; discriminate|].
    split; [discriminate|request_cases; discriminate].
  - (* an object *)
    destruct (Json.is_empty d) eqn:Eempty.
    { apply Hempty in Eempty.
      eexists. split; [reflexivity|]. cbn [Response.status Response.content].
      split; [tauto|].
      split; [split; [discriminate|request_cases; congruence]|].
      split; [intros; discriminate|].
      split; [discriminate|request_cases; congruence]. }
    destruct (Json.image d) as [image_data|] eqn:Eimg.
    2:{ eexists. split; [reflexivity|]. cbn [Response.status Response.content].
        split; [tauto|].
        split; [split; [discriminate|request_cases; congruence]|].
        split; [intros; discriminate|].
        split; [discriminate|request_cases; congruence]. }
    destruct (String.eqb_spec image_data EmptyString) as [Es|Es].
    { eexists. split; [reflexivity|]. cbn [Response.status Response.content].
      split; [tauto|].
      split; [split; [discriminate|request_cases; congruence]|].
      split; [intros; discriminate|].
      split; [discriminate|request_cases; congruence]. }
    destruct (decode_image image_data) as [img|] eqn:Edec.
    2:{ eexists. split; [reflexivity|]. cbn [Response.status Response.content].
        split; [tauto|].
        split; [split; [discriminate|request_cases; congruence]|].
        split; [intros; discriminate|].
        split; [discriminate|request_cases; congruence]. }
    cbv zeta.
    pose proof (one_face_located img) as Hone. cbv zeta in Hone.
    assert (Hloc : forall box img',
               decode_image image_data = Some img' ->
               face_locations img' = Some [box] ->
               Processed.faces_found
                 (FaceApi.process_image image face_locations face_encodings norm
                    FaceApi.face_detector [] [] img) = 1).
    { intros box img' Hd Hl. assert (img' = img) by congruence. subst img'.
      now rewrite (located_faces_found img [box] Hl). }
    set (result := FaceApi.process_image image face_locations face_encodings norm
                     FaceApi.face_detector [] [] img) in *.
    destruct (Z.eqb_spec (Processed.faces_found result) 0) as [E0|E0].
    { eexists. split; [reflexivity|]. cbn [Response.status Response.content].
      split; [tauto|].
      assert (Hno : forall d' i' img' box,
                 Request.Returns (Request.Object d)
                 = Request.Returns (Request.Object d') ->
                 Json.image d' = Some i' -> decode_image i' = Some img' ->
                 face_locations img' = Some [box] -> False).
      { intros d' i' img' box H1 H2 H3 H4. injection H1 as <-.
        assert (i' = image_data) by congruence. subst i'.
        pose proof (Hloc box img' H3 H4). lia. }
      split; [split; [discriminate|request_cases; exfalso; eapply Hno; eassumption]|].
      split; [intros; discriminate|].
      split; [discriminate|].
      intros [[e H]|[[ty H]|H]]; try discriminate.
      request_cases; exfalso; eapply Hno; eassumption. }
    destruct (Z.ltb_spec 1 (Processed.faces_found result)) as [E1|E1].
    { eexists. split; [reflexivity|]. cbn [Response.status Response.content].
      split; [tauto|].
      assert (Hno : forall d' i' img' box,
                 Request.Returns (Request.Object d)
                 = Request.Returns (Request.Object d') ->
                 Json.image d' = Some i' -> decode_image i' = Some img' ->
                 face_locations img' = Some [box] -> False).
      { intros d' i' img' box H1 H2 H3 H4. injection H1 as <-.
        assert (i' = image_data) by congruence. subst i'.
        pose proof (Hloc box img' H3 H4). lia. }
      split; [split; [discriminate|request_cases; exfalso; eapply Hno; eassumption]|].
      split; [intros; discriminate|].
      split; [discriminate|].
      intros [[e H]|[[ty H]|H]]; try discriminate.
      request_cases; exfalso; eapply Hno; eassumption. }
    assert (Ef : Processed.faces_found result = 1).
    { assert (0 <= Processed.faces_found result); [|lia].
      unfold result, FaceApi.process_image.
      destruct (FaceApi.detect_faces image face_locations img); simpl; lia. }
    destruct (Hone Ef) as [box [Hbox Henc]].
    rewrite Henc.
    assert (Hsame : forall d' i' img' box',
               Request.Returns (Request.Object d)
               = Request.Returns (Request.Object d') ->
               Json.image d' = Some i' -> decode_image i' = Some img' ->
               face_locations img' = Some [box'] -> img' = img /\ box' = box).
    { intros d' i' img' box' H1 H2 H3 H4. injection H1 as <-.
      assert (i' = image_data) by congruence. subst i'.
      assert (img' = img) by congruence. subst img'.
      split; [reflexivity|congruence]. }
    destruct (face_encodings img [box]) as [[|enc rest]|] eqn:Ee.
    + eexists. split; [reflexivity|]. cbn [Response.status Response.content].
      split; [tauto|].
      split; [split; [discriminate|]|].
      { intros (d' & i' & img' & box' & enc & rest & H1 & H2 & _ & H3 & H4 & H5).
        destruct (Hsame _ _ _ _ H1 H2 H3 H4) as [-> ->]. congruence. }
      split; [intros; discriminate|].
      split; [|reflexivity]. intros _. right. right.
      exists d, image_data, img, box.
      repeat (split; [solve [auto]|]). now right.
    + destruct (gallery_shape true s) as [es Hes].
      destruct (recognize_cases norm format_percent FaceService.init enc true s es Hes)
        as [R [HR _]].
      unfold Db.bind. rewrite HR. unfold Db.ret.
      eexists. split; [reflexivity|]. cbn [Response.status Response.content].
      split; [tauto|].
      split; [split; [intros _|reflexivity]|].
      { exists d, image_data, img, box, enc, rest. repeat split; auto. }
      split.
      { intros d' i' img' box' enc' rest' H1 H2 H3 H4 H5 _.
        destruct (Hsame _ _ _ _ H1 H2 H3 H4) as [-> ->].
        assert (enc' = enc) by congruence. subst enc'.
        exists R. split; [reflexivity|exact HR]. }
      split; [discriminate|].
      intros [[e H]|[[ty H]|H]]; try discriminate.
      destruct H as (d' & i' & img' & box' & H1 & H2 & _ & H3 & H4 & H5).
      destruct (Hsame _ _ _ _ H1 H2 H3 H4) as [-> ->].
      destruct H5; congruence.
    + eexists. split; [reflexivity|]. cbn [Response.status Response.content].
      split; [tauto|].
      split; [split; [discriminate|]|].
      { intros (d' & i' & img' & box' & enc & rest & H1 & H2 & _ & H3 & H4 & H5).
        destruct (Hsame _ _ _ _ H1 H2 H3 H4) as [-> ->]. congruence. }
      split; [intros; discriminate|].
      split; [|reflexivity]. intros _. right. right.
      exists d, image_data, img, box.
      repeat (split; [solve [auto]|]). now left.
  - (* a value that is not an object *)
    destruct truthy; cbn [negb].
    + eexists. split; [reflexivity|]. cbn [Response.status Response.content].
      split; [tauto|].
      split; [split; [discriminate|request_cases; discriminate]|].
      split; [intros; discriminate|].
      split; [intros _; right; left; now exists type_name|reflexivity].
    + eexists. split; [reflexivity|]. cbn [Response.status Response.content].
      split; [tauto|].
      split; [split; [discriminate|request_cases; discriminate]|].
      split; [intros; discriminate|].
      split; [discriminate|request_cases; discriminate].
Qed.





End RouteFacts.

(** ** The queries of the model against the listing *)

Lemma listing_members (table : list FaceEmbedding.t) (code : string)
    (r : FaceEmbedding.t) :
  In r (FaceEmbedding.get_all_embeddings table code true)
  <-> In r table /\ FaceEmbedding.employee_code r = code
      /\ FaceEmbedding.is_active r = true.
Proof.
  unfold FaceEmbedding.get_all_embeddings.
  split.
  - intro H. apply (Permutation_in _ (order_by_perm _)) in H.
    apply filter_In in H. destruct H as [H Ha].
    apply filter_In in H. destruct H as [H Hc].
    apply String.eqb_eq in Hc. auto.
  - intros (H & Hc & Ha).
    apply (Permutation_in _ (Permutation_sym (order_by_perm _))).
    apply filter_In. split; [|exact Ha].
    apply filter_In. split; [exact H|]. now apply String.eqb_eq.
Qed.

Lemma at_most_one_member {A} (l : list A) (a b : A) :
  (List.length l <= 1)%nat -> In a l -> In b l -> a = b.
Proof.
  destruct l as [|x [|y l]]; simpl; intros Hl Ha Hb.
  - contradiction.
  - destruct Ha as [<-|[]], Hb as [<-|[]]. reflexivity.
  - lia.
Qed.

(** X22.  In a table where no identity has two active primary rows, the
    row that get_primary_embedding returns is the first row of the
    listing get_all_embeddings of that identity; without a primary row
    the listing holds no primary row at all. *)
Theorem primary_heads_the_listing (table : list FaceEmbedding.t) (code : string) :
  Store.primary_unique table ->
  match FaceEmbeddingQuery.get_primary_embedding table code with
  | Some r =>
      exists rest, FaceEmbedding.get_all_embeddings table code true = r :: rest
  | None =>
      forall r, In r (FaceEmbedding.get_all_embeddings table code true) ->
                FaceEmbedding.is_primary r = false
  end.
Proof.
  intro Hu.
  unfold FaceEmbeddingQuery.get_primary_embedding.
  destruct (find _ table) as [r|] eqn:Ef.
  - apply find_some in Ef. destruct Ef as [Hin Hb].
    apply andb_true_iff in Hb. destruct Hb as [Hb Ha].
    apply andb_true_iff in Hb. destruct Hb as [Hc Hp].
    apply String.eqb_eq in Hc.
    assert (Hl : In r (FaceEmbedding.get_all_embeddings table code true))
      by (apply listing_members; auto).
    assert (Hs : StronglySorted Store.comes_before
                   (FaceEmbedding.get_all_embeddings table code true))
      by apply order_by_sorted.
    pose proof (listing_members table code) as Hm.
    destruct (FaceEmbedding.get_all_embeddings table code true) as [|h rest];
      [contradiction|].
    exists rest. f_equal.
    assert (Hh : FaceEmbedding.is_primary h = true).
    { destruct Hl as [->|Hl]; [exact Hp|].
      inversion Hs as [|h' l' _ Hall]; subst.
      pose proof (proj1 (Forall_forall _ _) Hall r Hl) as Hcb.
      destruct Hcb as [[Hh _]|[Hh _]]; congruence. }
    destruct (proj1 (Hm h) (or_introl eq_refl)) as (Hhin & Hhc & Hha).
    apply (at_most_one_member (Store.active_primaries code table)); [apply Hu| |].
    + apply filter_In. split; [exact Hhin|].
      unfold FaceService.code_is. rewrite Hha, Hh.
      now rewrite (proj2 (String.eqb_eq _ _) Hhc).
    + apply filter_In. split; [exact Hin|].
      unfold FaceService.code_is. rewrite Ha, Hp.
      now rewrite (proj2 (String.eqb_eq _ _) Hc).
  - intros r Hr. apply listing_members in Hr. destruct Hr as (Hin & Hc & Ha).
    pose proof (find_none _ _ Ef r Hin) as Hn. cbv beta in Hn.
    rewrite Ha, (proj2 (String.eqb_eq _ _) Hc) in Hn. simpl in Hn.
    now rewrite andb_true_r in Hn.
Qed.

(** X23.  For a variant other than the empty string and "default", the
    dictionary of get_employee_embeddings_dict over the active rows has
    this variant as a key exactly when get_embeddings_by_variant returns
    a row with a readable vector, and the value is the vector of such a
    row.  (Rows without a variant, or with an empty one, are filed under
    "default", where the query by variant does not find them.) *)
Theorem dict_key_iff_variant_row (code variant : string) (s : Db.session) :
  variant <> EmptyString ->
  variant <> "default"%string ->
  Db.raises s Db.SelectEmbeddings = false ->
  exists d,
    FaceServiceMore.get_employee_embeddings_dict code true s = (Db.Return d, s)
    /\ ((exists v, PyDict.get d variant = Some v)
        <-> exists r,
              In r (FaceEmbeddingQuery.get_embeddings_by_variant
                      (Db.face_embeddings (Db.pending s)) code variant)
              /\ FaceEmbedding.get_embedding r <> None)
    /\ (forall v, PyDict.get d variant = Some v ->
          exists r,
            In r (FaceEmbeddingQuery.get_embeddings_by_variant
                    (Db.face_embeddings (Db.pending s)) code variant)
            /\ FaceEmbedding.get_embedding r = Some v).
Proof.
  intros Hne Hnd Hsel.
  unfold FaceServiceMore.get_employee_embeddings_dict, FaceService.get_employee_embeddings,
    Db.try_except, Db.bind, Db.execute, Db.get_pending, Db.ret.
  rewrite Hsel. eexists. split; [reflexivity|].
  set (tbl := Db.face_embeddings (Db.pending s)).
  assert (Hkey : forall r, FaceServiceMore.variant_or_default (FaceEmbedding.variant_type r)
                           = variant
                           <-> FaceEmbedding.variant_type r = Some variant).
  { intro r. unfold FaceServiceMore.variant_or_default.
    destruct (FaceEmbedding.variant_type r) as [v0|].
    - destruct (String.eqb_spec v0 EmptyString) as [E|E].
      + subst v0. split; [congruence|]. intro H. injection H as H. congruence.
      + split; [now intros ->|]. intro H. now injection H.
    - split; [congruence|discriminate]. }
  assert (Hrow : forall v,
             PyDict.get (FaceServiceMore.fill
                           (FaceEmbedding.get_all_embeddings tbl code true) []) variant
             = Some v ->
             exists r, In r (FaceEmbeddingQuery.get_embeddings_by_variant tbl code variant)
                       /\ FaceEmbedding.get_embedding r = Some v).
  { intros v Hv. rewrite fill_get in Hv.
    destruct (find _ (rev _)) as [r|] eqn:Ef; [|discriminate].
    apply find_some in Ef. destruct Ef as [Hin Hb].
    apply in_rev, listing_members in Hin. destruct Hin as (Hin & Hc & Ha).
    rewrite Hv in Hb. apply String.eqb_eq, Hkey in Hb.
    exists r. split; [|exact Hv].
    apply filter_In. split; [exact Hin|].
    rewrite Hb, Ha, String.eqb_refl, (proj2 (String.eqb_eq _ _) Hc). reflexivity. }
  split; [|exact Hrow].
  split.
  - intros [v Hv]. destruct (Hrow v Hv) as [r [Hin Hr]].
    exists r. split; [exact Hin|congruence].
  - intros [r [Hin Hr]].
    apply filter_In in Hin. destruct Hin as [Hin Hb].
    apply andb_true_iff in Hb. destruct Hb as [Hb Ha].
    apply andb_true_iff in Hb. destruct Hb as [Hc Hv].
    apply String.eqb_eq in Hc.
    assert (Hvar : FaceEmbedding.variant_type r = Some variant).
    { destruct (FaceEmbedding.variant_type r) as [v0|]; [|discriminate].
      apply String.eqb_eq in Hv. now subst. }
    rewrite fill_get.
    destruct (find _ (rev _)) as [r'|] eqn:Ef.
    + apply find_some in Ef. destruct Ef as [_ Hb].
      destruct (FaceEmbedding.get_embedding r') as [v|]; [|discriminate].
      now exists v.
    + exfalso.
      assert (Hl : In r (rev (FaceEmbedding.get_all_embeddings tbl code true))).
      { apply -> in_rev. apply listing_members. auto. }
      pose proof (find_none _ _ Ef r Hl) as Hn. cbv beta in Hn.
      destruct (FaceEmbedding.get_embedding r); [|now apply Hr].
      rewrite (proj2 (Hkey r) Hvar), String.eqb_refl in Hn. discriminate.
Qed.

Lemma primary_heads_the_listing_witness :
  exists rest,
    FaceEmbedding.get_all_embeddings
      (Db.face_embeddings (Db.pending Sample.two_rows)) "E1" true
    = Example.row 2 "E1" [1; 1]%Q "standard" true true 20 :: rest.
Proof.
  refine (primary_heads_the_listing
            (Db.face_embeddings (Db.pending Sample.two_rows)) "E1" _).
  intro c. unfold Store.active_primaries.
  change (Db.face_embeddings (Db.pending Sample.two_rows))
    with [Example.row 1 "E1" [0; 0]%Q "standard" false true 10;
          Example.row 2 "E1" [1; 1]%Q "standard" true true 20].
  cbn [filter].
  destruct (FaceService.code_is c (Example.row 1 "E1" [0; 0]%Q "standard" false true 10)),
    (FaceService.code_is c (Example.row 2 "E1" [1; 1]%Q "standard" true true 20));
    cbn; lia.
Defined.

Lemma dict_key_iff_variant_row_witness :
  exists d,
    FaceServiceMore.get_employee_embeddings_dict "E1" true
      (snd (FaceService.run_call Sample.enroll_E1_primary Example.one_face))
    = (Db.Return d, snd (FaceService.run_call Sample.enroll_E1_primary Example.one_face))
    /\ ((exists v, PyDict.get d "with_glasses" = Some v)
        <-> exists r,
              In r (FaceEmbeddingQuery.get_embeddings_by_variant
                      (Db.face_embeddings
                         (Db.pending (snd (FaceService.run_call Sample.enroll_E1_primary
                                             Example.one_face))))
                      "E1" "with_glasses")
              /\ FaceEmbedding.get_embedding r <> None)
    /\ (forall v, PyDict.get d "with_glasses" = Some v ->
          exists r,
            In r (FaceEmbeddingQuery.get_embeddings_by_variant
                    (Db.face_embeddings
                       (Db.pending (snd (FaceService.run_call Sample.enroll_E1_primary
                                           Example.one_face))))
                    "E1" "with_glasses")
            /\ FaceEmbedding.get_embedding r = Some v).
Proof.
  apply (dict_key_iff_variant_row "E1" "with_glasses"
           (snd (FaceService.run_call Sample.enroll_E1_primary Example.one_face))).
  - discriminate.
  - discriminate.
  - reflexivity.
Defined.
